(** * Ledger core of the halal-economy Discord bot (bot.py)

    A shallow embedding of the money-moving handlers of [bot.py] over an
    explicit model of the SQLite database they share.

    Modelling conventions:
    - REAL columns and Python floats are modelled as exact rationals [Q];
      floating-point rounding is not modelled.
    - TEXT identifiers and status strings are [string]s, compared with
      [String.eqb] as Python's [==] does.
    - Dates stored as ['%Y-%m-%d'] strings are day numbers ([Z]); string
      order on that format is day order.  "now" is the current day number:
      [(now - due).days] in the source is [now - due] because the time of day
      is below one day.
    - Free-text columns (descriptions, usernames, purposes) are left out.
    - Each SQL statement runs in the [sql] error/state monad; a handler's
      transaction is [run_tx]: a committed body keeps its final database, a
      rolled-back body or a raised exception keeps the database the
      transaction started from (an uncommitted transaction is discarded when
      the connection is closed or dropped). *)

From Stdlib Require Import String Ascii List NArith ZArith QArith Qabs Qround Lqa Bool Lia.
Import ListNotations.

Open Scope Q_scope.

(** ** Small helpers standing for Python's comparisons and string methods *)

Definition Qltb (x y : Q) : bool := negb (Qle_bool y x).

Definition is_digit (c : ascii) : bool :=
  let n := nat_of_ascii c in (Nat.leb 48 n && Nat.leb n 57)%bool.

Fixpoint all_digits (s : string) : bool :=
  match s with
  | EmptyString => true
  | String c r => is_digit c && all_digits r
  end.

(** [str.isdigit()] is false on the empty string. *)
Definition isdigit (s : string) : bool :=
  match s with EmptyString => false | _ => all_digits s end.

Definition lower_ascii (c : ascii) : ascii :=
  let n := nat_of_ascii c in
  if (Nat.leb 65 n && Nat.leb n 90)%bool then ascii_of_nat (n + 32) else c.

Fixpoint lower (s : string) : string :=
  match s with
  | EmptyString => EmptyString
  | String c r => String (lower_ascii c) (lower r)
  end.

(** ** Data model: the tables created by [init_database] *)

Inductive currency := gold_dinars | silver_dirhams.

Record user_row := mk_user {
  user_id : string;
  gold : Q;
  silver : Q }.

Definition balance_of (u : user_row) (c : currency) : Q :=
  match c with gold_dinars => gold u | silver_dirhams => silver u end.

Definition set_balance (u : user_row) (c : currency) (v : Q) : user_row :=
  match c with
  | gold_dinars => mk_user (user_id u) v (silver u)
  | silver_dirhams => mk_user (user_id u) (gold u) v
  end.

Record txn_row := mk_txn {
  tx_user_id : string;
  transaction_type : string;
  tx_amount : Q;
  tx_currency : string;
  partner_id : option string }.

Record app_row := mk_app {
  app_id : nat;
  app_borrower_id : string;
  app_loan_amount : Q;
  app_currency : string;
  app_due_date : Z;
  app_status : string;
  funded_by : option string }.

Record loan_row := mk_loan {
  loan_id : nat;
  lender_id : string;
  borrower_id : string;
  loan_amount : Q;
  loan_currency : string;
  due_date : Z;
  repaid_amount : Q;
  loan_status : string }.

Record business_row := mk_biz {
  biz_id : nat;
  biz_user_id : string;
  business_type : string;
  biz_status : string;
  license_code : option string }.

Record investment_row := mk_inv {
  inv_id : nat;
  inv_user_id : string;
  inv_status : string }.

Record listing_row := mk_listing {
  listing_id : nat;
  seller_id : string }.

Record bank_account_row := mk_ba {
  ba_id : nat;
  account_number : string;
  institution_business_id : nat;
  owner_user_id : string;
  account_type : string;
  ba_currency : string;
  ba_balance : Q;
  profit_share_ratio : option Q;
  ba_status : string }.

Record bank_ledger_row := mk_bl {
  bl_account_id : nat;
  entry_type : string;
  bl_amount : Q;
  bl_currency : string;
  counterparty_account_id : option nat;
  created_by_user_id : string }.

Record permission_row := mk_perm {
  perm_account_id : nat;
  perm_user_id : string;
  role : string }.

Record db := mk_db {
  users : list user_row;
  transactions : list txn_row;
  loan_applications : list app_row;
  loans : list loan_row;
  businesses : list business_row;
  investments : list investment_row;
  marketplace : list listing_row;
  bank_accounts : list bank_account_row;
  bank_ledger : list bank_ledger_row;
  bank_account_permissions : list permission_row }.

Definition set_users (d : db) x := mk_db x (transactions d) (loan_applications d)
  (loans d) (businesses d) (investments d) (marketplace d) (bank_accounts d)
  (bank_ledger d) (bank_account_permissions d).
Definition set_transactions (d : db) x := mk_db (users d) x (loan_applications d)
  (loans d) (businesses d) (investments d) (marketplace d) (bank_accounts d)
  (bank_ledger d) (bank_account_permissions d).
Definition set_loan_applications (d : db) x := mk_db (users d) (transactions d) x
  (loans d) (businesses d) (investments d) (marketplace d) (bank_accounts d)
  (bank_ledger d) (bank_account_permissions d).
Definition set_loans (d : db) x := mk_db (users d) (transactions d)
  (loan_applications d) x (businesses d) (investments d) (marketplace d)
  (bank_accounts d) (bank_ledger d) (bank_account_permissions d).
Definition set_businesses (d : db) x := mk_db (users d) (transactions d)
  (loan_applications d) (loans d) x (investments d) (marketplace d)
  (bank_accounts d) (bank_ledger d) (bank_account_permissions d).
Definition set_investments (d : db) x := mk_db (users d) (transactions d)
  (loan_applications d) (loans d) (businesses d) x (marketplace d)
  (bank_accounts d) (bank_ledger d) (bank_account_permissions d).
Definition set_marketplace (d : db) x := mk_db (users d) (transactions d)
  (loan_applications d) (loans d) (businesses d) (investments d) x
  (bank_accounts d) (bank_ledger d) (bank_account_permissions d).
Definition set_bank_accounts (d : db) x := mk_db (users d) (transactions d)
  (loan_applications d) (loans d) (businesses d) (investments d) (marketplace d)
  x (bank_ledger d) (bank_account_permissions d).
Definition set_bank_ledger (d : db) x := mk_db (users d) (transactions d)
  (loan_applications d) (loans d) (businesses d) (investments d) (marketplace d)
  (bank_accounts d) x (bank_account_permissions d).
Definition set_bank_account_permissions (d : db) x := mk_db (users d)
  (transactions d) (loan_applications d) (loans d) (businesses d)
  (investments d) (marketplace d) (bank_accounts d) (bank_ledger d) x.

(** The columns of the [users] table as [init_database] creates it. *)
Definition users_columns : list string :=
  ["user_id"; "username"; "gold_dinars"; "silver_dirhams";
   "last_zakat_payment"; "total_charity"; "created_at"]%string.

(** A currency column named by a string, as in the f-string
    [UPDATE users SET {currency} = ...]: SQLite column names are
    case-insensitive. *)
Definition currency_column (name : string) : option currency :=
  if String.eqb (lower name) "gold_dinars" then Some gold_dinars
  else if String.eqb (lower name) "silver_dirhams" then Some silver_dirhams
  else None.

Definition currency_name (c : currency) : string :=
  match c with gold_dinars => "gold_dinars" | silver_dirhams => "silver_dirhams" end.

(** ** SQL statements in an error/state monad *)

Inductive sql_res (A : Type) : Type :=
| SOk (a : A) (d : db)
| SErr (msg : string).
Arguments SOk {A} a d.
Arguments SErr {A} msg.

Definition sql (A : Type) : Type := db -> sql_res A.

Definition sret {A} (a : A) : sql A := fun d => SOk a d.

Definition sbind {A B} (m : sql A) (k : A -> sql B) : sql B :=
  fun d => match m d with SOk a d' => k a d' | SErr e => SErr e end.

Definition sraise {A} (msg : string) : sql A := fun _ => SErr msg.

Notation "x <- m ;; k" := (sbind m (fun x => k))
  (at level 61, m at next level, right associativity).
Notation "m ;;; k" := (sbind m (fun _ => k))
  (at level 61, right associativity).

(** How a transaction body ends: [conn.commit()] or [conn.rollback()]. *)
Inductive tx_end (A : Type) : Type :=
| Commit (a : A)
| Rollback (a : A).
Arguments Commit {A} a.
Arguments Rollback {A} a.

(** Run a transaction body from [d]; [on_exc] is the handler's
    [except Exception] branch. *)
Definition run_tx {A} (body : sql (tx_end A)) (on_exc : string -> A) (d : db)
  : A * db :=
  match body d with
  | SOk (Commit a) d' => (a, d')
  | SOk (Rollback a) _ => (a, d)
  | SErr e => (on_exc e, d)
  end.

(** [UPDATE users SET <col> = f(<col>) WHERE ...]; returns [cursor.rowcount]. *)
Definition update_users (c : currency) (f : Q -> Q) (where_ : user_row -> bool)
  : sql nat :=
  fun d =>
    SOk (length (filter where_ (users d)))
        (set_users d (map (fun u => if where_ u then set_balance u c (f (balance_of u c)) else u)
                          (users d))).

(** The same statement with the column named by a string (f-string SQL);
    the WHERE clause may read that column too. *)
Definition update_users_col (col : string) (f : Q -> Q)
  (where_ : currency -> user_row -> bool) : sql nat :=
  match currency_column col with
  | Some c => update_users c f (where_ c)
  | None => sraise "no such column"
  end.

Definition user_exists (d : db) (uid : string) : bool :=
  existsb (fun u => String.eqb (user_id u) uid) (users d).

(** [INSERT INTO transactions ...]; with [PRAGMA foreign_keys = ON] the
    [user_id] column must name an existing user. *)
Definition insert_transaction (fk : bool) (t : txn_row) : sql unit :=
  fun d =>
    if (fk && negb (user_exists d (tx_user_id t)))%bool
    then SErr "FOREIGN KEY constraint failed"
    else SOk tt (set_transactions d (transactions d ++ [t])).

(** ** [validate_user_id], [validate_amount], [get_user_account] *)

Definition validate_user_id (user_id : option string) : bool :=
  match user_id with
  | None => false
  | Some s => (isdigit s && Nat.leb 17 (String.length s) && Nat.leb (String.length s) 19)%bool
  end.

Definition validate_amount (amount : Q) : bool :=
  (Qle_bool (1 # 100) amount && Qle_bool amount (99999999 # 100))%bool.

Fixpoint find_user (us : list user_row) (uid : string) : option user_row :=
  match us with
  | [] => None
  | u :: r => if String.eqb (user_id u) uid then Some u else find_user r uid
  end.

(** Get or create a user account (own connection, committed at once).
    Invalid ids get a zero-balance dictionary and no row. *)
Definition get_user_account (uid : string) (d : db) : user_row * db :=
  if negb (validate_user_id (Some uid)) then (mk_user uid 0 0, d)
  else match find_user (users d) uid with
       | Some u => (u, d)
       | None =>
           let u := mk_user uid 100 500 in
           (u, set_users d (users d ++ [u]))
       end.

(** The balance a caller reads back for a user, [None] when there is no row. *)
Definition balance (d : db) (uid : string) (c : currency) : option Q :=
  option_map (fun u => balance_of u c) (find_user (users d) uid).

(** ** [transfer_money]: the HTTP [POST /api/pay] handler *)

Record pay_request := mk_pay {
  token_ok : bool;
  has_json : bool;
  from_user : option string;
  to_user : option string;
  amount : Q;
  req_currency : string }.

Inductive api_resp :=
| ApiOk (msg : string)
| ApiErr (code : nat) (msg : string).

Definition str_of (o : option string) : string :=
  match o with Some s => s | None => EmptyString end.

Definition transfer_money_tx (from to cur : string) (amt : Q) : sql (tx_end api_resp) :=
  rc <- update_users_col cur (fun b => b - amt)
          (fun c u => String.eqb (user_id u) from && Qle_bool amt (balance_of u c)) ;;
  if Nat.eqb rc 0 then sret (Rollback (ApiErr 400 "Insufficient funds or user not found")) else
  rc2 <- update_users_col cur (fun b => b + amt) (fun _ u => String.eqb (user_id u) to) ;;
  if Nat.eqb rc2 0 then sret (Rollback (ApiErr 400 "Recipient user not found")) else
  insert_transaction true (mk_txn from "transfer_send" amt cur (Some to)) ;;;
  insert_transaction true (mk_txn to "transfer_receive" amt cur (Some from)) ;;;
  sret (Commit (ApiOk "Transferred")).

Definition transfer_money (r : pay_request) (d : db) : api_resp * db :=
  if negb (token_ok r) then (ApiErr 401 "Unauthorized", d) else
  if negb (has_json r) then (ApiErr 400 "No JSON data provided", d) else
  if negb (validate_user_id (from_user r) && validate_user_id (to_user r))%bool
  then (ApiErr 400 "Invalid user ID format", d) else
  if negb (validate_amount (amount r)) then (ApiErr 400 "Invalid amount", d) else
  if negb (String.eqb (req_currency r) "gold_dinars" || String.eqb (req_currency r) "silver_dirhams")%bool
  then (ApiErr 400 "Invalid currency type", d) else
  if String.eqb (str_of (from_user r)) (str_of (to_user r))
  then (ApiErr 400 "Cannot transfer to yourself", d) else
  run_tx (transfer_money_tx (str_of (from_user r)) (str_of (to_user r)) (req_currency r) (amount r))
         (fun e => ApiErr 500 e) d.

(** System-wide total of one currency over the [users] table. *)
Definition sum_balances (c : currency) (us : list user_row) : Q :=
  fold_right Qplus 0 (map (fun u => balance_of u c) us).

Definition total (d : db) (c : currency) : Q := sum_balances c (users d).

(** The row update of [UPDATE users SET c = f(c) WHERE user_id = a]. *)
Definition upd_row (a : string) (c : currency) (f : Q -> Q) (u : user_row) : user_row :=
  if String.eqb (user_id u) a then set_balance u c (f (balance_of u c)) else u.

(** The input checks [transfer_money] makes before opening its transaction. *)
Definition pay_request_valid (r : pay_request) : bool :=
  (token_ok r && has_json r
   && validate_user_id (from_user r) && validate_user_id (to_user r)
   && validate_amount (amount r)
   && (String.eqb (req_currency r) "gold_dinars" || String.eqb (req_currency r) "silver_dirhams")
   && negb (String.eqb (str_of (from_user r)) (str_of (to_user r))))%bool.

(** The error of the first input check a request fails, in the order the
    handler documents them: token, JSON body, user ids, amount range,
    currency, distinct parties; [None] when it passes them all. *)
Definition pay_first_failed_check (r : pay_request) : option api_resp :=
  if negb (token_ok r) then Some (ApiErr 401 "Unauthorized") else
  if negb (has_json r) then Some (ApiErr 400 "No JSON data provided") else
  if negb (validate_user_id (from_user r)) then Some (ApiErr 400 "Invalid user ID format") else
  if negb (validate_user_id (to_user r)) then Some (ApiErr 400 "Invalid user ID format") else
  if negb (validate_amount (amount r)) then Some (ApiErr 400 "Invalid amount") else
  if negb (String.eqb (req_currency r) "gold_dinars" || String.eqb (req_currency r) "silver_dirhams")%bool
  then Some (ApiErr 400 "Invalid currency type") else
  if String.eqb (str_of (from_user r)) (str_of (to_user r))
  then Some (ApiErr 400 "Cannot transfer to yourself") else
  None.

(** ** Generic row updates of the other tables *)

Definition map_if {A} (w : A -> bool) (g : A -> A) (l : list A) : list A :=
  map (fun x => if w x then g x else x) l.

(** [UPDATE users SET <several columns> WHERE ...]: every named column must
    exist in the table, otherwise SQLite raises "no such column". *)
Definition update_users_cols (cols : list string) (g : user_row -> user_row)
  (where_ : user_row -> bool) : sql nat :=
  fun d =>
    match find (fun col => negb (existsb (String.eqb col) users_columns)) cols with
    | Some col => SErr ("no such column: " ++ col)%string
    | None => SOk (length (filter where_ (users d))) (set_users d (map_if where_ g (users d)))
    end.

Definition update_loan_applications (w : app_row -> bool) (g : app_row -> app_row) : sql unit :=
  fun d => SOk tt (set_loan_applications d (map_if w g (loan_applications d))).

Definition update_loans (w : loan_row -> bool) (g : loan_row -> loan_row) : sql unit :=
  fun d => SOk tt (set_loans d (map_if w g (loans d))).

Definition update_businesses (w : business_row -> bool) (g : business_row -> business_row) : sql unit :=
  fun d => SOk tt (set_businesses d (map_if w g (businesses d))).

Definition update_investments (w : investment_row -> bool) (g : investment_row -> investment_row)
  : sql unit :=
  fun d => SOk tt (set_investments d (map_if w g (investments d))).

Definition delete_marketplace (w : listing_row -> bool) : sql unit :=
  fun d => SOk tt (set_marketplace d (filter (fun l => negb (w l)) (marketplace d))).

(** AUTOINCREMENT ids: one more than the largest id in the table. *)
Definition next_id (ids : list nat) : nat := S (fold_right Nat.max 0%nat ids).

(** [INSERT INTO loans ...] under [PRAGMA foreign_keys = ON]: lender and
    borrower must be users.  Returns [cursor.lastrowid]. *)
Definition insert_loan (l : nat -> loan_row) : sql nat :=
  fun d =>
    let id := next_id (map loan_id (loans d)) in
    if (user_exists d (lender_id (l id)) && user_exists d (borrower_id (l id)))%bool
    then SOk id (set_loans d (loans d ++ [l id]))
    else SErr "FOREIGN KEY constraint failed".

(** [INSERT INTO loan_applications ...] under [PRAGMA foreign_keys = ON]. *)
Definition insert_loan_application (a : nat -> app_row) : sql nat :=
  fun d =>
    let id := next_id (map app_id (loan_applications d)) in
    if user_exists d (app_borrower_id (a id))
    then SOk id (set_loan_applications d (loan_applications d ++ [a id]))
    else SErr "FOREIGN KEY constraint failed".

(** A handler's answer: the text of [interaction.response.send_message]
    (emoji and formatted numbers left out). *)
Inductive reply := Say (msg : string).

(** ** Loans: [apply_for_loan], [fund_loan], [repay_loan] *)

Definition count_pending_apps (d : db) (uid : string) : nat :=
  length (filter (fun a => String.eqb (app_borrower_id a) uid && String.eqb (app_status a) "pending")
                 (loan_applications d)).

(** [now] is today's day number; [due_date] is [now + repayment_days]. *)
Definition apply_for_loan (caller : string) (loan_amount : Q) (cur : string)
  (repayment_days : Z) (purpose : string) (now : Z) (d : db) : reply * db :=
  if negb (String.eqb (lower cur) "gold_dinars" || String.eqb (lower cur) "silver_dirhams")%bool
  then (Say "Currency must be 'gold_dinars' or 'silver_dirhams'", d) else
  if (Qle_bool loan_amount 0 || Z.leb repayment_days 0)%bool
  then (Say "Loan amount and repayment days must be positive", d) else
  if Z.ltb 365 repayment_days then (Say "Maximum loan term is 365 days", d) else
  if Nat.ltb (String.length purpose) 10
  then (Say "Please provide a detailed purpose (minimum 10 characters)", d) else
  if Nat.leb 3 (count_pending_apps d caller)
  then (Say "You can only have 3 pending loan applications at a time.", d) else
  run_tx
    (_ <- insert_loan_application
            (fun id => mk_app id caller loan_amount cur (now + repayment_days) "pending" None) ;;
     sret (Commit (Say "Loan Application Submitted!")))
    (fun _ => (Say "Error submitting loan application. Please try again later.")) d.

(** [SELECT ... FROM loan_applications WHERE id = ? AND status = 'pending'],
    [fetchone()]. *)
Definition find_pending_app (apps : list app_row) (id : nat) : option app_row :=
  find (fun a => Nat.eqb (app_id a) id && String.eqb (app_status a) "pending") apps.

(** The column the lender's balance is read from and written to:
    [user_data['gold_dinars'] if currency == 'gold_dinars' else
    user_data['silver_dirhams']]. *)
Definition branch_currency (cur : string) : currency :=
  if String.eqb cur "gold_dinars" then gold_dinars else silver_dirhams.

Definition fund_loan_tx (caller : string) (application_id : nat) (ap : app_row)
  (user_data : user_row) : sql (tx_end reply) :=
  let amt := app_loan_amount ap in
  let cur := app_currency ap in
  let borrower := app_borrower_id ap in
  let lc := branch_currency cur in
  update_users lc (fun _ => balance_of user_data lc - amt)
    (fun u => String.eqb (user_id u) caller) ;;;
  update_users_col cur (fun b => b + amt) (fun _ u => String.eqb (user_id u) borrower) ;;;
  _ <- insert_loan (fun id => mk_loan id caller borrower amt cur (app_due_date ap) 0 "active") ;;
  update_loan_applications (fun a => Nat.eqb (app_id a) application_id)
    (fun a => mk_app (app_id a) (app_borrower_id a) (app_loan_amount a) (app_currency a)
                     (app_due_date a) "funded" (Some caller)) ;;;
  insert_transaction true (mk_txn caller "loan_given" amt cur (Some borrower)) ;;;
  insert_transaction true (mk_txn borrower "loan_received" amt cur (Some caller)) ;;;
  sret (Commit (Say "Loan Successfully Funded!")).

Definition fund_loan (caller : string) (application_id : nat) (d : db) : reply * db :=
  match find_pending_app (loan_applications d) application_id with
  | None => (Say "Loan application not found or already funded.", d)
  | Some ap =>
      if String.eqb (app_borrower_id ap) caller
      then (Say "You cannot fund your own loan application!", d) else
      let (user_data, d1) := get_user_account caller d in
      if Qltb (balance_of user_data (branch_currency (app_currency ap))) (app_loan_amount ap)
      then (Say "Insufficient funds.", d1) else
      run_tx (fund_loan_tx caller application_id ap user_data)
             (fun _ => (Say "Error funding loan. Please try again later.")) d1
  end.

(** [SELECT ... FROM loans WHERE id = ? AND borrower_id = ?], [fetchone()]. *)
Definition find_loan_of (ls : list loan_row) (id : nat) (borrower : string) : option loan_row :=
  find (fun l => Nat.eqb (loan_id l) id && String.eqb (borrower_id l) borrower) ls.

Definition set_repayment (repaid : Q) (status : string) (l : loan_row) : loan_row :=
  mk_loan (loan_id l) (lender_id l) (borrower_id l) (loan_amount l) (loan_currency l)
          (due_date l) repaid status.

Definition repay_loan_tx (caller : string) (lid : nat) (l : loan_row) (amt : Q)
  (user_data : user_row) : sql (tx_end reply) :=
  let cur := loan_currency l in
  let bc := branch_currency cur in
  update_users bc (fun _ => balance_of user_data bc - amt)
    (fun u => String.eqb (user_id u) caller) ;;;
  update_users_col cur (fun b => b + amt) (fun _ u => String.eqb (user_id u) (lender_id l)) ;;;
  let new_repaid_amount := repaid_amount l + amt in
  let status : string := if Qle_bool (loan_amount l) new_repaid_amount then "completed"%string else "active"%string in
  update_loans (fun x => Nat.eqb (loan_id x) lid) (set_repayment new_repaid_amount status) ;;;
  insert_transaction true (mk_txn caller "loan_repayment" amt cur (Some (lender_id l))) ;;;
  insert_transaction true (mk_txn (lender_id l) "loan_repayment_received" amt cur (Some caller)) ;;;
  sret (Commit (Say "Loan Repayment Processed!")).

Definition repay_loan (caller : string) (lid : nat) (repayment_amount : Q) (d : db)
  : reply * db :=
  match find_loan_of (loans d) lid caller with
  | None => (Say "Loan not found or you are not the borrower.", d)
  | Some l =>
      if negb (String.eqb (loan_status l) "active") then (Say "This loan is not active.", d) else
      let remaining_amount := loan_amount l - repaid_amount l in
      if Qltb remaining_amount repayment_amount
      then (Say "Repayment amount exceeds remaining balance", d) else
      if Qle_bool repayment_amount 0 then (Say "Repayment amount must be positive", d) else
      let (user_data, d1) := get_user_account caller d in
      if Qltb (balance_of user_data (branch_currency (loan_currency l))) repayment_amount
      then (Say "Insufficient funds.", d1) else
      run_tx (repay_loan_tx caller lid l repayment_amount user_data)
             (fun _ => (Say "Error processing loan repayment. Please try again later.")) d1
  end.

(** ** Currency exchange: [currency_exchange] *)

Definition get_exchange_rate : Q := 12.

(** [UPDATE users SET gold_dinars = ?, silver_dirhams = ? WHERE user_id = ?]. *)
Definition update_users_row (g : user_row -> user_row) (where_ : user_row -> bool) : sql nat :=
  fun d => SOk (length (filter where_ (users d))) (set_users d (map_if where_ g (users d))).

Definition currency_exchange (caller : string) (amount : Q) (from_currency to_currency : string)
  (d : db) : reply * db :=
  let fc := lower from_currency in
  let tc := lower to_currency in
  if negb ((String.eqb fc "gold" || String.eqb fc "silver")
           && (String.eqb tc "gold" || String.eqb tc "silver"))%bool
  then (Say "Currencies must be 'gold' or 'silver'", d) else
  if String.eqb fc tc then (Say "Cannot exchange same currency", d) else
  if Qle_bool amount 0 then (Say "Exchange amount must be positive", d) else
  let (user_data, d1) := get_user_account caller d in
  let exchange_rate := get_exchange_rate in
  let step :=
    if String.eqb fc "gold" then
      if Qltb (gold user_data) amount then None
      else let received_amount := amount * exchange_rate in
           Some (gold user_data - amount, silver user_data + received_amount)
    else
      if Qltb (silver user_data) amount then None
      else let received_amount := amount / exchange_rate in
           Some (gold user_data + received_amount, silver user_data - amount) in
  match step with
  | None =>
      if String.eqb fc "gold" then (Say "Insufficient gold dinars.", d1)
      else (Say "Insufficient silver dirhams.", d1)
  | Some (new_gold, new_silver) =>
      run_tx
        (update_users_row (fun u => mk_user (user_id u) new_gold new_silver)
           (fun u => String.eqb (user_id u) (user_id user_data)) ;;;
         insert_transaction true
           (mk_txn (user_id user_data) "currency_exchange" amount (fc ++ "_to_" ++ tc)%string None) ;;;
         sret (Commit (Say "Currency Exchange Successful")))
        (fun _ => Say "Error processing exchange. Please try again later.") d1
  end.

(** ** Islamic banking: [create_bank_account], [bank_deposit],
       [bank_withdraw], [bank_transfer] *)

Inductive bank_result :=
| BankOk
| BankErr (error : string).

Definition valid_account_type (t : string) : bool :=
  (String.eqb t "wadiah" || String.eqb t "mudarabah")%bool.

Definition valid_currency (c : string) : bool :=
  (String.eqb c "gold_dinars" || String.eqb c "silver_dirhams")%bool.

Definition valid_entry_type (t : string) : bool :=
  existsb (String.eqb t)
    ["deposit"; "withdrawal"; "transfer_in"; "transfer_out"; "profit_share"; "service_fee"]%string.

Definition ratio_ok (r : option Q) : bool :=
  match r with None => true | Some x => (Qle_bool 0 x && Qle_bool x 1)%bool end.

(** [INSERT INTO bank_accounts ...] with the table's UNIQUE and CHECK
    constraints; returns [cursor.lastrowid]. *)
Definition insert_bank_account (a : nat -> bank_account_row) : sql nat :=
  fun d =>
    let id := next_id (map ba_id (bank_accounts d)) in
    let row := a id in
    if existsb (fun b => String.eqb (account_number b) (account_number row)) (bank_accounts d)
    then SErr "UNIQUE constraint failed: bank_accounts.account_number"
    else if negb (valid_account_type (account_type row) && valid_currency (ba_currency row)
                  && Qle_bool 0 (ba_balance row) && ratio_ok (profit_share_ratio row)
                  && (String.eqb (ba_status row) "active" || String.eqb (ba_status row) "closed"))%bool
    then SErr "CHECK constraint failed: bank_accounts"
    else SOk id (set_bank_accounts d (bank_accounts d ++ [row])).

Definition insert_permission (p : permission_row) : sql unit :=
  fun d =>
    if existsb (fun q => Nat.eqb (perm_account_id q) (perm_account_id p)
                         && String.eqb (perm_user_id q) (perm_user_id p))%bool
               (bank_account_permissions d)
    then SErr "UNIQUE constraint failed: bank_account_permissions"
    else SOk tt (set_bank_account_permissions d (bank_account_permissions d ++ [p])).

Definition bank_account_exists (d : db) (id : nat) : bool :=
  existsb (fun b => Nat.eqb (ba_id b) id) (bank_accounts d).

(** [INSERT INTO bank_ledger ...]: the CHECK constraints always apply, the
    foreign keys only under [PRAGMA foreign_keys = ON] ([fk]). *)
Definition insert_bank_ledger (fk : bool) (e : bank_ledger_row) : sql unit :=
  fun d =>
    if negb (valid_entry_type (entry_type e) && Qltb 0 (bl_amount e) && valid_currency (bl_currency e))%bool
    then SErr "CHECK constraint failed: bank_ledger"
    else if (fk && negb (bank_account_exists d (bl_account_id e)
                         && match counterparty_account_id e with
                            | None => true | Some c => bank_account_exists d c end
                         && user_exists d (created_by_user_id e)))%bool
    then SErr "FOREIGN KEY constraint failed"
    else SOk tt (set_bank_ledger d (bank_ledger d ++ [e])).

(** [UPDATE bank_accounts SET balance = ? WHERE id = ?] with
    [CHECK (balance >= 0)]. *)
Definition update_bank_balance (id : nat) (v : Q) : sql unit :=
  fun d =>
    if Qltb v 0 then SErr "CHECK constraint failed: bank_accounts"
    else SOk tt (set_bank_accounts d
           (map_if (fun b => Nat.eqb (ba_id b) id)
              (fun b => mk_ba (ba_id b) (account_number b) (institution_business_id b)
                              (owner_user_id b) (account_type b) (ba_currency b) v
                              (profit_share_ratio b) (ba_status b))
              (bank_accounts d))).

Definition get_user_account_count (d : db) (uid : string) (inst : nat) : nat :=
  length (filter (fun b => String.eqb (owner_user_id b) uid
                           && Nat.eqb (institution_business_id b) inst
                           && String.eqb (ba_status b) "active")%bool (bank_accounts d)).

Definition find_institution (d : db) (inst : nat) : option business_row :=
  find (fun b => Nat.eqb (biz_id b) inst && String.eqb (business_type b) "islamic_finance"
                 && String.eqb (biz_status b) "active"
                 && match license_code b with Some _ => true | None => false end)%bool
       (businesses d).

(** The profit-share-ratio checks of [create_bank_account]; [Some e] is the
    error returned. *)
Definition ratio_check (account_type_ : string) (ratio : option Q) : option string :=
  if String.eqb account_type_ "mudarabah" then
    match ratio with
    | None => Some "Mudarabah accounts require profit_share_ratio between 0 and 1."%string
    | Some r => if (Qltb r 0 || Qltb 1 r)%bool
               then Some "Mudarabah accounts require profit_share_ratio between 0 and 1."%string
               else None
    end
  else match ratio with
       | Some _ => Some "Wadiah accounts cannot have profit sharing."%string
       | None => None
       end.

Definition create_bank_account_tx (owner : string) (inst : nat) (account_type_ cur : string)
  (ratio : option Q) (created_by : string) (number : string) : sql (tx_end bank_result) :=
  account_id <- insert_bank_account
                  (fun id => mk_ba id number inst owner account_type_ cur 0 ratio "active") ;;
  insert_permission (mk_perm account_id owner "owner") ;;;
  insert_bank_ledger false (mk_bl account_id "deposit" 0 cur None created_by) ;;;
  sret (Commit BankOk).

(** [generated] is what [generate_unique_account_number()] returned, [None]
    when it raised after 50 attempts; [created_by_user_id or owner_user_id]
    falls back to the owner on [None] and on the empty string.  The
    connection of this function runs without [PRAGMA foreign_keys = ON]. *)
Definition create_bank_account (owner : string) (inst : nat) (account_type_ : string)
  (cur : string) (ratio : option Q) (created_by_user_id_ : option string)
  (generated : option string) (d : db) : bank_result * db :=
  if negb (valid_account_type account_type_)
  then (BankErr "Invalid account type. Must be wadiah or mudarabah.", d) else
  if negb (valid_currency cur)
  then (BankErr "Invalid currency. Must be gold_dinars or silver_dirhams.", d) else
  match ratio_check account_type_ ratio with
  | Some e => (BankErr e, d)
  | None =>
    if Nat.leb 5 (get_user_account_count d owner inst)
    then (BankErr "Maximum 5 accounts per institution reached.", d) else
    match find_institution d inst with
    | None => (BankErr "Institution not found or not a valid Islamic finance business.", d)
    | Some _ =>
      match generated with
      | None => (BankErr "Database error occurred during account creation.", d)
      | Some number =>
        let created_by := match created_by_user_id_ with
                          | Some u => if String.eqb u EmptyString then owner else u
                          | None => owner end in
        run_tx (create_bank_account_tx owner inst account_type_ cur ratio created_by number)
               (fun _ => BankErr "Database error occurred during account creation.") d
      end
    end
  end.

(** The error of the first check of [create_bank_account] a request fails,
    in the order the function makes them: account type, currency,
    profit-share ratio, the five-accounts limit, the institution lookup;
    [None] when it passes them all. *)
Definition bank_account_first_failed_check (owner : string) (inst : nat)
  (account_type_ cur : string) (ratio : option Q) (d : db) : option string :=
  if negb (valid_account_type account_type_)
  then Some "Invalid account type. Must be wadiah or mudarabah."%string else
  if negb (valid_currency cur)
  then Some "Invalid currency. Must be gold_dinars or silver_dirhams."%string else
  match ratio_check account_type_ ratio with
  | Some e => Some e
  | None =>
    if Nat.leb 5 (get_user_account_count d owner inst)
    then Some "Maximum 5 accounts per institution reached."%string else
    match find_institution d inst with
    | None => Some "Institution not found or not a valid Islamic finance business."%string
    | Some _ => None
    end
  end.

(** The [/bank_open_account] command, the only caller of
    [create_bank_account]: the caller [caller] opens an account of its own
    at the active Islamic finance business with the given license code.
    Its own error messages are kept without the leading emoji; the
    [profit_share_ratio] option defaults to [None]. *)
Definition bank_open_account (caller business_license account_type_ cur : string)
  (profit_share_ratio : option Q) (generated : option string) (d : db) : bank_result * db :=
  if negb (valid_account_type account_type_)
  then (BankErr "Invalid account type. Choose 'wadiah' (safekeeping) or 'mudarabah' (profit-sharing).", d) else
  if negb (valid_currency cur)
  then (BankErr "Invalid currency. Choose 'gold_dinars' or 'silver_dirhams'.", d) else
  match find (fun b => match license_code b with
                       | Some l => String.eqb l business_license
                       | None => false end
                       && String.eqb (business_type b) "islamic_finance"
                       && String.eqb (biz_status b) "active")%bool (businesses d) with
  | None => (BankErr "Business not found. Please check the license code and ensure it's an active Islamic finance business.", d)
  | Some b =>
      create_bank_account caller (biz_id b) account_type_ cur profit_share_ratio (Some caller)
                          generated d
  end.

(** [SELECT ... FROM bank_accounts ba JOIN businesses b ON
    ba.institution_business_id = b.id WHERE ba.id = ? AND ba.status = 'active']. *)
Definition find_active_account (d : db) (id : nat) : option bank_account_row :=
  find (fun b => Nat.eqb (ba_id b) id && String.eqb (ba_status b) "active"
                 && existsb (fun z => Nat.eqb (biz_id z) (institution_business_id b)) (businesses d))%bool
       (bank_accounts d).

Definition has_permission (d : db) (id : nat) (uid : string) : bool :=
  existsb (fun p => Nat.eqb (perm_account_id p) id && String.eqb (perm_user_id p) uid
                    && existsb (String.eqb (role p)) ["owner"; "joint_owner"; "manager"]%string)%bool
          (bank_account_permissions d).

Definition bank_deposit (account_id : nat) (uid : string) (amount : Q) (d : db)
  : bank_result * db :=
  if Qle_bool amount 0 then (BankErr "Deposit amount must be positive.", d) else
  match find_active_account d account_id with
  | None => (BankErr "Account not found or inactive.", d)
  | Some acc =>
    if (negb (String.eqb (owner_user_id acc) uid) && negb (has_permission d account_id uid))%bool
    then (BankErr "You do not have permission to deposit to this account.", d) else
    let (user_data, d1) := get_user_account uid d in
    let bc := branch_currency (ba_currency acc) in
    let wallet_balance := balance_of user_data bc in
    if Qltb wallet_balance amount then (BankErr "Insufficient wallet balance.", d1) else
    run_tx
      (update_users bc (fun _ => wallet_balance - amount) (fun u => String.eqb (user_id u) uid) ;;;
       update_bank_balance account_id (ba_balance acc + amount) ;;;
       insert_bank_ledger true (mk_bl account_id "deposit" amount (ba_currency acc) None uid) ;;;
       insert_transaction true (mk_txn uid "bank_deposit" amount (ba_currency acc) None) ;;;
       sret (Commit BankOk))
      (fun _ => BankErr "Database error occurred during deposit.") d1
  end.

Definition bank_withdraw (account_id : nat) (uid : string) (amount : Q) (d : db)
  : bank_result * db :=
  if Qle_bool amount 0 then (BankErr "Withdrawal amount must be positive.", d) else
  match find_active_account d account_id with
  | None => (BankErr "Account not found or inactive.", d)
  | Some acc =>
    if (negb (String.eqb (owner_user_id acc) uid) && negb (has_permission d account_id uid))%bool
    then (BankErr "You do not have permission to withdraw from this account.", d) else
    if Qltb (ba_balance acc) amount then (BankErr "Insufficient account balance.", d) else
    let (user_data, d1) := get_user_account uid d in
    let bc := branch_currency (ba_currency acc) in
    run_tx
      (update_bank_balance account_id (ba_balance acc - amount) ;;;
       update_users bc (fun _ => balance_of user_data bc + amount)
         (fun u => String.eqb (user_id u) uid) ;;;
       insert_bank_ledger true (mk_bl account_id "withdrawal" amount (ba_currency acc) None uid) ;;;
       insert_transaction true (mk_txn uid "bank_withdrawal" amount (ba_currency acc) None) ;;;
       sret (Commit BankOk))
      (fun _ => BankErr "Database error occurred during withdrawal.") d1
  end.

Definition bank_transfer (from_account_id to_account_id : nat) (uid : string) (amount : Q)
  (d : db) : bank_result * db :=
  if Qle_bool amount 0 then (BankErr "Transfer amount must be positive.", d) else
  if Nat.eqb from_account_id to_account_id
  then (BankErr "Cannot transfer to the same account.", d) else
  let accounts :=
    filter (fun b => (Nat.eqb (ba_id b) from_account_id || Nat.eqb (ba_id b) to_account_id)
                     && String.eqb (ba_status b) "active"
                     && existsb (fun z => Nat.eqb (biz_id z) (institution_business_id b)) (businesses d))%bool
           (bank_accounts d) in
  if negb (Nat.eqb (length accounts) 2)
  then (BankErr "One or both accounts not found or inactive.", d) else
  match find (fun b => Nat.eqb (ba_id b) from_account_id) accounts,
        find (fun b => Nat.eqb (ba_id b) to_account_id) accounts with
  | Some fa, Some ta =>
    if negb (String.eqb (ba_currency fa) (ba_currency ta))
    then (BankErr "Cannot transfer between different currencies.", d) else
    if (negb (String.eqb (owner_user_id fa) uid) && negb (has_permission d from_account_id uid))%bool
    then (BankErr "You do not have permission to transfer from the source account.", d) else
    if Qltb (ba_balance fa) amount then (BankErr "Insufficient balance in source account.", d) else
    run_tx
      (update_bank_balance from_account_id (ba_balance fa - amount) ;;;
       update_bank_balance to_account_id (ba_balance ta + amount) ;;;
       insert_bank_ledger true
         (mk_bl from_account_id "transfer_out" amount (ba_currency fa) (Some to_account_id) uid) ;;;
       insert_bank_ledger true
         (mk_bl to_account_id "transfer_in" amount (ba_currency ta) (Some from_account_id) uid) ;;;
       insert_transaction true (mk_txn uid "bank_transfer" amount (ba_currency fa) None) ;;;
       sret (Commit BankOk))
      (fun _ => BankErr "Database error occurred during transfer.") d
  | _, _ => (BankErr "Account configuration error.", d)
  end.

(** ** Loan lifecycle monitor: [reset_user_data], [check_overdue_loans],
       [process_overdue_loans] *)

(** The columns assigned by the [UPDATE users SET ...] of [reset_user_data]. *)
Definition reset_columns : list string :=
  ["gold_dinars"; "silver_dirhams"; "last_work_date"; "last_community_service";
   "last_quran_recitation"; "last_skill_development"; "last_mentoring"; "current_job";
   "daily_earnings"; "skill_count"; "charity_count"; "quran_count"; "mentoring_count";
   "service_count"]%string.

Definition reset_user_data_tx (uid : string) : sql (tx_end bool) :=
  insert_transaction true (mk_txn uid "account_reset" 0 "system" None) ;;;
  update_users_cols reset_columns (fun u => mk_user (user_id u) 0 0)
    (fun u => String.eqb (user_id u) uid) ;;;
  update_businesses (fun b => String.eqb (biz_user_id b) uid && String.eqb (biz_status b) "active")
    (fun b => mk_biz (biz_id b) (biz_user_id b) (business_type b) "closed" (license_code b)) ;;;
  update_loan_applications
    (fun a => String.eqb (app_borrower_id a) uid && String.eqb (app_status a) "pending")
    (fun a => mk_app (app_id a) (app_borrower_id a) (app_loan_amount a) (app_currency a)
                     (app_due_date a) "cancelled" (funded_by a)) ;;;
  update_loans (fun l => String.eqb (borrower_id l) uid && String.eqb (loan_status l) "active")
    (fun l => mk_loan (loan_id l) (lender_id l) (borrower_id l) (loan_amount l)
                      (loan_currency l) (due_date l) (repaid_amount l) "defaulted") ;;;
  update_investments (fun i => String.eqb (inv_user_id i) uid && String.eqb (inv_status i) "active")
    (fun i => mk_inv (inv_id i) (inv_user_id i) "cancelled") ;;;
  delete_marketplace (fun l => String.eqb (seller_id l) uid) ;;;
  sret (Commit true).

(** Returns [True] on commit, [False] when an exception was caught (the
    connection is then dropped without commit). *)
Definition reset_user_data (uid : string) (d : db) : bool * db :=
  run_tx (reset_user_data_tx uid) (fun _ => false) d.

(** [check_overdue_loans]: active loans with [due_date < cutoff], the
    cutoff being the date 14 days before today, not fully repaid.  Rows come
    in table order. *)
Definition check_overdue_loans (now : Z) (d : db) : list loan_row :=
  let cutoff_date := (now - 14)%Z in
  filter (fun l => String.eqb (loan_status l) "active" && Z.ltb (due_date l) cutoff_date
                   && Qltb (repaid_amount l) (loan_amount l))%bool
         (loans d).

(** What the sweep sends to Discord users. *)
Inductive notice :=
| OverdueWarning (uid : string) (days_overdue : Z)
| ResetNotice (uid : string).

Fixpoint process_overdue_rows (now : Z) (rows : list loan_row) (processed_users : list string)
  (d : db) : list notice * db :=
  match rows with
  | [] => ([], d)
  | l :: rest =>
    let uid := borrower_id l in
    if existsb (String.eqb uid) processed_users
    then process_overdue_rows now rest processed_users d else
    let days_overdue := (now - due_date l)%Z in
    if Z.leb 14 days_overdue then
      let (ok, d1) := reset_user_data uid d in
      let (ns, d2) := process_overdue_rows now rest (uid :: processed_users) d1 in
      ((if ok then [ResetNotice uid] else []) ++ ns, d2)
    else if Z.leb 7 days_overdue then
      let (ns, d2) := process_overdue_rows now rest (uid :: processed_users) d in
      (OverdueWarning uid days_overdue :: ns, d2)
    else process_overdue_rows now rest processed_users d
  end.

Definition process_overdue_loans (now : Z) (d : db) : list notice * db :=
  process_overdue_rows now (check_overdue_loans now d) [] d.

(** ** Concrete databases for the examples and witnesses *)

Definition empty_db : db := mk_db [] [] [] [] [] [] [] [] [] [].
Definition uA : string := "111111111111111111".
Definition uB : string := "222222222222222222".
Definition db_AB : db := set_users empty_db [mk_user uA 100 0; mk_user uB 0 0].

Definition uL : string := "333333333333333333".
Definition db_loan : db :=
  set_loans (set_users empty_db [mk_user uA 10 10; mk_user uL 100 500])
    [mk_loan 1 uL uA 50 "gold_dinars" 0 10 "active"].

Definition uC : string := "444444444444444444".

(** Wallet transfer requests with a valid token and JSON body. *)
Definition pay_AB_10 : pay_request := mk_pay true true (Some uA) (Some uB) 10 "gold_dinars".
Definition pay_AB_200 : pay_request := mk_pay true true (Some uA) (Some uB) 200 "gold_dinars".
Definition pay_AB_big : pay_request := mk_pay true true (Some uA) (Some uB) 1000000 "gold_dinars".
Definition pay_AC_10 : pay_request := mk_pay true true (Some uA) (Some uC) 10 "gold_dinars".

(** A pending application of [uA] for 50 gold dinars. *)
Definition db_app : db :=
  set_loan_applications (set_users empty_db [mk_user uA 10 10; mk_user uL 100 500])
    [mk_app 1 uA 50 "gold_dinars" 30 "pending" None].

(** ** Properties of loan repayment *)

(** Loan ids are a primary key; every loan has its repaid amount between 0
    and its principal, and is ['completed'] exactly when fully repaid. *)
Definition repay_inv (d : db) : Prop :=
  NoDup (map loan_id (loans d)) /\
  Forall (fun l => 0 <= repaid_amount l <= loan_amount l /\
                   (loan_status l = "completed"%string <-> repaid_amount l == loan_amount l))
         (loans d).

(** Row by row, the loans of [d'] are those of [d] with the same id and
    principal and a repaid amount at least as large. *)
Definition loans_grow (d d' : db) : Prop :=
  Forall2 (fun l l' => loan_id l' = loan_id l /\ loan_amount l' = loan_amount l /\
                       repaid_amount l <= repaid_amount l')
          (loans d) (loans d').

(** The ways a repayment of [amt] by [caller] can be inadmissible for loan [l]. *)
Definition repay_rejected (caller : string) (amt : Q) (l : loan_row) : Prop :=
  borrower_id l <> caller \/ loan_status l <> "active"%string \/
  loan_amount l - repaid_amount l < amt \/ amt <= 0.

(** A sequence of [repay_loan] calls, each [(caller, loan id, amount)]. *)
Fixpoint repay_loans (calls : list (string * nat * Q)) (d : db) : db :=
  match calls with
  | [] => d
  | (caller, lid, amt) :: rest => repay_loans rest (snd (repay_loan caller lid amt d))
  end.

(** [uA] owes [uL] 40 of a 50-gold-dinar loan and holds 100 gold dinars. *)
Definition db_repay : db :=
  set_loans (set_users empty_db [mk_user uA 100 10; mk_user uL 100 500])
    [mk_loan 1 uL uA 50 "gold_dinars" 0 10 "active"].

(** ** The handlers as one transition system *)

(** One handler call, from the database it starts on to the one it leaves. *)
Inductive step : db -> db -> Prop :=
| step_transfer_money r d : step d (snd (transfer_money r d))
| step_apply_for_loan caller amt cur days purpose now d :
    step d (snd (apply_for_loan caller amt cur days purpose now d))
| step_fund_loan caller id d : step d (snd (fund_loan caller id d))
| step_repay_loan caller lid amt d : step d (snd (repay_loan caller lid amt d))
| step_currency_exchange caller amt from_c to_c d :
    step d (snd (currency_exchange caller amt from_c to_c d))
| step_create_bank_account owner inst t cur ratio created_by generated d :
    step d (snd (create_bank_account owner inst t cur ratio created_by generated d))
| step_bank_deposit id uid amt d : step d (snd (bank_deposit id uid amt d))
| step_bank_withdraw id uid amt d : step d (snd (bank_withdraw id uid amt d))
| step_bank_transfer from_id to_id uid amt d : step d (snd (bank_transfer from_id to_id uid amt d))
| step_overdue_sweep now d : step d (snd (process_overdue_loans now d)).

(** Handler calls run one after the other. *)
Inductive steps : db -> db -> Prop :=
| steps_refl d : steps d d
| steps_cons d1 d2 d3 : step d1 d2 -> steps d2 d3 -> steps d1 d3.

Definition nonneg_row (u : user_row) : Prop := 0 <= gold u /\ 0 <= silver u.

(** Every wallet holds a non-negative amount of both currencies. *)
Definition wallets_nonneg (d : db) : Prop := Forall nonneg_row (users d).

(** Every loan application asks for a positive amount ([apply_for_loan]
    accepts no other). *)
Definition apps_positive (d : db) : Prop :=
  Forall (fun a => 0 < app_loan_amount a) (loan_applications d).

Definition money_inv (d : db) : Prop := wallets_nonneg d /\ apps_positive d.

(** A bank account carries a profit-share ratio exactly when it is a
    ['mudarabah'] account. *)
Definition ratio_iff_mudarabah (b : bank_account_row) : Prop :=
  profit_share_ratio b <> None <-> account_type b = "mudarabah"%string.

Definition bank_inv (d : db) : Prop := Forall ratio_iff_mudarabah (bank_accounts d).

(** The [create_bank_account] requests C9 says are refused. *)
Definition bad_ratio_request (t : string) (ratio : option Q) : Prop :=
  (t = "mudarabah"%string /\ (ratio = None \/ exists r, ratio = Some r /\ (r < 0 \/ 1 < r))) \/
  (t = "wadiah"%string /\ ratio <> None).

(** An institution with a licence, for the bank-account examples. *)
Definition db_bank : db :=
  set_businesses db_AB [mk_biz 1 uB "islamic_finance" "active" (Some "LIC"%string)].

(** [uA] holds a ['mudarabah'] account at that institution. *)
Definition db_bank_acc : db :=
  set_bank_accounts db_bank
    [mk_ba 1 "IBK-00000001" 1 uA "mudarabah" "gold_dinars" 0 (Some (1 # 2)) "active"].

(** ** Input sanitising: [sanitize_username] *)

(** A Python [str] is a sequence of Unicode code points. *)
Definition pystr := list N.

(** A literal made of ASCII characters, as a sequence of code points. *)
Definition pystr_of_string (s : string) : pystr := map N_of_ascii (list_ascii_of_string s).

(** The code points of the regular-expression class that
    [sanitize_username] removes: [<], [>], the double quote, the single
    quote, [;], [&] and the backslash. *)
Definition dangerous (c : N) : bool :=
  existsb (N.eqb c) [60; 62; 34; 39; 59; 38; 92]%N.

(** The [re.sub] call deleting every such code point. *)
Definition remove_dangerous (s : pystr) : pystr :=
  filter (fun c => negb (dangerous c)) s.

(** [None] stands for an argument that is [None] or not a [str]; the empty
    string is falsy in Python.  [sanitized[:50]] keeps the first 50 code
    points. *)
Definition sanitize_username (username : option pystr) : pystr :=
  match username with
  | None => pystr_of_string "Unknown User"
  | Some [] => pystr_of_string "Unknown User"
  | Some s => let sanitized := remove_dangerous s in firstn 50 sanitized
  end.

(** ** Zakat and taxes: [calculate_zakat], [calculate_taxes], [pay_zakat] *)

Record zakat_info := mk_zakat {
  gold_zakat : Q;
  silver_zakat : Q;
  total_zakat : Q;
  eligible : bool }.

(** [zakat_rate = 0.025] is [1/40]. *)
Definition calculate_zakat (gold_dinars silver_dirhams : Q) : zakat_info :=
  let gold_nisab := 85 in
  let silver_nisab := 595 in
  let zakat_rate := 1 # 40 in
  let gold_zakat := if Qle_bool gold_nisab gold_dinars then gold_dinars * zakat_rate else 0 in
  let silver_zakat := if Qle_bool silver_nisab silver_dirhams then silver_dirhams * zakat_rate else 0 in
  mk_zakat gold_zakat silver_zakat (gold_zakat + silver_zakat)
    (Qle_bool gold_nisab gold_dinars || Qle_bool silver_nisab silver_dirhams)%bool.

(** 5% ([1/20]) of the income above the threshold; the threshold is 100
    for exactly ['gold_dinars'], 150 for any other currency string. *)
Definition calculate_taxes (income : Q) (cur : string) : Q :=
  let threshold := if String.eqb cur "gold_dinars" then 100 else 150 in
  if Qltb threshold income then (income - threshold) * (1 # 20) else 0.

(** [pay_zakat]: the [total_charity] and [last_zakat_payment] columns it
    also sets are not part of [user_row]. *)
Definition pay_zakat (caller : string) (d : db) : reply * db :=
  let (user_data, d1) := get_user_account caller d in
  let zakat_info := calculate_zakat (gold user_data) (silver user_data) in
  if negb (eligible zakat_info)
  then (Say "You are not currently eligible for Zakat payment (below Nisab threshold).", d1) else
  let new_gold := gold user_data - gold_zakat zakat_info in
  let new_silver := silver user_data - silver_zakat zakat_info in
  run_tx
    (update_users_row (fun u => mk_user (user_id u) new_gold new_silver)
       (fun u => String.eqb (user_id u) (user_id user_data)) ;;;
     insert_transaction true (mk_txn (user_id user_data) "zakat" (total_zakat zakat_info) "mixed" None) ;;;
     sret (Commit (Say "Zakat Paid Successfully")))
    (fun _ => Say "Database error occurred during Zakat payment. Please try again later.") d1.

(** ** Server-owner commands: [set_balance], [give_money] *)

(** [interaction.guild and interaction.guild.owner_id == interaction.user.id];
    [guild_owner] is the owner id of the guild, [None] outside a guild. *)
Definition is_server_owner (guild_owner : option string) (caller : string) : bool :=
  match guild_owner with Some o => String.eqb o caller | None => false end.

(** The [set_balance] command (named apart from the row setter
    [set_balance] above); an omitted amount is [None]. *)
Definition set_balance_command (guild_owner : option string) (caller target : string)
  (gold_dinars silver_dirhams : option Q) (d : db) : reply * db :=
  if negb (is_server_owner guild_owner caller)
  then (Say "Only the server owner can use this command.", d) else
  match gold_dinars, silver_dirhams with
  | None, None => (Say "Please specify at least one currency amount to set.", d)
  | _, _ =>
    if match gold_dinars with Some g => Qltb g 0 | None => false end
    then (Say "Gold dinars amount cannot be negative.", d) else
    if match silver_dirhams with Some s => Qltb s 0 | None => false end
    then (Say "Silver dirhams amount cannot be negative.", d) else
    let (user_data, d1) := get_user_account target d in
    let new_gold := match gold_dinars with Some g => g | None => gold user_data end in
    let new_silver := match silver_dirhams with Some s => s | None => silver user_data end in
    run_tx
      (update_users_row (fun u => mk_user (user_id u) new_gold new_silver)
         (fun u => String.eqb (user_id u) target) ;;;
       match gold_dinars with
       | Some _ =>
           let difference_gold := new_gold - gold user_data in
           if negb (Qeq_bool difference_gold 0)
           then insert_transaction true
                  (mk_txn target "admin_adjustment" (Qabs difference_gold) "gold_dinars" (Some caller))
           else sret tt
       | None => sret tt
       end ;;;
       match silver_dirhams with
       | Some _ =>
           let difference_silver := new_silver - silver user_data in
           if negb (Qeq_bool difference_silver 0)
           then insert_transaction true
                  (mk_txn target "admin_adjustment" (Qabs difference_silver) "silver_dirhams" (Some caller))
           else sret tt
       | None => sret tt
       end ;;;
       sret (Commit (Say "Balance Updated by Server Owner")))
      (fun _ => Say "Error updating user balance. Please try again later.") d1
  end.

Definition give_money (guild_owner : option string) (caller target : string) (amount : Q)
  (cur : string) (d : db) : reply * db :=
  if negb (is_server_owner guild_owner caller)
  then (Say "Only the server owner can use this command.", d) else
  if negb (String.eqb (lower cur) "gold" || String.eqb (lower cur) "silver")%bool
  then (Say "Currency must be 'gold' or 'silver'", d) else
  if Qle_bool amount 0 then (Say "Amount must be positive.", d) else
  let (user_data, d1) := get_user_account target d in
  let c := if String.eqb (lower cur) "gold" then gold_dinars else silver_dirhams in
  let new_balance := balance_of user_data c + amount in
  run_tx
    (update_users c (fun _ => new_balance) (fun u => String.eqb (user_id u) target) ;;;
     insert_transaction true (mk_txn target "admin_gift" amount (currency_name c) (Some caller)) ;;;
     sret (Commit (Say "Money Gift from Server Owner")))
    (fun _ => Say "Error giving money. Please try again later.") d1.

(** The currency [give_money] credits for a currency argument. *)
Definition gift_currency (cur : string) : currency :=
  if String.eqb (lower cur) "gold" then gold_dinars else silver_dirhams.

(** ** Business profit collection: [collect_profit_api], [collect_profit] *)

(** The profit one business offers: [period_profit = daily_profit / 6],
    [periods_passed = int(hours_passed // 4)]. *)
Definition available_profit (daily_profit hours_passed : Q) : Q :=
  let period_profit := daily_profit / 6 in
  let periods_passed := Qfloor (hours_passed / 4) in
  period_profit * inject_Z periods_passed.

(** The loop over the selected businesses, each given as
    [(biz_id, daily_profit, hours_passed)], [hours_passed] being the hours
    since its last collection (or creation) as read from the clock.
    Returns [(total_profit, businesses_to_update)]. *)
Fixpoint collect_loop (rows : list (nat * Q * Q)) (total_profit : Q)
  (businesses_to_update : list nat) : Q * list nat :=
  match rows with
  | [] => (total_profit, businesses_to_update)
  | (biz_id, daily_profit, hours_passed) :: rest =>
      let available := available_profit daily_profit hours_passed in
      if Qltb (1 # 20) available
      then collect_loop rest (total_profit + available) (businesses_to_update ++ [biz_id])
      else collect_loop rest total_profit businesses_to_update
  end.

Inductive profit_resp :=
| ProfitOk (total_profit : Q)
| ProfitErr (code : nat) (msg : string).

(** [POST /api/collect_profit/<user_id>]; [rows] are the active businesses
    of [user_id] as selected.  Its connection runs without
    [PRAGMA foreign_keys = ON].  The [last_collection_date] it writes to
    the collected businesses is not part of [business_row]. *)
Definition collect_profit_api (token_ok_ : bool) (uid : string) (rows : list (nat * Q * Q))
  (d : db) : profit_resp * db :=
  if negb token_ok_ then (ProfitErr 401 "Unauthorized", d) else
  if negb (validate_user_id (Some uid)) then (ProfitErr 400 "Invalid user ID format", d) else
  match rows with
  | [] => (ProfitErr 404 "No active businesses found", d)
  | _ :: _ =>
    let (total_profit, _) := collect_loop rows 0 [] in
    if Qltb total_profit (1 # 20) then (ProfitErr 400 "No profits available to collect", d) else
    run_tx
      (update_users gold_dinars (fun b => b + total_profit) (fun u => String.eqb (user_id u) uid) ;;;
       insert_transaction false (mk_txn uid "business_profit" total_profit "gold_dinars" None) ;;;
       sret (Commit (ProfitOk total_profit)))
      (fun e => ProfitErr 500 e) d
  end.

(** ** Sums used to state the money-movement properties *)

Definition currency_eqb (x y : currency) : bool :=
  match x, y with
  | gold_dinars, gold_dinars | silver_dirhams, silver_dirhams => true
  | _, _ => false
  end.

(** The money held in bank accounts in the wallet currency [c], each
    account counted in the wallet column its handlers debit and credit. *)
Definition bank_total (d : db) (c : currency) : Q :=
  fold_right Qplus 0
    (map ba_balance (filter (fun b => currency_eqb (branch_currency (ba_currency b)) c)
                            (bank_accounts d))).

(** The worth of all wallets in silver dirhams at the exchange rate. *)
Definition wealth_in_silver (d : db) : Q :=
  get_exchange_rate * total d gold_dinars + total d silver_dirhams.

(** Two user tables hold the same rows, balances compared as numbers. *)
Definition same_wallets (us us' : list user_row) : Prop :=
  Forall2 (fun u u' => user_id u' = user_id u /\ gold u' == gold u /\ silver u' == silver u) us us'.

(** ** Further definitions for the properties below *)

(** A bank account row with its balance set to [v]. *)
Definition set_ba_balance (v : Q) (b : bank_account_row) : bank_account_row :=
  mk_ba (ba_id b) (account_number b) (institution_business_id b) (owner_user_id b)
        (account_type b) (ba_currency b) v (profit_share_ratio b) (ba_status b).


(** No user has more than three pending loan applications. *)
Definition pending_bounded (d : db) : Prop := forall uid, (count_pending_apps d uid <= 3)%nat.

(** One call of a handler of the transition system above, of the zakat
    and server-owner commands, or of the profit-collection endpoint. *)
Inductive step_all : db -> db -> Prop :=
| all_handler d d' : step d d' -> step_all d d'
| all_pay_zakat caller d : step_all d (snd (pay_zakat caller d))
| all_set_balance owner caller target g s d :
    step_all d (snd (set_balance_command owner caller target g s d))
| all_give_money owner caller target amount cur d :
    step_all d (snd (give_money owner caller target amount cur d))
| all_collect_profit tok uid rows d : step_all d (snd (collect_profit_api tok uid rows d)).

(** Such calls run one after the other. *)
Inductive steps_all : db -> db -> Prop :=
| steps_all_refl d : steps_all d d
| steps_all_cons d1 d2 d3 : step_all d1 d2 -> steps_all d2 d3 -> steps_all d1 d3.

(** For one row [(biz_id, daily_profit, hours_passed)] of the profit loop:
    whether it is collected ([available_profit > 0.05]), the profit it
    offers, and its business id. *)
Definition row_offers (r : nat * Q * Q) : bool :=
  let '(_, daily_profit, hours_passed) := r in Qltb (1 # 20) (available_profit daily_profit hours_passed).
Definition row_profit (r : nat * Q * Q) : Q :=
  let '(_, daily_profit, hours_passed) := r in available_profit daily_profit hours_passed.
Definition row_biz_id (r : nat * Q * Q) : nat := let '(biz_id, _, _) := r in biz_id.

(** Two loan-application databases: one asking in [Gold_Dinars] (a spelling
    [apply_for_loan] accepts and stores as given), and two [gold_dinars]
    wadiah accounts at the institution of [db_bank]. *)
Definition db_app_mixed : db :=
  set_loan_applications (set_users empty_db [mk_user uA 10 10; mk_user uL 100 500])
    [mk_app 1 uA 50 "Gold_Dinars" 30 "pending" None].

Definition db_bank_two : db :=
  set_bank_accounts db_bank
    [mk_ba 1 "IBK-00000001" 1 uA "wadiah" "gold_dinars" 20 None "active";
     mk_ba 2 "IBK-00000002" 1 uB "wadiah" "gold_dinars" 0 None "active"].

(** * Proofs *)

(** [NoDup] of the user ids of a concrete table, by evaluation. *)
Ltac solve_nodup_ids :=
  vm_compute;
  repeat (apply NoDup_cons;
          [intros Hin; repeat destruct Hin as [Hin|Hin]; try discriminate Hin; exact Hin|]);
  apply NoDup_nil.

(** ** Lemmas on the [users] table *)

Lemma user_id_set_balance u c v : user_id (set_balance u c v) = user_id u.
Proof. destruct c; reflexivity. Qed.

Lemma balance_of_set_same u c v : balance_of (set_balance u c v) c = v.
Proof. destruct c; reflexivity. Qed.

Lemma balance_of_set_other u c c' v :
  c <> c' -> balance_of (set_balance u c v) c' = balance_of u c'.
Proof. destruct c, c'; simpl; congruence. Qed.

Lemma user_id_upd_row a c f u : user_id (upd_row a c f u) = user_id u.
Proof. unfold upd_row. destruct (String.eqb _ _); auto using user_id_set_balance. Qed.

Lemma find_user_map (g : user_row -> user_row) us x :
  (forall u, user_id (g u) = user_id u) ->
  find_user (map g us) x = option_map g (find_user us x).
Proof.
  intros Hg. induction us as [|u r IH]; simpl; auto.
  rewrite Hg. destruct (String.eqb (user_id u) x); auto.
Qed.

Lemma find_user_In us x u : find_user us x = Some u -> In u us /\ user_id u = x.
Proof.
  induction us as [|v r IH]; simpl; [discriminate|].
  destruct (String.eqb (user_id v) x) eqn:E.
  - intros H; inversion H; subst. split; auto. apply String.eqb_eq; auto.
  - intros H. destruct (IH H). auto.
Qed.

Lemma find_user_complete us x u :
  In u us -> user_id u = x -> exists u', find_user us x = Some u'.
Proof.
  induction us as [|v r IH]; simpl; [tauto|].
  intros [->|Hin] Hid.
  - rewrite Hid, String.eqb_refl. eauto.
  - destruct (String.eqb (user_id v) x); eauto.
Qed.

Lemma nodup_same_id us u u' :
  NoDup (map user_id us) -> In u us -> In u' us -> user_id u = user_id u' -> u = u'.
Proof.
  induction us as [|v r IH]; simpl; [tauto|].
  intros Hnd Hu Hu' Hid. inversion Hnd as [|? ? Hnotin Hnd']; subst.
  destruct Hu as [->|Hu], Hu' as [->|Hu']; auto.
  - exfalso. apply Hnotin. rewrite Hid. apply in_map; auto.
  - exfalso. apply Hnotin. rewrite <- Hid. apply in_map; auto.
Qed.

Lemma nodup_map_upd_row a c f us :
  NoDup (map user_id us) -> NoDup (map user_id (map (upd_row a c f) us)).
Proof.
  intros H. rewrite map_map.
  rewrite (map_ext _ user_id) by apply user_id_upd_row. exact H.
Qed.

Lemma map_upd_row_absent a c f us :
  (forall u, In u us -> user_id u <> a) -> map (upd_row a c f) us = us.
Proof.
  intros H. induction us as [|v r IH]; simpl; auto.
  rewrite IH by (intros; apply H; simpl; auto).
  unfold upd_row. destruct (String.eqb (user_id v) a) eqn:E; auto.
  apply String.eqb_eq in E. exfalso. apply (H v); simpl; auto.
Qed.

Lemma sum_balances_upd_row a c f us u :
  NoDup (map user_id us) -> find_user us a = Some u ->
  sum_balances c (map (upd_row a c f) us)
    == sum_balances c us - balance_of u c + f (balance_of u c).
Proof.
  induction us as [|v r IH]; simpl; [discriminate|].
  intros Hnd Hf. inversion Hnd as [|? ? Hnotin Hnd']; subst.
  unfold sum_balances in *; simpl.
  unfold upd_row at 1. destruct (String.eqb (user_id v) a) eqn:E.
  - inversion Hf; subst. apply String.eqb_eq in E.
    rewrite map_upd_row_absent.
    + rewrite balance_of_set_same. lra.
    + intros w Hw Hwa. apply Hnotin. rewrite E, <- Hwa. apply in_map; auto.
  - rewrite (IH Hnd' Hf). lra.
Qed.

Lemma sum_balances_upd_row_other a c c' f us :
  c <> c' -> sum_balances c' (map (upd_row a c f) us) = sum_balances c' us.
Proof.
  intros Hc. induction us as [|v r IH]; simpl; auto.
  unfold sum_balances in *; simpl. rewrite IH. f_equal.
  unfold upd_row. destruct (String.eqb _ _); auto using balance_of_set_other.
Qed.

Lemma length_filter_nonzero {A} (w : A -> bool) l :
  length (filter w l) <> 0%nat -> exists x, In x l /\ w x = true.
Proof.
  induction l as [|x r IH]; simpl; [congruence|].
  destruct (w x) eqn:E; eauto.
  intros H. destruct (IH H) as [y [? ?]]. eauto.
Qed.

(** A guarded update whose WHERE clause picks out the row of [a] only acts as
    the plain update of [a], once a row has matched. *)
Lemma update_where_unique us a c f (w : user_row -> bool) u0 :
  NoDup (map user_id us) -> In u0 us -> w u0 = true ->
  (forall u, w u = true -> user_id u = a) ->
  map (fun u => if w u then set_balance u c (f (balance_of u c)) else u) us
  = map (upd_row a c f) us.
Proof.
  intros Hnd Hin Hw0 Hw. apply map_ext_in. intros u Hu. unfold upd_row.
  destruct (w u) eqn:E.
  - rewrite (Hw u E), String.eqb_refl. reflexivity.
  - destruct (String.eqb (user_id u) a) eqn:E2; auto.
    apply String.eqb_eq in E2.
    assert (u = u0) as -> by (apply (nodup_same_id us); auto; rewrite E2; symmetry; auto).
    congruence.
Qed.

Lemma currency_column_name c : currency_column (currency_name c) = Some c.
Proof. destruct c; reflexivity. Qed.

Lemma currency_name_of_check cur :
  (String.eqb cur "gold_dinars" || String.eqb cur "silver_dirhams")%bool = true ->
  exists c, cur = currency_name c.
Proof.
  intros H. apply orb_true_iff in H as [H|H]; apply String.eqb_eq in H; subst.
  - exists gold_dinars; reflexivity.
  - exists silver_dirhams; reflexivity.
Qed.

Lemma transfer_money_tx_rollback a b cur amt d m d1 :
  transfer_money_tx a b cur amt d = SOk (Rollback m) d1 ->
  exists code s, m = ApiErr code s.
Proof.
  unfold transfer_money_tx, sbind, sret, update_users_col, update_users, insert_transaction, sraise.
  destruct (currency_column cur); [|discriminate].
  intros H; repeat (match type of H with context [if ?b then _ else _] => destruct b end);
    inversion H; eauto.
Qed.

Lemma transfer_money_ok_inv r d msg d' :
  transfer_money r d = (ApiOk msg, d') ->
  exists a b c, from_user r = Some a /\ to_user r = Some b /\
    req_currency r = currency_name c /\ a <> b /\
    transfer_money_tx a b (currency_name c) (amount r) d = SOk (Commit (ApiOk msg)) d'.
Proof.
  unfold transfer_money.
  destruct (token_ok r), (has_json r); simpl; try discriminate.
  destruct (validate_user_id (from_user r) && validate_user_id (to_user r))%bool eqn:Ev;
    simpl; try discriminate.
  destruct (validate_amount (amount r)); simpl; try discriminate.
  destruct (String.eqb (req_currency r) "gold_dinars" || String.eqb (req_currency r) "silver_dirhams")%bool
    eqn:Ecur; simpl; try discriminate.
  destruct (currency_name_of_check _ Ecur) as [c Hc].
  destruct (String.eqb (str_of (from_user r)) (str_of (to_user r))) eqn:Eft; [discriminate|].
  apply String.eqb_neq in Eft.
  destruct (from_user r) as [a|] eqn:Ha; destruct (to_user r) as [b|] eqn:Hb;
    simpl in *; try (rewrite andb_false_r in Ev; discriminate); try discriminate.
  unfold run_tx; rewrite Hc.
  destruct (transfer_money_tx _ _ _ _ d) as [[m|m] d1|e] eqn:Etx; intros H; inversion H; subst.
  - exists a, b, c. repeat split; auto.
  - apply transfer_money_tx_rollback in Etx. destruct Etx as [? [? ?]]. discriminate.
Qed.

Lemma transfer_money_tx_commit a b c amt d m d1 :
  NoDup (map user_id (users d)) ->
  transfer_money_tx a b (currency_name c) amt d = SOk (Commit m) d1 ->
  exists ua ub, find_user (users d) a = Some ua /\ find_user (users d) b = Some ub /\
    Qle_bool amt (balance_of ua c) = true /\
    users d1 = map (upd_row b c (fun x => x + amt))
                   (map (upd_row a c (fun x => x - amt)) (users d)) /\
    transactions d1 = transactions d ++
      [mk_txn a "transfer_send" amt (currency_name c) (Some b);
       mk_txn b "transfer_receive" amt (currency_name c) (Some a)].
Proof.
  intros Hnd.
  unfold transfer_money_tx, sbind, sret, update_users_col.
  rewrite currency_column_name. unfold update_users at 1.
  pose (w := fun u => (String.eqb (user_id u) a && Qle_bool amt (balance_of u c))%bool).
  destruct (Nat.eqb (length (filter (fun u => (String.eqb (user_id u) a
              && Qle_bool amt (balance_of u c))%bool) (users d))) 0) eqn:E1;
    [discriminate|].
  fold w in E1.
  apply Nat.eqb_neq, length_filter_nonzero in E1 as [u0 [Hin0 Hw0]].
  assert (Hwa : forall u, w u = true -> user_id u = a).
  { intros u Hu. unfold w in Hu. apply andb_true_iff in Hu as [Hu _].
    apply String.eqb_eq; exact Hu. }
  rewrite (update_where_unique (users d) a c (fun x => x - amt)
    (fun u => (String.eqb (user_id u) a && Qle_bool amt (balance_of u c))%bool)
    u0 Hnd Hin0 Hw0 Hwa).
  destruct (find_user_complete (users d) a u0 Hin0 (Hwa u0 Hw0)) as [ua Hua].
  destruct (find_user_In _ _ _ Hua) as [Hina Hida].
  assert (ua = u0) as ->
    by (apply (nodup_same_id (users d)); auto; rewrite Hida; symmetry; auto).
  unfold update_users; simpl.
  set (us1 := map (upd_row a c (fun x => x - amt)) (users d)).
  destruct (Nat.eqb (length (filter (fun u => String.eqb (user_id u) b) us1)) 0) eqn:E2;
    [discriminate|].
  apply Nat.eqb_neq, length_filter_nonzero in E2 as [v0 [Hinv Hv0]].
  apply String.eqb_eq in Hv0.
  unfold us1 in Hinv. apply in_map_iff in Hinv as [v [Hv Hinv]].
  rewrite <- Hv, user_id_upd_row in Hv0.
  destruct (find_user_complete (users d) b v Hinv Hv0) as [ub Hub].
  unfold insert_transaction; simpl.
  match goal with |- context [if ?x then _ else _] => destruct x end; [discriminate|].
  simpl.
  match goal with |- context [if ?x then _ else _] => destruct x end; [discriminate|].
  intros H; inversion H; subst; clear H.
  exists u0, ub. unfold w in Hw0. apply andb_true_iff in Hw0 as [_ Hle].
  repeat split; auto; simpl; try reflexivity.
  rewrite <- app_assoc. reflexivity.
Qed.

Lemma currency_name_inj c c' : currency_name c = currency_name c' -> c = c'.
Proof. destruct c, c'; simpl; congruence. Qed.

(** ** Claim C1 *)

(** C1: a successful [POST /api/pay] transfer of [amount r] in currency [c]
    from [a] to [b] lowers [a]'s balance in [c] by exactly the amount, raises
    [b]'s by exactly the amount, leaves the system-wide total of [c]
    unchanged, and appends exactly two rows to [transactions]: a
    ['transfer_send'] row of [a] with partner [b] and a ['transfer_receive']
    row of [b] with partner [a], both of the amount.  ([users] has the
    primary key [user_id].) *)
Theorem transfer_money_conservation (r : pay_request) (d d' : db) (msg a b : string)
  (c : currency) :
  NoDup (map user_id (users d)) ->
  from_user r = Some a -> to_user r = Some b -> req_currency r = currency_name c ->
  transfer_money r d = (ApiOk msg, d') ->
  (exists xa xb,
     balance d a c = Some xa /\ balance d b c = Some xb /\
     balance d' a c = Some (xa - amount r) /\ balance d' b c = Some (xb + amount r)) /\
  total d' c == total d c /\
  transactions d' = transactions d ++
    [mk_txn a "transfer_send" (amount r) (currency_name c) (Some b);
     mk_txn b "transfer_receive" (amount r) (currency_name c) (Some a)].
Proof.
  intros Hnd Ha Hb Hc Hrun.
  destruct (transfer_money_ok_inv _ _ _ _ Hrun) as (a' & b' & c' & Ha' & Hb' & Hc' & Hab & Htx).
  rewrite Ha in Ha'; rewrite Hb in Hb'; rewrite Hc in Hc'.
  injection Ha' as <-; injection Hb' as <-; apply currency_name_inj in Hc' as <-.
  destruct (transfer_money_tx_commit _ _ _ _ _ _ _ Hnd Htx)
    as (ua & ub & Hua & Hub & Hle & Hus & Htr).
  destruct (find_user_In _ _ _ Hua) as [_ Hida].
  destruct (find_user_In _ _ _ Hub) as [_ Hidb].
  assert (Hub1 : find_user (map (upd_row a c (fun x => x - amount r)) (users d)) b = Some ub).
  { rewrite find_user_map by apply user_id_upd_row. rewrite Hub. simpl.
    unfold upd_row. rewrite Hidb. apply String.eqb_neq in Hab.
    rewrite String.eqb_sym, Hab. reflexivity. }
  split; [|split; [|exact Htr]].
  - exists (balance_of ua c), (balance_of ub c).
    unfold balance. rewrite Hus, Hua, Hub. repeat split.
    + rewrite !find_user_map by apply user_id_upd_row. rewrite Hua. simpl.
      unfold upd_row at 2. rewrite Hida, String.eqb_refl.
      unfold upd_row. rewrite user_id_set_balance, Hida.
      apply String.eqb_neq in Hab. rewrite Hab, balance_of_set_same. reflexivity.
    + rewrite find_user_map by apply user_id_upd_row. rewrite Hub1. simpl.
      unfold upd_row. rewrite Hidb, String.eqb_refl, balance_of_set_same. reflexivity.
  - unfold total. rewrite Hus.
    rewrite (sum_balances_upd_row b c _ _ ub (nodup_map_upd_row _ _ _ _ Hnd) Hub1).
    rewrite (sum_balances_upd_row a c _ _ ua Hnd Hua). lra.
Qed.

Lemma transfer_money_valid r d :
  pay_request_valid r = true ->
  transfer_money r d =
  run_tx (transfer_money_tx (str_of (from_user r)) (str_of (to_user r)) (req_currency r) (amount r))
         (fun e => ApiErr 500 e) d.
Proof.
  unfold pay_request_valid, transfer_money. intros H.
  repeat rewrite andb_true_iff in H.
  destruct H as [[[[[[H1 H2] H3] H4] H5] H6] H7].
  rewrite H1, H2, H3, H4, H5, H6. simpl.
  apply negb_true_iff in H7. rewrite H7. reflexivity.
Qed.

Lemma transfer_money_invalid r d :
  pay_request_valid r = false ->
  exists code m, transfer_money r d = (ApiErr code m, d).
Proof.
  unfold pay_request_valid, transfer_money. intros H.
  destruct (token_ok r), (has_json r); simpl in *; eauto.
  destruct (validate_user_id (from_user r)), (validate_user_id (to_user r)); simpl in *; eauto.
  destruct (validate_amount (amount r)); simpl in *; eauto.
  destruct (String.eqb (req_currency r) "gold_dinars" || String.eqb (req_currency r) "silver_dirhams")%bool;
    simpl in *; eauto.
  destruct (String.eqb (str_of (from_user r)) (str_of (to_user r))); simpl in *; eauto.
  discriminate.
Qed.

Lemma transfer_money_first_failed r d e :
  pay_first_failed_check r = Some e -> transfer_money r d = (e, d).
Proof.
  unfold pay_first_failed_check, transfer_money.
  destruct (token_ok r); cbn [negb]; [|congruence].
  destruct (has_json r); cbn [negb]; [|congruence].
  destruct (validate_user_id (from_user r)), (validate_user_id (to_user r)); cbn [negb andb];
    try congruence.
  destruct (validate_amount (amount r)); cbn [negb]; [|congruence].
  destruct (_ || _)%bool; cbn [negb]; [|congruence].
  destruct (String.eqb _ _); congruence.
Qed.

Lemma pay_first_failed_check_valid r :
  pay_request_valid r = true -> pay_first_failed_check r = None.
Proof.
  unfold pay_request_valid, pay_first_failed_check. intros H.
  repeat rewrite andb_true_iff in H.
  destruct H as [[[[[[H1 H2] H3] H4] H5] H6] H7].
  rewrite H1, H2, H3, H4, H5, H6. apply negb_true_iff in H7. rewrite H7. reflexivity.
Qed.

Lemma pay_first_failed_check_none r :
  pay_first_failed_check r = None -> pay_request_valid r = true.
Proof.
  unfold pay_request_valid, pay_first_failed_check.
  destruct (token_ok r), (has_json r), (validate_user_id (from_user r)),
    (validate_user_id (to_user r)), (validate_amount (amount r)),
    (_ || _)%bool, (String.eqb _ _); cbn; congruence.
Qed.

Lemma find_user_None us x : find_user us x = None -> forall u, In u us -> user_id u <> x.
Proof.
  induction us as [|v r IH]; simpl; [tauto|].
  destruct (String.eqb (user_id v) x) eqn:E; [discriminate|].
  intros H u [->|Hu]; [apply String.eqb_neq; auto | apply IH; auto].
Qed.

Lemma filter_all_false {A} (w : A -> bool) l :
  (forall x, In x l -> w x = false) -> length (filter w l) = 0%nat.
Proof.
  induction l as [|x r IH]; simpl; auto.
  intros H. rewrite (H x (or_introl eq_refl)). apply IH. auto.
Qed.

Lemma filter_In_nonzero {A} (w : A -> bool) l x :
  In x l -> w x = true -> Nat.eqb (length (filter w l)) 0 = false.
Proof.
  intros Hin Hw. apply Nat.eqb_neq. induction l as [|y r IH]; simpl in *; [tauto|].
  destruct Hin as [->|Hin]; [rewrite Hw; simpl; congruence|].
  destruct (w y); simpl; [congruence | auto].
Qed.

Lemma balance_Some d a c x :
  balance d a c = Some x -> exists u, find_user (users d) a = Some u /\ balance_of u c = x.
Proof.
  unfold balance. destruct (find_user (users d) a); simpl; [|discriminate].
  intros H; inversion H; eauto.
Qed.

Lemma balance_None d a c : balance d a c = None -> find_user (users d) a = None.
Proof. unfold balance. destruct (find_user (users d) a); simpl; congruence. Qed.

Lemma transfer_money_conservation_witness :
  exists msg d', transfer_money pay_AB_10 db_AB = (ApiOk msg, d') /\
  (exists xa xb,
     balance db_AB uA gold_dinars = Some xa /\ balance db_AB uB gold_dinars = Some xb /\
     balance d' uA gold_dinars = Some (xa - 10) /\ balance d' uB gold_dinars = Some (xb + 10)) /\
  total d' gold_dinars == total db_AB gold_dinars /\
  transactions d' = transactions db_AB ++
    [mk_txn uA "transfer_send" 10 "gold_dinars" (Some uB);
     mk_txn uB "transfer_receive" 10 "gold_dinars" (Some uA)].
Proof.
  do 2 eexists. split; [reflexivity|].
  eapply (transfer_money_conservation pay_AB_10 db_AB _ _ uA uB gold_dinars);
    [solve_nodup_ids
    | reflexivity .. ].
Defined.

(** ** Claim C2 *)

(** C2 (as amended): when the sender's balance in the requested currency is
    below the requested amount, [POST /api/pay] returns an error and changes
    nothing (no balance, no transaction row).  The error is the one of the
    first input check the request fails ([pay_first_failed_check]), and the
    insufficient-funds error when it passes them all. *)
Theorem transfer_money_insufficient_noop (r : pay_request) (d : db) (a : string)
  (c : currency) (x : Q) :
  NoDup (map user_id (users d)) ->
  from_user r = Some a -> req_currency r = currency_name c ->
  balance d a c = Some x -> x < amount r ->
  snd (transfer_money r d) = d /\
  fst (transfer_money r d) =
    match pay_first_failed_check r with
    | Some e => e
    | None => ApiErr 400 "Insufficient funds or user not found"
    end /\
  (pay_request_valid r = true ->
   fst (transfer_money r d) = ApiErr 400 "Insufficient funds or user not found").
Proof.
  intros Hnd Ha Hc Hx Hlt.
  destruct (pay_first_failed_check r) as [e|] eqn:F.
  - rewrite (transfer_money_first_failed r d e F). simpl.
    split; [reflexivity|]. split; [reflexivity|].
    intros V. rewrite (pay_first_failed_check_valid r V) in F. discriminate F.
  - assert (V : pay_request_valid r = true) by (apply pay_first_failed_check_none; exact F).
    assert (Hrun : transfer_money r d = (ApiErr 400 "Insufficient funds or user not found", d)).
    { rewrite (transfer_money_valid r d V), Ha, Hc. simpl str_of.
      unfold run_tx, transfer_money_tx, sbind, update_users_col.
      rewrite currency_column_name. unfold update_users.
      rewrite filter_all_false; [reflexivity|].
      intros u Hu. destruct (String.eqb (user_id u) a) eqn:E; [|reflexivity].
      apply String.eqb_eq in E. simpl.
      destruct (balance_Some _ _ _ _ Hx) as [u' [Hu' Hbx]].
      destruct (find_user_In _ _ _ Hu') as [Hin' Hid'].
      assert (u = u') as -> by (apply (nodup_same_id (users d)); congruence).
      rewrite Hbx. apply not_true_iff_false. rewrite Qle_bool_iff.
      apply Qlt_not_le. exact Hlt. }
    rewrite Hrun. simpl. split; [reflexivity|]. split; [reflexivity|]. intros _; reflexivity.
Qed.

Lemma transfer_money_insufficient_noop_witness :
  snd (transfer_money pay_AB_200 db_AB) = db_AB /\
  fst (transfer_money pay_AB_200 db_AB) =
    match pay_first_failed_check pay_AB_200 with
    | Some e => e
    | None => ApiErr 400 "Insufficient funds or user not found"
    end /\
  (pay_request_valid pay_AB_200 = true ->
   fst (transfer_money pay_AB_200 db_AB) = ApiErr 400 "Insufficient funds or user not found").
Proof.
  apply (transfer_money_insufficient_noop pay_AB_200 db_AB uA gold_dinars 100);
    [solve_nodup_ids
    | reflexivity | reflexivity | reflexivity | vm_compute; reflexivity].
Defined.

(** C2 as stated says the error is always the insufficient-funds error: a
    request for 1000000 gold dinars from a sender holding 100 is answered
    with the amount-range error, which [transfer_money] checks first. *)
Lemma transfer_money_insufficient_counterexample :
  balance db_AB uA gold_dinars = Some 100 /\ 100 < amount pay_AB_big /\
  transfer_money pay_AB_big db_AB = (ApiErr 400 "Invalid amount", db_AB).
Proof. vm_compute. repeat split; reflexivity. Qed.

(** ** Claim C4 *)

(** C4: in [POST /api/pay], when the debit of the sender succeeds (the sender
    holds at least the amount) but the credit finds no recipient row, the
    whole transaction is rolled back: the database (balances and
    transaction rows) is exactly as before and the handler answers with the
    "Recipient user not found" error. *)
Theorem transfer_money_credit_failure_rolls_back (r : pay_request) (d : db)
  (a b : string) (c : currency) (x : Q) :
  pay_request_valid r = true ->
  from_user r = Some a -> to_user r = Some b -> req_currency r = currency_name c ->
  balance d a c = Some x -> amount r <= x ->
  balance d b c = None ->
  transfer_money r d = (ApiErr 400 "Recipient user not found", d).
Proof.
  intros V Ha Hb Hc Hx Hle Hnob.
  rewrite (transfer_money_valid r d V), Ha, Hb, Hc. simpl str_of.
  destruct (balance_Some _ _ _ _ Hx) as [u [Hu Hbx]].
  destruct (find_user_In _ _ _ Hu) as [Hin Hid].
  apply balance_None in Hnob.
  unfold run_tx, transfer_money_tx, sbind, update_users_col.
  rewrite currency_column_name. unfold update_users at 1.
  rewrite (filter_In_nonzero _ _ u Hin).
  2:{ rewrite Hid, String.eqb_refl, Hbx. simpl. apply Qle_bool_iff. exact Hle. }
  unfold update_users. simpl.
  rewrite filter_all_false; [reflexivity|].
  intros v Hv. apply String.eqb_neq.
  apply in_map_iff in Hv as [v0 [<- Hv0]].
  match goal with |- context [user_id (if ?bb then _ else _)] =>
    destruct bb; [rewrite user_id_set_balance|] end;
  apply (find_user_None _ _ Hnob); exact Hv0.
Qed.

Lemma transfer_money_credit_failure_rolls_back_witness :
  pay_request_valid pay_AC_10 = true /\ balance db_AB uC gold_dinars = None /\
  transfer_money pay_AC_10 db_AB = (ApiErr 400 "Recipient user not found", db_AB).
Proof.
  split; [vm_compute; reflexivity|]. split; [vm_compute; reflexivity|].
  apply (transfer_money_credit_failure_rolls_back pay_AC_10 db_AB uA uC gold_dinars 100);
    vm_compute; try reflexivity; discriminate.
Defined.


(** ** Claim C6 *)

Lemma find_pending_app_none apps id :
  (forall a, In a apps -> app_id a = id -> app_status a <> "pending"%string) ->
  find_pending_app apps id = None.
Proof.
  unfold find_pending_app.
  induction apps as [|x r IH]; simpl; intros H; [reflexivity|].
  destruct (Nat.eqb (app_id x) id && String.eqb (app_status x) "pending")%bool eqn:E.
  - apply andb_true_iff in E as [E1 E2].
    apply Nat.eqb_eq in E1. apply String.eqb_eq in E2.
    exfalso. exact (H x (or_introl eq_refl) E1 E2).
  - apply IH. intros a Ha. apply H. right. exact Ha.
Qed.

Definition funded_app (caller : string) (a : app_row) : app_row :=
  mk_app (app_id a) (app_borrower_id a) (app_loan_amount a) (app_currency a)
         (app_due_date a) "funded" (Some caller).

Lemma fund_loan_tx_ok caller id ap ud d0 r d' :
  fund_loan_tx caller id ap ud d0 = SOk r d' ->
  r = Commit (Say "Loan Successfully Funded!") /\
  loan_applications d' =
    map_if (fun a => Nat.eqb (app_id a) id) (funded_app caller) (loan_applications d0).
Proof.
  unfold fund_loan_tx, update_users_col.
  destruct (currency_column (app_currency ap)); [|discriminate].
  unfold sbind, update_users, insert_loan, update_loan_applications, insert_transaction, sret.
  cbv beta iota zeta.
  repeat match goal with |- context [if ?b then _ else _] => destruct b end;
    try discriminate.
  intros H. injection H as <- <-. split; reflexivity.
Qed.

Lemma map_if_funded_not_pending caller id apps :
  forall a, In a (map_if (fun a => Nat.eqb (app_id a) id) (funded_app caller) apps) ->
  app_id a = id -> app_status a <> "pending"%string.
Proof.
  intros a Ha Hid. unfold map_if in Ha.
  apply in_map_iff in Ha as [x [Hx _]].
  destruct (Nat.eqb (app_id x) id) eqn:E.
  - subst a. simpl. discriminate.
  - subst a. apply Nat.eqb_neq in E. contradiction.
Qed.

(** C6: [fund_loan] on an application id with no ['pending'] row (in
    particular one already ['funded']) answers "Loan application not found
    or already funded." and leaves the database exactly as it was: no money
    moved, no loan row, no transaction row.  And once a [fund_loan] call on
    an application has succeeded, every later [fund_loan] call on it, by any
    caller, fails in that way, so funds move at most once per application. *)
Theorem fund_loan_not_pending_noop (caller caller' : string) (id : nat) (d d1 : db) :
  ((forall a, In a (loan_applications d) -> app_id a = id -> app_status a <> "pending"%string) ->
   fund_loan caller id d = (Say "Loan application not found or already funded.", d)) /\
  (fund_loan caller id d = (Say "Loan Successfully Funded!", d1) ->
   fund_loan caller' id d1 = (Say "Loan application not found or already funded.", d1)).
Proof.
  split.
  - intros H. unfold fund_loan. rewrite (find_pending_app_none _ _ H). reflexivity.
  - unfold fund_loan at 1. intros H.
    destruct (find_pending_app (loan_applications d) id) as [ap|]; [|discriminate].
    destruct (String.eqb (app_borrower_id ap) caller); [discriminate|].
    destruct (get_user_account caller d) as [ud d2].
    destruct (Qltb _ _); [discriminate|].
    unfold run_tx in H.
    destruct (fund_loan_tx caller id ap ud d2) as [r d3|e] eqn:T; [|discriminate].
    destruct (fund_loan_tx_ok _ _ _ _ _ _ _ T) as [-> Happs].
    injection H as <-.
    unfold fund_loan. rewrite find_pending_app_none; [reflexivity|].
    rewrite Happs. apply map_if_funded_not_pending.
Qed.

Lemma fund_loan_not_pending_noop_witness :
  fund_loan uL 7 db_app = (Say "Loan application not found or already funded.", db_app) /\
  fund_loan uL 1 db_app = (Say "Loan Successfully Funded!", snd (fund_loan uL 1 db_app)) /\
  fund_loan uB 1 (snd (fund_loan uL 1 db_app)) =
    (Say "Loan application not found or already funded.", snd (fund_loan uL 1 db_app)).
Proof.
  split; [|split; [vm_compute; reflexivity|]].
  - apply (proj1 (fund_loan_not_pending_noop uL uL 7 db_app db_app)).
    intros a Ha. destruct Ha as [<-|[]]. simpl. discriminate.
  - apply (proj2 (fund_loan_not_pending_noop uL uB 1 db_app _)).
    vm_compute; reflexivity.
Defined.

(** ** Claim C5 *)

Lemma get_user_account_only_users uid d u d1 :
  get_user_account uid d = (u, d1) -> d1 = set_users d (users d1).
Proof.
  unfold get_user_account.
  destruct (negb (validate_user_id (Some uid))).
  - intros H. injection H as _ <-. destruct d; reflexivity.
  - destruct (find_user (users d) uid).
    + intros H. injection H as _ <-. destruct d; reflexivity.
    + intros H. injection H as _ <-. reflexivity.
Qed.

Lemma nodup_map_same {A B} (f : A -> B) l x y :
  NoDup (map f l) -> In x l -> In y l -> f x = f y -> x = y.
Proof.
  induction l as [|z r IH]; simpl; [tauto|].
  intros Hnd Hx Hy Hf. inversion Hnd as [|? ? Hnin Hnd']; subst.
  destruct Hx as [<-|Hx], Hy as [<-|Hy]; auto.
  - exfalso. apply Hnin. rewrite Hf. apply in_map. exact Hy.
  - exfalso. apply Hnin. rewrite <- Hf. apply in_map. exact Hx.
Qed.

Lemma find_loan_of_some ls lid caller l :
  find_loan_of ls lid caller = Some l ->
  In l ls /\ loan_id l = lid /\ borrower_id l = caller.
Proof.
  unfold find_loan_of. intros H. apply find_some in H as [Hin H].
  apply andb_true_iff in H as [H1 H2].
  apply Nat.eqb_eq in H1. apply String.eqb_eq in H2. auto.
Qed.

Lemma Forall2_refl_loans ls :
  Forall2 (fun l l' => loan_id l' = loan_id l /\ loan_amount l' = loan_amount l /\
                       repaid_amount l <= repaid_amount l') ls ls.
Proof.
  induction ls as [|l r IH]; constructor; auto.
  split; [reflexivity|]. split; [reflexivity|]. apply Qle_refl.
Qed.

Lemma loans_grow_refl d : loans_grow d d.
Proof. apply Forall2_refl_loans. Qed.

Lemma loans_grow_trans d1 d2 d3 :
  loans_grow d1 d2 -> loans_grow d2 d3 -> loans_grow d1 d3.
Proof.
  unfold loans_grow. generalize (loans d1) (loans d2) (loans d3). clear.
  intros l1 l2 l3 H12. revert l3.
  induction H12 as [|x y r1 r2 [Hi [Ha Hr]] H12 IH]; intros l3 H23;
    inversion H23 as [|y' z r2' r3 [Hi' [Ha' Hr']] H23']; subst; constructor.
  - split; [congruence|]. split; [congruence|]. eapply Qle_trans; eassumption.
  - apply IH. exact H23'.
Qed.

Lemma repay_loan_tx_ok caller lid l amt ud d0 r d' :
  repay_loan_tx caller lid l amt ud d0 = SOk r d' ->
  r = Commit (Say "Loan Repayment Processed!") /\
  loans d' =
    map_if (fun x => Nat.eqb (loan_id x) lid)
      (set_repayment (repaid_amount l + amt)
         (if Qle_bool (loan_amount l) (repaid_amount l + amt)
          then "completed"%string else "active"%string))
      (loans d0).
Proof.
  unfold repay_loan_tx, update_users_col.
  destruct (currency_column (loan_currency l)); [|discriminate].
  unfold sbind, update_users, update_loans, insert_transaction, sret.
  cbv beta iota zeta.
  repeat match goal with |- context [if ?b then _ else _] =>
    match b with Qle_bool _ _ => fail 1 | _ => destruct b end end;
    try discriminate.
  intros H. injection H as <- <-. split; reflexivity.
Qed.

Lemma repay_loan_rejected caller lid amt d :
  (forall l, In l (loans d) -> loan_id l = lid -> repay_rejected caller amt l) ->
  snd (repay_loan caller lid amt d) = d.
Proof.
  intros H. unfold repay_loan.
  destruct (find_loan_of (loans d) lid caller) as [l|] eqn:F; [|reflexivity].
  destruct (find_loan_of_some _ _ _ _ F) as (Hin & Hid & Hb).
  destruct (H l Hin Hid) as [Hr|[Hr|[Hr|Hr]]].
  - contradiction.
  - apply String.eqb_neq in Hr. rewrite Hr. reflexivity.
  - destruct (negb _); [reflexivity|].
    unfold Qltb. replace (Qle_bool amt (loan_amount l - repaid_amount l)) with false;
      [reflexivity|].
    symmetry. apply not_true_iff_false. rewrite Qle_bool_iff. apply Qlt_not_le. exact Hr.
  - destruct (negb _); [reflexivity|]. destruct (Qltb _ _); [reflexivity|].
    replace (Qle_bool amt 0) with true; [reflexivity|].
    symmetry. apply Qle_bool_iff. exact Hr.
Qed.

Lemma Forall2_map_if {A} (P : A -> A -> Prop) (w : A -> bool) (g : A -> A) xs :
  (forall x, In x xs -> P x (if w x then g x else x)) -> Forall2 P xs (map_if w g xs).
Proof.
  induction xs as [|x r IH]; simpl; intros H; constructor.
  - apply H. left. reflexivity.
  - apply IH. intros y Hy. apply H. right. exact Hy.
Qed.

Lemma Forall_map_if {A} (P : A -> Prop) (w : A -> bool) (g : A -> A) xs :
  (forall x, In x xs -> P (if w x then g x else x)) -> Forall P (map_if w g xs).
Proof.
  intros H. unfold map_if. apply Forall_forall. intros y Hy.
  apply in_map_iff in Hy as [x [<- Hx]]. apply H. exact Hx.
Qed.

Lemma map_loan_id_map_if w g ls :
  (forall x, loan_id (g x) = loan_id x) ->
  map loan_id (map_if w g ls) = map loan_id ls.
Proof.
  intros Hg. unfold map_if. rewrite map_map. apply map_ext.
  intros x. destruct (w x); auto.
Qed.

Lemma repay_loan_step caller lid amt d :
  repay_inv d ->
  repay_inv (snd (repay_loan caller lid amt d)) /\
  loans_grow d (snd (repay_loan caller lid amt d)).
Proof.
  intros [Hnd Hall]. unfold repay_loan.
  destruct (find_loan_of (loans d) lid caller) as [l|] eqn:F;
    [|split; [split; assumption|apply loans_grow_refl]].
  destruct (negb (String.eqb (loan_status l) "active")) eqn:Hact;
    [split; [split; assumption|apply loans_grow_refl]|].
  destruct (Qltb (loan_amount l - repaid_amount l) amt) eqn:Hex;
    [split; [split; assumption|apply loans_grow_refl]|].
  destruct (Qle_bool amt 0) eqn:Hpos;
    [split; [split; assumption|apply loans_grow_refl]|].
  destruct (get_user_account caller d) as [ud d1] eqn:G.
  apply get_user_account_only_users in G.
  assert (Hl : loans d1 = loans d) by (rewrite G; reflexivity).
  assert (Hsame : repay_inv d1 /\ loans_grow d d1).
  { unfold repay_inv, loans_grow. rewrite Hl.
    split; [split; assumption|apply Forall2_refl_loans]. }
  destruct (Qltb (balance_of ud (branch_currency (loan_currency l))) amt); [exact Hsame|].
  unfold run_tx.
  destruct (repay_loan_tx caller lid l amt ud d1) as [r d2|e] eqn:T; [|exact Hsame].
  destruct (repay_loan_tx_ok _ _ _ _ _ _ _ _ T) as [-> Hl2]. simpl snd.
  rewrite Hl in Hl2.
  destruct (find_loan_of_some _ _ _ _ F) as (Hin & Hid & _).
  assert (Hle : amt <= loan_amount l - repaid_amount l).
  { unfold Qltb in Hex. apply negb_false_iff in Hex. apply Qle_bool_iff. exact Hex. }
  assert (Hgt : 0 < amt).
  { apply Qnot_le_lt. intros Hc. apply Qle_bool_iff in Hc. congruence. }
  assert (Hl0 := proj1 (Forall_forall _ _) Hall l Hin). simpl in Hl0.
  destruct Hl0 as [[H0 H1] _].
  assert (Honly : forall x, In x (loans d) -> Nat.eqb (loan_id x) lid = true -> x = l).
  { intros x Hx E. apply Nat.eqb_eq in E.
    apply (nodup_map_same loan_id (loans d)); auto. congruence. }
  unfold repay_inv, loans_grow. rewrite Hl2. split; [split|].
  - rewrite map_loan_id_map_if by reflexivity. exact Hnd.
  - apply Forall_map_if. intros x Hx.
    destruct (Nat.eqb (loan_id x) lid) eqn:E.
    + rewrite (Honly x Hx E). unfold set_repayment; simpl.
      split; [split; lra|].
      destruct (Qle_bool (loan_amount l) (repaid_amount l + amt)) eqn:Hc.
      * apply Qle_bool_iff in Hc. split; [intros _; lra|reflexivity].
      * split; [discriminate|]. intros Heq.
        assert (Qle_bool (loan_amount l) (repaid_amount l + amt) = true)
          by (apply Qle_bool_iff; lra). congruence.
    + exact (proj1 (Forall_forall _ _) Hall x Hx).
  - apply Forall2_map_if. intros x Hx.
    destruct (Nat.eqb (loan_id x) lid) eqn:E.
    + rewrite (Honly x Hx E). unfold set_repayment; simpl.
      split; [reflexivity|]. split; [reflexivity|]. lra.
    + split; [reflexivity|]. split; [reflexivity|]. apply Qle_refl.
Qed.

(** C5: over any sequence of [repay_loan] calls, starting from loans with a
    primary-key id, [0 <= repaid_amount <= loan_amount] and status
    ['completed'] exactly when fully repaid, every state reached keeps these
    facts and each loan keeps its id and principal while its [repaid_amount]
    never decreases (so it never exceeds the principal, and a loan is
    ['completed'] exactly when [repaid_amount] equals the principal); and a
    call whose loan is missing, belongs to another borrower, is not
    ['active'], or whose amount is above the outstanding balance or not
    positive leaves the database unchanged. *)
Theorem repay_loan_monotone (calls : list (string * nat * Q)) (caller : string)
  (lid : nat) (amt : Q) (d : db) :
  (repay_inv d -> repay_inv (repay_loans calls d) /\ loans_grow d (repay_loans calls d)) /\
  ((forall l, In l (loans d) -> loan_id l = lid -> repay_rejected caller amt l) ->
   snd (repay_loan caller lid amt d) = d).
Proof.
  split; [|apply repay_loan_rejected].
  revert d. induction calls as [|[[c i] a] rest IH]; simpl; intros d Hinv.
  - split; [exact Hinv|apply loans_grow_refl].
  - destruct (repay_loan_step c i a d Hinv) as [Hinv1 Hg1].
    destruct (IH _ Hinv1) as [Hinv2 Hg2].
    split; [exact Hinv2|]. eapply loans_grow_trans; eassumption.
Qed.

Lemma repay_loan_monotone_witness :
  (repay_inv (repay_loans [(uA, 1%nat, 20); (uA, 1%nat, 20)] db_repay) /\
   loans_grow db_repay (repay_loans [(uA, 1%nat, 20); (uA, 1%nat, 20)] db_repay)) /\
  snd (repay_loan uB 1 20 db_repay) = db_repay.
Proof.
  destruct (repay_loan_monotone [(uA, 1%nat, 20); (uA, 1%nat, 20)] uB 1 20 db_repay)
    as [H1 H2].
  split.
  - apply H1. split.
    + vm_compute. repeat constructor. intros [].
    + vm_compute. repeat constructor; try discriminate.
  - apply H2. intros l [<-|[]] _. left. vm_compute. discriminate.
Defined.

(** ** Claims C7 and C8: the overdue-loan sweep *)

Lemma process_overdue_rows_db now rows processed d :
  (forall uid d0, reset_user_data uid d0 = (false, d0)) ->
  snd (process_overdue_rows now rows processed d) = d.
Proof.
  intros Hr. revert processed.
  induction rows as [|l rest IH]; intros processed; simpl; [reflexivity|].
  destruct (existsb (String.eqb (borrower_id l)) processed); [apply IH|].
  destruct (Z.leb 14 (now - due_date l)).
  - rewrite Hr.
    destruct (process_overdue_rows now rest (borrower_id l :: processed) d) as [ns d2] eqn:E.
    simpl. specialize (IH (borrower_id l :: processed)). rewrite E in IH. exact IH.
  - destruct (Z.leb 7 (now - due_date l)); [|apply IH].
    destruct (process_overdue_rows now rest (borrower_id l :: processed) d) as [ns d2] eqn:E.
    simpl. specialize (IH (borrower_id l :: processed)). rewrite E in IH. exact IH.
Qed.

(** C7 (as the code behaves): [reset_user_data] never commits, because its
    [UPDATE users] assigns columns ([last_work_date], [daily_earnings], ...)
    that the [users] table does not have; so the sweep never changes the
    database.  A loan of [uA] due 20 days ago, 10 of 50 repaid and still
    ['active'], is selected by the sweep, yet the sweep answers with no
    notice and leaves every balance, loan and ledger row as it was. *)
Theorem overdue_sweep_reset_never_commits :
  (forall uid d, reset_user_data uid d = (false, d)) /\
  (forall now d, snd (process_overdue_loans now d) = d) /\
  check_overdue_loans 20 db_loan = loans db_loan /\
  process_overdue_loans 20 db_loan = ([], db_loan).
Proof.
  assert (Hr : forall uid d, reset_user_data uid d = (false, d)).
  { intros uid d. unfold reset_user_data, run_tx, reset_user_data_tx, sbind, insert_transaction.
    cbv beta iota delta [tx_user_id]. destruct (user_exists d uid); reflexivity. }
  split; [exact Hr|]. split; [|split; vm_compute; reflexivity].
  intros now d. apply process_overdue_rows_db. exact Hr.
Qed.

Lemma check_overdue_loans_late now d l :
  In l (check_overdue_loans now d) -> (14 < now - due_date l)%Z.
Proof.
  unfold check_overdue_loans. intros H. apply filter_In in H as [_ H].
  apply andb_true_iff in H as [H _]. apply andb_true_iff in H as [_ H].
  apply Z.ltb_lt in H. lia.
Qed.

Lemma process_overdue_rows_no_warning now rows :
  Forall (fun l => (14 < now - due_date l)%Z) rows ->
  forall processed d uid k,
  ~ In (OverdueWarning uid k) (fst (process_overdue_rows now rows processed d)).
Proof.
  induction rows as [|l rest IH]; intros Hf processed d uid k; simpl; [tauto|].
  inversion Hf as [|? ? Hl Hrest]; subst.
  destruct (existsb (String.eqb (borrower_id l)) processed); [apply IH; exact Hrest|].
  replace (Z.leb 14 (now - due_date l)) with true by (symmetry; apply Z.leb_le; lia).
  destruct (reset_user_data (borrower_id l) d) as [ok d1].
  destruct (process_overdue_rows now rest (borrower_id l :: processed) d1) as [ns d2] eqn:E.
  simpl. intros Hin. apply in_app_or in Hin as [Hin|Hin].
  - destruct ok; simpl in Hin; [destruct Hin as [Hin|[]]; discriminate Hin|exact Hin].
  - apply (IH Hrest (borrower_id l :: processed) d1 uid k). rewrite E. exact Hin.
Qed.

(** C8 (as the code behaves): the sweep selects only loans more than 14
    days past due, so its branch for 7 to 13 days past due is never taken
    and it never sends an overdue warning.  A loan of [uA] due 10 days ago,
    still ['active'] and 10 of 50 repaid, is not selected and gets no
    warning. *)
Theorem overdue_sweep_never_warns :
  (forall now d l, In l (check_overdue_loans now d) -> (14 < now - due_date l)%Z) /\
  (forall now d uid k, ~ In (OverdueWarning uid k) (fst (process_overdue_loans now d))) /\
  check_overdue_loans 10 db_loan = [] /\
  process_overdue_loans 10 db_loan = ([], db_loan).
Proof.
  split; [exact check_overdue_loans_late|].
  split; [|split; vm_compute; reflexivity].
  intros now d uid k. unfold process_overdue_loans.
  apply process_overdue_rows_no_warning.
  apply Forall_forall. intros l Hl. exact (check_overdue_loans_late now d l Hl).
Qed.

(** ** Claim C10 *)

Lemma create_bank_account_tx_fails owner inst t cur ratio created_by number d :
  exists e, create_bank_account_tx owner inst t cur ratio created_by number d = SErr e.
Proof.
  unfold create_bank_account_tx, sbind, insert_bank_account, insert_permission.
  cbv beta zeta.
  repeat match goal with |- context [if ?b then _ else _] =>
    match b with context [bl_amount] => fail 1 | _ => destruct b end end;
    eexists; reflexivity.
Qed.

(** C10 (amended): under the schema of [init_database] no
    [create_bank_account] call persists anything: it always answers with an
    error and leaves the database as it was.  The error is the one of the
    first check the call fails ([bank_account_first_failed_check]); a call
    that passes them all answers with the generic database error, whether
    no account number could be generated or the transaction failed: the
    ['Account opened'] [bank_ledger] row it inserts has amount 0, which
    [CHECK (amount > 0)] refuses, so the transaction is never committed. *)
Theorem create_bank_account_never_persists (owner : string) (inst : nat)
  (t cur : string) (ratio : option Q) (created_by : option string)
  (generated : option string) (d : db) :
  snd (create_bank_account owner inst t cur ratio created_by generated d) = d /\
  fst (create_bank_account owner inst t cur ratio created_by generated d) =
    BankErr (match bank_account_first_failed_check owner inst t cur ratio d with
             | Some e => e
             | None => "Database error occurred during account creation."
             end).
Proof.
  unfold create_bank_account, bank_account_first_failed_check.
  destruct (valid_account_type t); cbn [negb]; [|split; reflexivity].
  destruct (valid_currency cur); cbn [negb]; [|split; reflexivity].
  destruct (ratio_check t ratio) as [e|]; [split; reflexivity|].
  destruct (Nat.leb 5 (get_user_account_count d owner inst)); [split; reflexivity|].
  destruct (find_institution d inst) as [b|]; [|split; reflexivity].
  destruct generated as [number|]; [|split; reflexivity].
  unfold run_tx.
  match goal with |- context [create_bank_account_tx ?o ?i ?t ?c ?r ?cb ?n d] =>
    destruct (create_bank_account_tx_fails o i t c r cb n d) as [e He]; rewrite He end.
  split; reflexivity.
Qed.

(** C10 as stated says every call ends with the generic database error: a
    [/bank_open_account] request for a ['mudarabah'] account that leaves out
    the optional profit-share ratio reaches [create_bank_account], which
    answers with the profit-share-ratio error instead. *)
Lemma create_bank_account_counterexample :
  bank_open_account uA "LIC" "mudarabah" "gold_dinars" None (Some "IBK-AAAAAAAA"%string) db_bank =
    (BankErr "Mudarabah accounts require profit_share_ratio between 0 and 1.", db_bank) /\
  bank_open_account uA "LIC" "mudarabah" "gold_dinars" None (Some "IBK-AAAAAAAA"%string) db_bank =
    create_bank_account uA 1 "mudarabah" "gold_dinars" None (Some uA) (Some "IBK-AAAAAAAA"%string) db_bank.
Proof. split; vm_compute; reflexivity. Qed.

Lemma create_bank_account_never_persists_witness :
  create_bank_account uA 1 "wadiah" "gold_dinars" None None (Some "IBK-AAAAAAAA"%string) db_bank =
    (BankErr "Database error occurred during account creation.", db_bank).
Proof.
  destruct (create_bank_account_never_persists uA 1 "wadiah" "gold_dinars" None None
              (Some "IBK-AAAAAAAA"%string) db_bank) as [H1 H2].
  rewrite <- H1 at 2.
  change (BankErr "Database error occurred during account creation.")
    with (BankErr (match bank_account_first_failed_check uA 1 "wadiah" "gold_dinars" None db_bank with
                   | Some e => e
                   | None => "Database error occurred during account creation."
                   end)).
  rewrite <- H2.
  destruct (create_bank_account _ _ _ _ _ _ _ _); reflexivity.
Defined.

(** ** Invariants of single SQL statements *)

Definition preserves (P : db -> Prop) {A} (m : sql A) : Prop :=
  forall d a d', P d -> m d = SOk a d' -> P d'.

Lemma preserves_bind {A B} (P : db -> Prop) (m : sql A) (k : A -> sql B) :
  preserves P m -> (forall a, preserves P (k a)) -> preserves P (sbind m k).
Proof.
  intros Hm Hk d b d' Hd H. unfold sbind in H.
  destruct (m d) as [a d1|e] eqn:E; [|discriminate].
  exact (Hk a d1 b d' (Hm d a d1 Hd E) H).
Qed.

Lemma preserves_ret {A} (P : db -> Prop) (a : A) : preserves P (sret a).
Proof. intros d b d' Hd H. injection H as _ <-. exact Hd. Qed.

Lemma preserves_raise {A} (P : db -> Prop) msg : preserves P (@sraise A msg).
Proof. intros d b d' _ H. discriminate H. Qed.

Lemma run_tx_preserves {A} (P : db -> Prop) (body : sql (tx_end A)) h d :
  preserves P body -> P d -> P (snd (run_tx body h d)).
Proof.
  intros Hb Hd. unfold run_tx.
  destruct (body d) as [[a|a] d'|e] eqn:E; simpl; auto.
  exact (Hb _ _ _ Hd E).
Qed.

(** A statement that writes none of the tables an invariant reads keeps it. *)
Ltac frame_stmt :=
  let d := fresh "d" in let a := fresh "a" in let d' := fresh "d'" in
  let Hp := fresh "Hp" in let H := fresh "H" in
  intros d a d' Hp H; cbv beta in H;
  repeat match type of H with
         | context [if ?b then _ else _] => destruct b
         | context [match ?x with Some _ => _ | None => _ end] => destruct x
         end;
  try discriminate H; injection H as _ <-; exact Hp.

Lemma Forall_map_if_keep {A} (P : A -> Prop) (w : A -> bool) (g : A -> A) xs :
  (forall x, w x = true -> P x -> P (g x)) -> Forall P xs -> Forall P (map_if w g xs).
Proof.
  intros Hg Hxs. apply Forall_map_if. intros x Hx.
  pose proof (proj1 (Forall_forall _ _) Hxs x Hx) as Hpx.
  destruct (w x) eqn:E; auto.
Qed.

(** *** Non-negative wallets and positive applications *)

Lemma money_insert_transaction fk t : preserves money_inv (insert_transaction fk t).
Proof. unfold insert_transaction. frame_stmt. Qed.
Lemma money_insert_loan l : preserves money_inv (insert_loan l).
Proof. unfold insert_loan. frame_stmt. Qed.
Lemma money_update_loans w g : preserves money_inv (update_loans w g).
Proof. unfold update_loans. frame_stmt. Qed.
Lemma money_update_businesses w g : preserves money_inv (update_businesses w g).
Proof. unfold update_businesses. frame_stmt. Qed.
Lemma money_update_investments w g : preserves money_inv (update_investments w g).
Proof. unfold update_investments. frame_stmt. Qed.
Lemma money_delete_marketplace w : preserves money_inv (delete_marketplace w).
Proof. unfold delete_marketplace. frame_stmt. Qed.
Lemma money_insert_permission p : preserves money_inv (insert_permission p).
Proof. unfold insert_permission. frame_stmt. Qed.
Lemma money_insert_bank_ledger fk e : preserves money_inv (insert_bank_ledger fk e).
Proof. unfold insert_bank_ledger. frame_stmt. Qed.
Lemma money_update_bank_balance id v : preserves money_inv (update_bank_balance id v).
Proof. unfold update_bank_balance. frame_stmt. Qed.
Lemma money_insert_bank_account a : preserves money_inv (insert_bank_account a).
Proof. unfold insert_bank_account. frame_stmt. Qed.

Lemma nonneg_set_balance u c v : nonneg_row u -> 0 <= v -> nonneg_row (set_balance u c v).
Proof. unfold nonneg_row. destruct c; simpl; tauto. Qed.

Lemma balance_of_nonneg u c : nonneg_row u -> 0 <= balance_of u c.
Proof. unfold nonneg_row. destruct c; simpl; tauto. Qed.

Lemma money_update_users c f w :
  (forall u, w u = true -> nonneg_row u -> 0 <= f (balance_of u c)) ->
  preserves money_inv (update_users c f w).
Proof.
  intros Hf d a d' [Hu Ha] H. unfold update_users in H. injection H as _ <-.
  split; [|exact Ha]. unfold wallets_nonneg. simpl.
  apply (Forall_map_if_keep nonneg_row w (fun u => set_balance u c (f (balance_of u c))));
    [|exact Hu].
  intros u Hw Hn. apply nonneg_set_balance; auto.
Qed.

Lemma money_update_users_col col f w :
  (forall c u, w c u = true -> nonneg_row u -> 0 <= f (balance_of u c)) ->
  preserves money_inv (update_users_col col f w).
Proof.
  intros Hf. unfold update_users_col.
  destruct (currency_column col) as [c|]; [|apply preserves_raise].
  apply money_update_users. apply Hf.
Qed.

Lemma money_update_users_cols cols g w :
  (forall u, w u = true -> nonneg_row u -> nonneg_row (g u)) ->
  preserves money_inv (update_users_cols cols g w).
Proof.
  intros Hg d a d' [Hu Ha] H. unfold update_users_cols in H.
  destruct (find _ cols); [discriminate H|]. injection H as _ <-.
  split; [|exact Ha]. apply Forall_map_if_keep; assumption.
Qed.

Lemma money_update_users_row g w :
  (forall u, w u = true -> nonneg_row u -> nonneg_row (g u)) ->
  preserves money_inv (update_users_row g w).
Proof.
  intros Hg d a d' [Hu Ha] H. unfold update_users_row in H. injection H as _ <-.
  split; [|exact Ha]. apply Forall_map_if_keep; assumption.
Qed.

Lemma money_update_loan_applications w g :
  (forall a, w a = true -> 0 < app_loan_amount a -> 0 < app_loan_amount (g a)) ->
  preserves money_inv (update_loan_applications w g).
Proof.
  intros Hg d x d' [Hu Ha] H. unfold update_loan_applications in H. injection H as _ <-.
  split; [exact Hu|]. apply Forall_map_if_keep; assumption.
Qed.

Lemma money_insert_loan_application a :
  (forall id, 0 < app_loan_amount (a id)) ->
  preserves money_inv (insert_loan_application a).
Proof.
  intros Ha0 d x d' [Hu Ha] H. unfold insert_loan_application in H.
  destruct (user_exists _ _); [|discriminate H]. injection H as _ <-.
  split; [exact Hu|]. apply Forall_app. split; [exact Ha|]. constructor; auto.
Qed.

(** *** The profit-share ratio of bank accounts *)

Lemma bank_insert_transaction fk t : preserves bank_inv (insert_transaction fk t).
Proof. unfold insert_transaction. frame_stmt. Qed.
Lemma bank_insert_loan l : preserves bank_inv (insert_loan l).
Proof. unfold insert_loan. frame_stmt. Qed.
Lemma bank_update_loans w g : preserves bank_inv (update_loans w g).
Proof. unfold update_loans. frame_stmt. Qed.
Lemma bank_update_businesses w g : preserves bank_inv (update_businesses w g).
Proof. unfold update_businesses. frame_stmt. Qed.
Lemma bank_update_investments w g : preserves bank_inv (update_investments w g).
Proof. unfold update_investments. frame_stmt. Qed.
Lemma bank_delete_marketplace w : preserves bank_inv (delete_marketplace w).
Proof. unfold delete_marketplace. frame_stmt. Qed.
Lemma bank_insert_permission p : preserves bank_inv (insert_permission p).
Proof. unfold insert_permission. frame_stmt. Qed.
Lemma bank_insert_bank_ledger fk e : preserves bank_inv (insert_bank_ledger fk e).
Proof. unfold insert_bank_ledger. frame_stmt. Qed.
Lemma bank_update_users c f w : preserves bank_inv (update_users c f w).
Proof. unfold update_users. frame_stmt. Qed.
Lemma bank_update_users_col col f w : preserves bank_inv (update_users_col col f w).
Proof. unfold update_users_col, update_users, sraise. frame_stmt. Qed.
Lemma bank_update_users_cols cols g w : preserves bank_inv (update_users_cols cols g w).
Proof. unfold update_users_cols. frame_stmt. Qed.
Lemma bank_update_users_row g w : preserves bank_inv (update_users_row g w).
Proof. unfold update_users_row. frame_stmt. Qed.
Lemma bank_update_loan_applications w g : preserves bank_inv (update_loan_applications w g).
Proof. unfold update_loan_applications. frame_stmt. Qed.
Lemma bank_insert_loan_application a : preserves bank_inv (insert_loan_application a).
Proof. unfold insert_loan_application. frame_stmt. Qed.

Lemma bank_update_bank_balance id v : preserves bank_inv (update_bank_balance id v).
Proof.
  intros d x d' Hb H. unfold update_bank_balance in H.
  destruct (Qltb v 0); [discriminate H|]. injection H as _ <-.
  apply Forall_map_if_keep; [|exact Hb].
  intros b _ Hr. exact Hr.
Qed.

Lemma bank_insert_bank_account a :
  (forall id, ratio_iff_mudarabah (a id)) -> preserves bank_inv (insert_bank_account a).
Proof.
  intros Ha d x d' Hb H. unfold insert_bank_account in H. cbv zeta in H.
  destruct (existsb _ _); [discriminate H|].
  destruct (negb _); [discriminate H|]. injection H as _ <-.
  apply Forall_app. split; [exact Hb|]. constructor; auto.
Qed.

(** ** Invariants of the handlers *)

Create HintDb money_stmt.
#[export] Hint Resolve money_insert_transaction money_insert_loan money_update_loans
  money_update_businesses money_update_investments money_delete_marketplace
  money_insert_permission money_insert_bank_ledger money_update_bank_balance
  money_insert_bank_account preserves_ret preserves_raise : money_stmt.

Create HintDb bank_stmt.
#[export] Hint Resolve bank_insert_transaction bank_insert_loan bank_update_loans
  bank_update_businesses bank_update_investments bank_delete_marketplace
  bank_insert_permission bank_insert_bank_ledger bank_update_users bank_update_users_col
  bank_update_users_cols bank_update_users_row bank_update_loan_applications
  bank_insert_loan_application bank_update_bank_balance preserves_ret preserves_raise
  : bank_stmt.

(** Walk a transaction body statement by statement, closing the statements
    the hint database covers. *)
Ltac chain_stmts db :=
  repeat match goal with
    | |- preserves _ (sbind _ _) =>
        apply preserves_bind; [try solve [eauto with db] | intros ?; cbv beta zeta]
    | |- preserves _ (sret _) => apply preserves_ret
    | |- preserves _ (if ?b then _ else _) => destruct b
    end.

Lemma Qle_bool_false x y : Qle_bool x y = false -> y < x.
Proof.
  intros H. apply Qnot_le_lt. intros Hc. apply Qle_bool_iff in Hc. congruence.
Qed.

Lemma Qltb_false x y : Qltb x y = false -> y <= x.
Proof. unfold Qltb. intros H. apply negb_false_iff in H. apply Qle_bool_iff. exact H. Qed.

Lemma Qltb_true x y : Qltb x y = true -> x < y.
Proof. unfold Qltb. intros H. apply negb_true_iff in H. apply Qle_bool_false. exact H. Qed.

Lemma pay_request_valid_amount r : pay_request_valid r = true -> 0 <= amount r.
Proof.
  unfold pay_request_valid, validate_amount. intros H.
  repeat rewrite andb_true_iff in H.
  destruct H as [[[[[[_ _] _] _] [H _]] _] _].
  apply Qle_bool_iff in H. lra.
Qed.

Lemma money_get_user_account uid d ud d1 :
  money_inv d -> get_user_account uid d = (ud, d1) -> money_inv d1 /\ nonneg_row ud.
Proof.
  intros [Hu Ha]. unfold get_user_account.
  destruct (negb (validate_user_id (Some uid))).
  { intros H. injection H as <- <-. split; [split; assumption|]. split; simpl; lra. }
  destruct (find_user (users d) uid) as [u|] eqn:F.
  - intros H. injection H as <- <-. split; [split; assumption|].
    destruct (find_user_In _ _ _ F) as [Hin _].
    exact (proj1 (Forall_forall _ _) Hu u Hin).
  - intros H. injection H as <- <-.
    assert (Hn : nonneg_row (mk_user uid 100 500)) by (split; simpl; lra).
    split; [|exact Hn]. split; [|exact Ha].
    apply Forall_app. split; [exact Hu|]. constructor; [exact Hn|constructor].
Qed.

Lemma money_transfer_money r d : money_inv d -> money_inv (snd (transfer_money r d)).
Proof.
  intros Hd. destruct (pay_request_valid r) eqn:V.
  - pose proof (pay_request_valid_amount r V) as Hamt.
    rewrite (transfer_money_valid r d V). apply run_tx_preserves; [|exact Hd].
    unfold transfer_money_tx. chain_stmts money_stmt.
    + apply money_update_users_col. intros c u Hw _.
      apply andb_true_iff in Hw as [_ Hw]. apply Qle_bool_iff in Hw. lra.
    + apply money_update_users_col. intros c u _ Hn.
      pose proof (balance_of_nonneg u c Hn). lra.
  - destruct (transfer_money_invalid r d V) as (code & m & ->). exact Hd.
Qed.

Lemma money_apply_for_loan caller amt cur days purpose now d :
  money_inv d -> money_inv (snd (apply_for_loan caller amt cur days purpose now d)).
Proof.
  intros Hd. unfold apply_for_loan.
  destruct (negb _); [exact Hd|].
  destruct (Qle_bool amt 0 || Z.leb days 0)%bool eqn:Hpos; [exact Hd|].
  destruct (Z.ltb 365 days); [exact Hd|].
  destruct (Nat.ltb _ 10); [exact Hd|].
  destruct (Nat.leb 3 _); [exact Hd|].
  apply run_tx_preserves; [|exact Hd].
  chain_stmts money_stmt.
  apply money_insert_loan_application. intros id. simpl.
  apply orb_false_iff in Hpos as [Hpos _]. apply Qle_bool_false. exact Hpos.
Qed.

Lemma money_fund_loan caller id d : money_inv d -> money_inv (snd (fund_loan caller id d)).
Proof.
  intros Hd. unfold fund_loan.
  destruct (find_pending_app (loan_applications d) id) as [ap|] eqn:F; [|exact Hd].
  assert (Hap : 0 < app_loan_amount ap).
  { unfold find_pending_app in F. apply find_some in F as [Hin _].
    exact (proj1 (Forall_forall _ _) (proj2 Hd) ap Hin). }
  destruct (String.eqb _ caller); [exact Hd|].
  destruct (get_user_account caller d) as [ud d1] eqn:G.
  destruct (money_get_user_account _ _ _ _ Hd G) as [Hd1 Hud].
  destruct (Qltb _ _) eqn:Hq; [exact Hd1|].
  apply Qltb_false in Hq.
  apply run_tx_preserves; [|exact Hd1].
  unfold fund_loan_tx. cbv zeta. chain_stmts money_stmt.
  - apply money_update_users. intros u _ _. lra.
  - apply money_update_users_col. intros c u _ Hn.
    pose proof (balance_of_nonneg u c Hn). lra.
  - apply money_update_loan_applications. intros x _ Hx. exact Hx.
Qed.

Lemma money_repay_loan caller lid amt d : money_inv d -> money_inv (snd (repay_loan caller lid amt d)).
Proof.
  intros Hd. unfold repay_loan.
  destruct (find_loan_of (loans d) lid caller) as [l|]; [|exact Hd].
  destruct (negb _); [exact Hd|].
  destruct (Qltb _ amt); [exact Hd|].
  destruct (Qle_bool amt 0) eqn:Hpos; [exact Hd|].
  apply Qle_bool_false in Hpos.
  destruct (get_user_account caller d) as [ud d1] eqn:G.
  destruct (money_get_user_account _ _ _ _ Hd G) as [Hd1 Hud].
  destruct (Qltb _ _) eqn:Hq; [exact Hd1|].
  apply Qltb_false in Hq.
  apply run_tx_preserves; [|exact Hd1].
  unfold repay_loan_tx. cbv zeta. chain_stmts money_stmt.
  - apply money_update_users. intros u _ _. lra.
  - apply money_update_users_col. intros c u _ Hn.
    pose proof (balance_of_nonneg u c Hn). lra.
Qed.

Lemma money_currency_exchange caller amount f t d :
  money_inv d -> money_inv (snd (currency_exchange caller amount f t d)).
Proof.
  intros Hd. unfold currency_exchange.
  destruct (negb _); [exact Hd|].
  destruct (String.eqb (lower f) (lower t)); [exact Hd|].
  destruct (Qle_bool amount 0) eqn:Hpos; [exact Hd|].
  apply Qle_bool_false in Hpos.
  destruct (get_user_account caller d) as [ud d1] eqn:G.
  destruct (money_get_user_account _ _ _ _ Hd G) as [Hd1 [Hg Hs]].
  cbv zeta. unfold get_exchange_rate.
  destruct (String.eqb (lower f) "gold").
  - destruct (Qltb (gold ud) amount) eqn:Hq; [exact Hd1|].
    apply Qltb_false in Hq.
    apply run_tx_preserves; [|exact Hd1]. chain_stmts money_stmt.
    apply money_update_users_row. intros u _ _. split; simpl; lra.
  - destruct (Qltb (silver ud) amount) eqn:Hq; [exact Hd1|].
    apply Qltb_false in Hq.
    apply run_tx_preserves; [|exact Hd1]. chain_stmts money_stmt.
    apply money_update_users_row. intros u _ _. split; simpl; [|lra].
    assert (0 <= amount / 12) by (apply Qle_shift_div_l; lra). lra.
Qed.

Lemma money_create_bank_account owner inst t cur ratio cb gen d :
  money_inv d -> money_inv (snd (create_bank_account owner inst t cur ratio cb gen d)).
Proof.
  intros Hd. unfold create_bank_account.
  destruct (negb _); [exact Hd|]. destruct (negb _); [exact Hd|].
  destruct (ratio_check t ratio); [exact Hd|].
  destruct (Nat.leb 5 _); [exact Hd|].
  destruct (find_institution d inst); [|exact Hd].
  destruct gen as [number|]; [|exact Hd].
  apply run_tx_preserves; [|exact Hd].
  unfold create_bank_account_tx. chain_stmts money_stmt.
Qed.

Lemma money_bank_deposit id uid amt d : money_inv d -> money_inv (snd (bank_deposit id uid amt d)).
Proof.
  intros Hd. unfold bank_deposit.
  destruct (Qle_bool amt 0); [exact Hd|].
  destruct (find_active_account d id) as [acc|]; [|exact Hd].
  destruct (_ && _)%bool; [exact Hd|].
  destruct (get_user_account uid d) as [ud d1] eqn:G.
  destruct (money_get_user_account _ _ _ _ Hd G) as [Hd1 Hud].
  cbv zeta. destruct (Qltb _ amt) eqn:Hq; [exact Hd1|].
  apply Qltb_false in Hq.
  apply run_tx_preserves; [|exact Hd1]. chain_stmts money_stmt.
  apply money_update_users. intros u _ _. lra.
Qed.

Lemma money_bank_withdraw id uid amt d : money_inv d -> money_inv (snd (bank_withdraw id uid amt d)).
Proof.
  intros Hd. unfold bank_withdraw.
  destruct (Qle_bool amt 0) eqn:Hpos; [exact Hd|].
  apply Qle_bool_false in Hpos.
  destruct (find_active_account d id) as [acc|]; [|exact Hd].
  destruct (_ && _)%bool; [exact Hd|].
  destruct (Qltb _ amt); [exact Hd|].
  destruct (get_user_account uid d) as [ud d1] eqn:G.
  destruct (money_get_user_account _ _ _ _ Hd G) as [Hd1 Hud].
  cbv zeta. apply run_tx_preserves; [|exact Hd1]. chain_stmts money_stmt.
  apply money_update_users. intros u _ _.
  pose proof (balance_of_nonneg ud (branch_currency (ba_currency acc)) Hud). lra.
Qed.

Lemma money_bank_transfer from_id to_id uid amt d :
  money_inv d -> money_inv (snd (bank_transfer from_id to_id uid amt d)).
Proof.
  intros Hd. unfold bank_transfer.
  destruct (Qle_bool amt 0); [exact Hd|].
  destruct (Nat.eqb from_id to_id); [exact Hd|].
  cbv zeta. destruct (negb _); [exact Hd|].
  destruct (find _ _) as [fa|]; [|exact Hd].
  destruct (find _ _) as [ta|]; [|exact Hd].
  destruct (negb _); [exact Hd|]. destruct (_ && _)%bool; [exact Hd|].
  destruct (Qltb _ amt); [exact Hd|].
  apply run_tx_preserves; [|exact Hd]. chain_stmts money_stmt.
Qed.

Lemma money_reset_user_data uid d : money_inv d -> money_inv (snd (reset_user_data uid d)).
Proof.
  intros Hd. unfold reset_user_data. apply run_tx_preserves; [|exact Hd].
  unfold reset_user_data_tx. chain_stmts money_stmt.
  - apply money_update_users_cols. intros u _ _. split; simpl; lra.
  - apply money_update_loan_applications. intros x _ Hx. exact Hx.
Qed.

Lemma money_process_overdue_rows now rows processed d :
  money_inv d -> money_inv (snd (process_overdue_rows now rows processed d)).
Proof.
  revert processed d.
  induction rows as [|l rest IH]; intros processed d Hd; simpl; [exact Hd|].
  destruct (existsb _ processed); [apply IH; exact Hd|].
  destruct (Z.leb 14 _).
  - destruct (reset_user_data (borrower_id l) d) as [ok d1] eqn:R.
    assert (Hd1 : money_inv d1).
    { pose proof (money_reset_user_data (borrower_id l) d Hd) as H. rewrite R in H. exact H. }
    destruct (process_overdue_rows now rest (borrower_id l :: processed) d1) as [ns d2] eqn:E.
    simpl. specialize (IH (borrower_id l :: processed) d1 Hd1). rewrite E in IH. exact IH.
  - destruct (Z.leb 7 _); [|apply IH; exact Hd].
    destruct (process_overdue_rows now rest (borrower_id l :: processed) d) as [ns d2] eqn:E.
    simpl. specialize (IH (borrower_id l :: processed) d Hd). rewrite E in IH. exact IH.
Qed.

Lemma money_step d d' : money_inv d -> step d d' -> money_inv d'.
Proof.
  intros Hd Hs. destruct Hs.
  - apply money_transfer_money; exact Hd.
  - apply money_apply_for_loan; exact Hd.
  - apply money_fund_loan; exact Hd.
  - apply money_repay_loan; exact Hd.
  - apply money_currency_exchange; exact Hd.
  - apply money_create_bank_account; exact Hd.
  - apply money_bank_deposit; exact Hd.
  - apply money_bank_withdraw; exact Hd.
  - apply money_bank_transfer; exact Hd.
  - apply money_process_overdue_rows; exact Hd.
Qed.

(** ** Claim C3 *)

(** C3: from a database whose wallets are all non-negative in both
    currencies (and whose loan applications ask for positive amounts, which
    [apply_for_loan] guarantees for every application it stores), no
    sequence of handler calls (wallet transfer, loan application, funding
    and repayment, currency exchange, bank-account creation, deposit,
    withdrawal and transfer, overdue sweep) reaches a database in which some
    wallet holds a negative amount of either currency. *)
Theorem wallets_never_negative (d d' : db) :
  wallets_nonneg d -> apps_positive d -> steps d d' -> wallets_nonneg d'.
Proof.
  intros Hw Ha Hs.
  assert (Hinv : money_inv d) by (split; assumption). clear Hw Ha.
  induction Hs as [d|d1 d2 d3 H12 H23 IH].
  - exact (proj1 Hinv).
  - apply IH. exact (money_step d1 d2 Hinv H12).
Qed.

Lemma wallets_never_negative_witness :
  wallets_nonneg (snd (fund_loan uL 1 db_app)).
Proof.
  apply (wallets_never_negative db_app).
  - repeat constructor; vm_compute; discriminate.
  - repeat constructor.
  - apply (steps_cons _ _ _ (step_fund_loan uL 1 db_app)). apply steps_refl.
Defined.

(** ** Claim C9 *)

Lemma bank_get_user_account uid d ud d1 :
  bank_inv d -> get_user_account uid d = (ud, d1) -> bank_inv d1.
Proof.
  intros Hd G. apply get_user_account_only_users in G. rewrite G. exact Hd.
Qed.

Lemma bank_transfer_money r d : bank_inv d -> bank_inv (snd (transfer_money r d)).
Proof.
  intros Hd. destruct (pay_request_valid r) eqn:V.
  - rewrite (transfer_money_valid r d V). apply run_tx_preserves; [|exact Hd].
    unfold transfer_money_tx. chain_stmts bank_stmt.
  - destruct (transfer_money_invalid r d V) as (code & m & ->). exact Hd.
Qed.

Lemma bank_apply_for_loan caller amt cur days purpose now d :
  bank_inv d -> bank_inv (snd (apply_for_loan caller amt cur days purpose now d)).
Proof.
  intros Hd. unfold apply_for_loan.
  destruct (negb _); [exact Hd|]. destruct (_ || _)%bool; [exact Hd|].
  destruct (Z.ltb 365 days); [exact Hd|]. destruct (Nat.ltb _ 10); [exact Hd|].
  destruct (Nat.leb 3 _); [exact Hd|].
  apply run_tx_preserves; [|exact Hd]. chain_stmts bank_stmt.
Qed.

Lemma bank_fund_loan caller id d : bank_inv d -> bank_inv (snd (fund_loan caller id d)).
Proof.
  intros Hd. unfold fund_loan.
  destruct (find_pending_app (loan_applications d) id) as [ap|]; [|exact Hd].
  destruct (String.eqb _ caller); [exact Hd|].
  destruct (get_user_account caller d) as [ud d1] eqn:G.
  pose proof (bank_get_user_account _ _ _ _ Hd G) as Hd1.
  destruct (Qltb _ _); [exact Hd1|].
  apply run_tx_preserves; [|exact Hd1].
  unfold fund_loan_tx. cbv zeta. chain_stmts bank_stmt.
Qed.

Lemma bank_repay_loan caller lid amt d : bank_inv d -> bank_inv (snd (repay_loan caller lid amt d)).
Proof.
  intros Hd. unfold repay_loan.
  destruct (find_loan_of (loans d) lid caller) as [l|]; [|exact Hd].
  destruct (negb _); [exact Hd|]. destruct (Qltb _ amt); [exact Hd|].
  destruct (Qle_bool amt 0); [exact Hd|].
  destruct (get_user_account caller d) as [ud d1] eqn:G.
  pose proof (bank_get_user_account _ _ _ _ Hd G) as Hd1.
  destruct (Qltb _ _); [exact Hd1|].
  apply run_tx_preserves; [|exact Hd1].
  unfold repay_loan_tx. cbv zeta. chain_stmts bank_stmt.
Qed.

Lemma bank_currency_exchange caller amount f t d :
  bank_inv d -> bank_inv (snd (currency_exchange caller amount f t d)).
Proof.
  intros Hd. unfold currency_exchange.
  destruct (negb _); [exact Hd|]. destruct (String.eqb (lower f) (lower t)); [exact Hd|].
  destruct (Qle_bool amount 0); [exact Hd|].
  destruct (get_user_account caller d) as [ud d1] eqn:G.
  pose proof (bank_get_user_account _ _ _ _ Hd G) as Hd1.
  cbv zeta. destruct (String.eqb (lower f) "gold").
  - destruct (Qltb (gold ud) amount); [exact Hd1|].
    apply run_tx_preserves; [|exact Hd1]. chain_stmts bank_stmt.
  - destruct (Qltb (silver ud) amount); [exact Hd1|].
    apply run_tx_preserves; [|exact Hd1]. chain_stmts bank_stmt.
Qed.

Lemma ratio_check_none t ratio :
  ratio_check t ratio = None -> (ratio <> None <-> t = "mudarabah"%string).
Proof.
  unfold ratio_check. destruct (String.eqb t "mudarabah") eqn:E.
  - apply String.eqb_eq in E. destruct ratio as [r|]; [|discriminate].
    intros _. split; [intros _; exact E|discriminate].
  - apply String.eqb_neq in E. destruct ratio as [r|]; [discriminate|].
    intros _. split; [intros H; contradiction|intros H; contradiction].
Qed.

Lemma bank_create_bank_account owner inst t cur ratio cb gen d :
  bank_inv d -> bank_inv (snd (create_bank_account owner inst t cur ratio cb gen d)).
Proof.
  intros Hd. unfold create_bank_account.
  destruct (negb _); [exact Hd|]. destruct (negb _); [exact Hd|].
  destruct (ratio_check t ratio) eqn:Hr; [exact Hd|].
  destruct (Nat.leb 5 _); [exact Hd|].
  destruct (find_institution d inst); [|exact Hd].
  destruct gen as [number|]; [|exact Hd].
  apply run_tx_preserves; [|exact Hd].
  unfold create_bank_account_tx. chain_stmts bank_stmt.
  apply bank_insert_bank_account. intros id. unfold ratio_iff_mudarabah; simpl.
  apply ratio_check_none. exact Hr.
Qed.

Lemma bank_bank_deposit id uid amt d : bank_inv d -> bank_inv (snd (bank_deposit id uid amt d)).
Proof.
  intros Hd. unfold bank_deposit.
  destruct (Qle_bool amt 0); [exact Hd|].
  destruct (find_active_account d id) as [acc|]; [|exact Hd].
  destruct (_ && _)%bool; [exact Hd|].
  destruct (get_user_account uid d) as [ud d1] eqn:G.
  pose proof (bank_get_user_account _ _ _ _ Hd G) as Hd1.
  cbv zeta. destruct (Qltb _ amt); [exact Hd1|].
  apply run_tx_preserves; [|exact Hd1]. chain_stmts bank_stmt.
Qed.

Lemma bank_bank_withdraw id uid amt d : bank_inv d -> bank_inv (snd (bank_withdraw id uid amt d)).
Proof.
  intros Hd. unfold bank_withdraw.
  destruct (Qle_bool amt 0); [exact Hd|].
  destruct (find_active_account d id) as [acc|]; [|exact Hd].
  destruct (_ && _)%bool; [exact Hd|]. destruct (Qltb _ amt); [exact Hd|].
  destruct (get_user_account uid d) as [ud d1] eqn:G.
  pose proof (bank_get_user_account _ _ _ _ Hd G) as Hd1.
  cbv zeta. apply run_tx_preserves; [|exact Hd1]. chain_stmts bank_stmt.
Qed.

Lemma bank_bank_transfer from_id to_id uid amt d :
  bank_inv d -> bank_inv (snd (bank_transfer from_id to_id uid amt d)).
Proof.
  intros Hd. unfold bank_transfer.
  destruct (Qle_bool amt 0); [exact Hd|]. destruct (Nat.eqb from_id to_id); [exact Hd|].
  cbv zeta. destruct (negb _); [exact Hd|].
  destruct (find _ _) as [fa|]; [|exact Hd]. destruct (find _ _) as [ta|]; [|exact Hd].
  destruct (negb _); [exact Hd|]. destruct (_ && _)%bool; [exact Hd|].
  destruct (Qltb _ amt); [exact Hd|].
  apply run_tx_preserves; [|exact Hd]. chain_stmts bank_stmt.
Qed.

Lemma bank_process_overdue_rows now rows processed d :
  bank_inv d -> bank_inv (snd (process_overdue_rows now rows processed d)).
Proof.
  revert processed d.
  induction rows as [|l rest IH]; intros processed d Hd; simpl; [exact Hd|].
  destruct (existsb _ processed); [apply IH; exact Hd|].
  destruct (Z.leb 14 _).
  - destruct (reset_user_data (borrower_id l) d) as [ok d1] eqn:R.
    assert (Hd1 : bank_inv d1).
    { assert (H : bank_inv (snd (reset_user_data (borrower_id l) d))).
      { unfold reset_user_data. apply run_tx_preserves; [|exact Hd].
        unfold reset_user_data_tx. chain_stmts bank_stmt. }
      rewrite R in H. exact H. }
    destruct (process_overdue_rows now rest (borrower_id l :: processed) d1) as [ns d2] eqn:E.
    simpl. specialize (IH (borrower_id l :: processed) d1 Hd1). rewrite E in IH. exact IH.
  - destruct (Z.leb 7 _); [|apply IH; exact Hd].
    destruct (process_overdue_rows now rest (borrower_id l :: processed) d) as [ns d2] eqn:E.
    simpl. specialize (IH (borrower_id l :: processed) d Hd). rewrite E in IH. exact IH.
Qed.

Lemma bank_step d d' : bank_inv d -> step d d' -> bank_inv d'.
Proof.
  intros Hd Hs. destruct Hs.
  - apply bank_transfer_money; exact Hd.
  - apply bank_apply_for_loan; exact Hd.
  - apply bank_fund_loan; exact Hd.
  - apply bank_repay_loan; exact Hd.
  - apply bank_currency_exchange; exact Hd.
  - apply bank_create_bank_account; exact Hd.
  - apply bank_bank_deposit; exact Hd.
  - apply bank_bank_withdraw; exact Hd.
  - apply bank_bank_transfer; exact Hd.
  - apply bank_process_overdue_rows; exact Hd.
Qed.

Lemma Qltb_of_lt x y : x < y -> Qltb x y = true.
Proof.
  intros H. unfold Qltb. apply negb_true_iff. apply not_true_iff_false.
  rewrite Qle_bool_iff. apply Qlt_not_le. exact H.
Qed.

(** C9: every bank account carries a profit-share ratio exactly when it is
    a ['mudarabah'] account, in every database reached by handler calls from
    one where this holds (e.g. the empty [bank_accounts] table of
    [init_database]); and [create_bank_account] refuses a ['mudarabah']
    request without a ratio or with one outside [0, 1], and a ['wadiah']
    request with a ratio: it answers with an error and creates nothing, the
    error being the ratio error once the currency is valid. *)
Theorem bank_ratio_iff_mudarabah :
  (forall d d', bank_inv d -> steps d d' -> bank_inv d') /\
  (forall owner inst t cur ratio created_by generated d,
     bad_ratio_request t ratio ->
     snd (create_bank_account owner inst t cur ratio created_by generated d) = d /\
     (exists e, fst (create_bank_account owner inst t cur ratio created_by generated d) = BankErr e) /\
     (valid_currency cur = true ->
      fst (create_bank_account owner inst t cur ratio created_by generated d) =
        BankErr (if String.eqb t "mudarabah"
                 then "Mudarabah accounts require profit_share_ratio between 0 and 1."%string
                 else "Wadiah accounts cannot have profit sharing."%string))).
Proof.
  split.
  - intros d d' Hd Hs. induction Hs as [d|d1 d2 d3 H12 H23 IH]; [exact Hd|].
    apply IH. exact (bank_step d1 d2 Hd H12).
  - intros owner inst t cur ratio cb gen d Hbad.
    assert (Hrc : valid_account_type t = true /\
                  ratio_check t ratio =
                    Some (if String.eqb t "mudarabah"
                          then "Mudarabah accounts require profit_share_ratio between 0 and 1."%string
                          else "Wadiah accounts cannot have profit sharing."%string)).
    { destruct Hbad as [[-> [-> | (r & -> & Hr)]] | [-> Hr]]; split; try reflexivity.
      - unfold ratio_check. simpl.
        destruct Hr as [Hr|Hr]; rewrite (Qltb_of_lt _ _ Hr); [reflexivity|].
        rewrite orb_true_r. reflexivity.
      - destruct ratio; [reflexivity|contradiction]. }
    destruct Hrc as [Ht Hrc]. unfold create_bank_account. rewrite Ht.
    destruct (valid_currency cur); simpl.
    + rewrite Hrc. split; [reflexivity|]. split; [eexists; reflexivity|]. intros _; reflexivity.
    + split; [reflexivity|]. split; [eexists; reflexivity|]. discriminate.
Qed.

Lemma bank_ratio_iff_mudarabah_witness :
  bank_inv (snd (bank_deposit 1 uA 10 db_bank_acc)) /\
  create_bank_account uA 1 "wadiah" "gold_dinars" (Some (1 # 2)) None
    (Some "IBK-AAAAAAAA"%string) db_bank =
    (BankErr "Wadiah accounts cannot have profit sharing.", db_bank).
Proof.
  destruct bank_ratio_iff_mudarabah as [H1 H2]. split.
  - apply (H1 db_bank_acc).
    + constructor; [|constructor]. split; [intros _; reflexivity|discriminate].
    + apply (steps_cons _ _ _ (step_bank_deposit 1 uA 10 db_bank_acc)). apply steps_refl.
  - destruct (H2 uA 1%nat "wadiah"%string "gold_dinars"%string (Some (1 # 2)) None
                (Some "IBK-AAAAAAAA"%string) db_bank) as [Hs [_ Hf]].
    + right. split; [reflexivity|discriminate].
    + apply injective_projections; [exact (Hf eq_refl)|exact Hs].
Defined.

(** * Further properties of the handlers *)

(** ** Lemmas for the money-movement properties *)

Lemma map_if_absent {A} (w : A -> bool) g l :
  (forall x, In x l -> w x = false) -> map_if w g l = l.
Proof.
  unfold map_if. induction l as [|x r IH]; simpl; intros H; [reflexivity|].
  rewrite (H x (or_introl eq_refl)), IH by (intros; apply H; auto). reflexivity.
Qed.

Lemma sum_balances_map_if_id x a (g : user_row -> user_row) us u :
  NoDup (map user_id us) -> find_user us a = Some u ->
  sum_balances x (map_if (fun v => String.eqb (user_id v) a) g us)
    == sum_balances x us - balance_of u x + balance_of (g u) x.
Proof.
  induction us as [|v r IH]; simpl; [discriminate|].
  intros Hnd Hf. inversion Hnd as [|? ? Hnotin Hnd']; subst.
  unfold sum_balances, map_if in *; simpl.
  destruct (String.eqb (user_id v) a) eqn:E.
  - injection Hf as <-. apply String.eqb_eq in E.
    fold (map_if (fun v0 => String.eqb (user_id v0) a) g r).
    rewrite map_if_absent.
    + lra.
    + intros w Hw. apply String.eqb_neq. intros Hwa. apply Hnotin.
      rewrite E, <- Hwa. apply in_map; auto.
  - specialize (IH Hnd' Hf). fold (map_if (fun v0 => String.eqb (user_id v0) a) g r) in *.
    rewrite IH. lra.
Qed.

Lemma balance_of_set_balance u c v x :
  balance_of (set_balance u c v) x = if currency_eqb x c then v else balance_of u x.
Proof. destruct u, c, x; reflexivity. Qed.

Lemma map_if_ids (w : user_row -> bool) g us :
  (forall v, user_id (g v) = user_id v) -> map user_id (map_if w g us) = map user_id us.
Proof.
  intros Hg. unfold map_if. rewrite map_map. apply map_ext. intros v.
  destruct (w v); auto.
Qed.

Lemma find_user_map_if (w : user_row -> bool) g us a :
  (forall v, user_id (g v) = user_id v) ->
  find_user (map_if w g us) a = option_map (fun v => if w v then g v else v) (find_user us a).
Proof.
  intros Hg. unfold map_if. apply find_user_map. intros v. destruct (w v); auto.
Qed.

Lemma user_exists_find d a : user_exists d a = true -> exists u, find_user (users d) a = Some u.
Proof.
  unfold user_exists. intros H. apply existsb_exists in H as [u [Hin Hu]].
  apply String.eqb_eq in Hu. exact (find_user_complete _ _ _ Hin Hu).
Qed.

Lemma user_exists_map_if d (w : user_row -> bool) g a :
  (forall v, user_id (g v) = user_id v) ->
  user_exists (set_users d (map_if w g (users d))) a = user_exists d a.
Proof.
  intros Hg. unfold user_exists, set_users, map_if; simpl.
  induction (users d) as [|v r IH]; simpl; auto.
  rewrite IH. destruct (w v); simpl; auto. rewrite Hg. reflexivity.
Qed.

Lemma get_user_account_existing uid d u :
  validate_user_id (Some uid) = true -> find_user (users d) uid = Some u ->
  get_user_account uid d = (u, d).
Proof. intros Hv Hf. unfold get_user_account. rewrite Hv, Hf. reflexivity. Qed.

Lemma find_user_app_none us v x :
  find_user us x = None -> find_user (us ++ [v]) x = if String.eqb (user_id v) x then Some v else None.
Proof.
  induction us as [|w r IH]; simpl; [reflexivity|].
  destruct (String.eqb (user_id w) x); [discriminate|exact IH].
Qed.

Lemma find_user_none_notin us x : find_user us x = None -> ~ In x (map user_id us).
Proof.
  intros Hn Hin. apply in_map_iff in Hin as [u [Hu Hin]].
  destruct (find_user_complete us x u Hin Hu) as [u' E]. congruence.
Qed.

Lemma user_exists_of_find d a u : find_user (users d) a = Some u -> user_exists d a = true.
Proof.
  intros H. destruct (find_user_In _ _ _ H) as [Hin Hid]. unfold user_exists.
  apply existsb_exists. exists u. split; auto. apply String.eqb_eq; auto.
Qed.

Lemma find_user_app us vs x :
  find_user (us ++ vs) x = match find_user us x with Some u => Some u | None => find_user vs x end.
Proof.
  induction us as [|w r IH]; simpl; [reflexivity|].
  destruct (String.eqb (user_id w) x); [reflexivity|exact IH].
Qed.

Lemma user_exists_none d a : find_user (users d) a = None -> user_exists d a = false.
Proof.
  intros Hn. destruct (user_exists d a) eqn:E; [|reflexivity].
  destruct (user_exists_find _ _ E) as [u Hu]. congruence.
Qed.

Lemma currency_eqb_true x y : currency_eqb x y = true -> x = y.
Proof. destruct x, y; simpl; congruence. Qed.

(** What [get_user_account] does for a valid id: the returned row is the
    id's row of the new table, which is the old one with the row
    [mk_user uid 100 500] appended when the id had none. *)
Lemma get_user_account_cases uid d ud d1 :
  validate_user_id (Some uid) = true -> NoDup (map user_id (users d)) ->
  get_user_account uid d = (ud, d1) ->
  NoDup (map user_id (users d1)) /\ find_user (users d1) uid = Some ud /\ user_id ud = uid /\
  (forall a, a <> uid -> find_user (users d1) a = find_user (users d) a) /\
  d1 = set_users d (users d1) /\
  users d1 = users d ++ (if user_exists d uid then [] else [mk_user uid 100 500]) /\
  (user_exists d uid = false -> ud = mk_user uid 100 500).
Proof.
  intros Hv Hnd H. pose proof (get_user_account_only_users _ _ _ _ H) as Hd1.
  unfold get_user_account in H. rewrite Hv in H. cbn [negb] in H.
  destruct (find_user (users d) uid) as [v|] eqn:Hf.
  - injection H as <- <-. destruct (find_user_In _ _ _ Hf) as [_ Hid].
    rewrite (user_exists_of_find _ _ _ Hf), app_nil_r.
    repeat split; auto; discriminate.
  - injection H as <- <-. rewrite (user_exists_none _ _ Hf). cbn [users set_users].
    split.
    { rewrite map_app. apply NoDup_app; [exact Hnd|repeat constructor; simpl; tauto|].
      intros x Hx Hx'. destruct Hx' as [<-|[]]. exact (find_user_none_notin _ _ Hf Hx). }
    rewrite (find_user_app_none _ _ _ Hf). cbn [user_id]. rewrite String.eqb_refl.
    split; [reflexivity|]. split; [reflexivity|]. split.
    { intros a Ha. rewrite find_user_app. destruct (find_user (users d) a); [reflexivity|].
      simpl. apply String.eqb_neq in Ha. rewrite String.eqb_sym, Ha. reflexivity. }
    split; [exact Hd1|]. split; reflexivity.
Qed.

Lemma sum_balances_app x l1 l2 :
  sum_balances x (l1 ++ l2) == sum_balances x l1 + sum_balances x l2.
Proof.
  unfold sum_balances. induction l1 as [|v r IH]; simpl; [lra|]. rewrite IH. lra.
Qed.

(** [get_user_account] adds the new account's 100 gold and 500 silver to the
    totals when the id had no row, and nothing otherwise. *)
Lemma get_user_account_total uid d ud d1 x :
  validate_user_id (Some uid) = true -> NoDup (map user_id (users d)) ->
  get_user_account uid d = (ud, d1) ->
  total d1 x == total d x + (if user_exists d uid then 0 else balance_of (mk_user uid 100 500) x).
Proof.
  intros Hv Hnd H.
  destruct (get_user_account_cases _ _ _ _ Hv Hnd H) as (_ & _ & _ & _ & _ & Hus & _).
  unfold total. rewrite Hus, sum_balances_app.
  destruct (user_exists d uid); unfold sum_balances; simpl; lra.
Qed.

(** The balances after a debit of [dv] from column [lc] of the row [ud] of
    [caller] (set from the value read before) followed by a credit of [cv]
    to column [c] of the rows of [cr]. *)
Lemma balance_debit_credit d d1 d' caller ud cr lc c dv cv :
  (forall a, a <> caller -> find_user (users d1) a = find_user (users d) a) ->
  find_user (users d1) caller = Some ud -> user_id ud = caller ->
  users d' = map_if (fun v => String.eqb (user_id v) cr)
               (fun v => set_balance v c (balance_of v c + cv))
               (map_if (fun v => String.eqb (user_id v) caller)
                  (fun v => set_balance v lc (balance_of ud lc - dv)) (users d1)) ->
  forall a x, balance d' a x =
    option_map (fun b => if (String.eqb a cr && currency_eqb x c)%bool then b + cv else b)
      (if String.eqb a caller
       then Some (if currency_eqb x lc then balance_of ud x - dv else balance_of ud x)
       else balance d a x).
Proof.
  intros Hother Hself Hid Hus a x. unfold balance. rewrite Hus.
  rewrite !find_user_map_if by (intros; apply user_id_set_balance).
  destruct (String.eqb a caller) eqn:Ea.
  - apply String.eqb_eq in Ea. subst a. rewrite Hself. cbn [option_map].
    rewrite Hid, String.eqb_refl, user_id_set_balance, Hid.
    destruct (String.eqb caller cr); destruct x, c, lc; reflexivity.
  - apply String.eqb_neq in Ea. rewrite (Hother a Ea).
    destruct (find_user (users d) a) as [v|] eqn:Fa; [|reflexivity].
    destruct (find_user_In _ _ _ Fa) as [_ Hv]. cbn [option_map].
    apply String.eqb_neq in Ea. rewrite Hv, Ea. cbv iota. rewrite Hv.
    destruct (String.eqb a cr); destruct x, c; reflexivity.
Qed.

(** One [UPDATE users SET c = f WHERE user_id = a] on a table where [a] has
    the row [u]. *)
Lemma sum_balances_set_one x a c (f : user_row -> Q) us u :
  NoDup (map user_id us) -> find_user us a = Some u ->
  sum_balances x (map_if (fun v => String.eqb (user_id v) a) (fun v => set_balance v c (f v)) us)
    == sum_balances x us + (if currency_eqb x c then f u - balance_of u c else 0).
Proof.
  intros Hnd Hf. rewrite (sum_balances_map_if_id x a _ us u Hnd Hf).
  rewrite balance_of_set_balance. destruct x, c; simpl; lra.
Qed.

Lemma existsb_user_ids (g : user_row -> user_row) us a :
  (forall v, user_id (g v) = user_id v) ->
  existsb (fun u => String.eqb (user_id u) a) (map g us)
  = existsb (fun u => String.eqb (user_id u) a) us.
Proof.
  intros Hg. induction us as [|v r IH]; simpl; auto. rewrite Hg, IH. reflexivity.
Qed.




(** The totals after the same debit and credit, when [cr] has a row. *)
Lemma total_debit_credit d1 d' caller ud cr lc c dv cv x :
  NoDup (map user_id (users d1)) -> find_user (users d1) caller = Some ud ->
  user_exists d1 cr = true ->
  users d' = map_if (fun v => String.eqb (user_id v) cr)
               (fun v => set_balance v c (balance_of v c + cv))
               (map_if (fun v => String.eqb (user_id v) caller)
                  (fun v => set_balance v lc (balance_of ud lc - dv)) (users d1)) ->
  total d' x == total d1 x - (if currency_eqb x lc then dv else 0)
                           + (if currency_eqb x c then cv else 0).
Proof.
  intros Hnd Hu Hb Hus.
  destruct (user_exists_find _ _ Hb) as [v Hv'].
  set (g := fun w : user_row => set_balance w lc (balance_of ud lc - dv)).
  change (fun v : user_row => set_balance v lc (balance_of ud lc - dv)) with g in Hus.
  assert (Hnd1 : NoDup (map user_id (map_if (fun w => String.eqb (user_id w) caller) g (users d1))))
    by (rewrite map_if_ids; auto; intros; apply user_id_set_balance).
  assert (Hv1 : find_user (map_if (fun w => String.eqb (user_id w) caller) g (users d1)) cr
                = Some (if String.eqb (user_id v) caller then g v else v))
    by (rewrite find_user_map_if, Hv'; auto; intros; apply user_id_set_balance).
  unfold total. rewrite Hus.
  rewrite (sum_balances_set_one x _ c (fun w => balance_of w c + cv) _ _ Hnd1 Hv1).
  unfold g.
  rewrite (sum_balances_set_one x _ lc (fun _ => balance_of ud lc - dv) _ _ Hnd Hu).
  destruct (currency_eqb x c), (currency_eqb x lc); lra.
Qed.

(** ** Inverting the statements of a committed transaction body *)

Lemma sbind_ok {A B} (m : sql A) (k : A -> sql B) d r d1 :
  sbind m k d = SOk r d1 -> exists a d0, m d = SOk a d0 /\ k a d0 = SOk r d1.
Proof. unfold sbind. destruct (m d) as [a d0|e]; [eauto|discriminate]. Qed.

Ltac peel H :=
  match type of H with
  | sbind ?m ?k ?d = SOk _ _ =>
      let a := fresh "a" in let d0 := fresh "d" in let H1 := fresh "Hs" in
      let H2 := fresh "Hk" in
      destruct (sbind_ok m k d _ _ H) as (a & d0 & H1 & H2); clear H; cbv beta in H2; peel H2
  | _ => idtac
  end.

Lemma sret_inv {A} (v r : A) d d1 : sret v d = SOk r d1 -> r = v /\ d1 = d.
Proof. unfold sret. intros H. injection H as <- <-. auto. Qed.

Lemma update_users_inv c f w d n d1 :
  update_users c f w d = SOk n d1 ->
  d1 = set_users d (map_if w (fun u => set_balance u c (f (balance_of u c))) (users d)).
Proof. unfold update_users. intros H. injection H as _ <-. reflexivity. Qed.

Lemma update_users_row_inv g w d n d1 :
  update_users_row g w d = SOk n d1 -> d1 = set_users d (map_if w g (users d)).
Proof. unfold update_users_row. intros H. injection H as _ <-. reflexivity. Qed.

Lemma insert_transaction_inv fk t d a d1 :
  insert_transaction fk t d = SOk a d1 ->
  d1 = set_transactions d (transactions d ++ [t]) /\
  (fk = true -> user_exists d (tx_user_id t) = true).
Proof.
  unfold insert_transaction. destruct fk, (user_exists d (tx_user_id t)); cbn;
    intros H; try discriminate; injection H as _ <-; auto.
Qed.

Lemma insert_bank_ledger_inv fk e d a d1 :
  insert_bank_ledger fk e d = SOk a d1 -> d1 = set_bank_ledger d (bank_ledger d ++ [e]).
Proof.
  unfold insert_bank_ledger. destruct (negb _); [discriminate|].
  destruct (_ && _)%bool; [discriminate|]. intros H. injection H as _ <-. reflexivity.
Qed.


Lemma update_bank_balance_inv id v d a d1 :
  update_bank_balance id v d = SOk a d1 ->
  d1 = set_bank_accounts d (map_if (fun b => Nat.eqb (ba_id b) id) (set_ba_balance v) (bank_accounts d)).
Proof.
  unfold update_bank_balance. destruct (Qltb v 0); [discriminate|].
  intros H. injection H as _ <-. reflexivity.
Qed.

Lemma bank_sum_map_if x id (g : bank_account_row -> bank_account_row) accs acc :
  NoDup (map ba_id accs) -> In acc accs -> ba_id acc = id ->
  (forall b, ba_currency (g b) = ba_currency b) ->
  fold_right Qplus 0 (map ba_balance (filter (fun b => currency_eqb (branch_currency (ba_currency b)) x)
                        (map_if (fun b => Nat.eqb (ba_id b) id) g accs)))
  == fold_right Qplus 0 (map ba_balance (filter (fun b => currency_eqb (branch_currency (ba_currency b)) x) accs))
     + (if currency_eqb (branch_currency (ba_currency acc)) x then ba_balance (g acc) - ba_balance acc else 0).
Proof.
  intros Hnd Hin Hid Hg. unfold map_if.
  induction accs as [|b r IH]; [contradiction|].
  inversion Hnd as [|? ? Hnotin Hnd']; subst.
  cbn [map filter].
  destruct (Nat.eqb (ba_id b) (ba_id acc)) eqn:E.
  - apply Nat.eqb_eq in E.
    assert (b = acc) as ->.
    { destruct Hin as [->|Hin]; auto. exfalso. apply Hnotin. rewrite E. apply in_map. exact Hin. }
    rewrite Hg.
    assert (Hr : map_if (fun x0 => Nat.eqb (ba_id x0) (ba_id acc)) g r = r).
    { apply map_if_absent. intros c Hc. apply Nat.eqb_neq. intros E2. apply Hnotin.
      rewrite <- E2. apply in_map. exact Hc. }
    unfold map_if in Hr.
    rewrite Hr.
    destruct (currency_eqb (branch_currency (ba_currency acc)) x); cbn [map fold_right]; lra.
  - destruct Hin as [->|Hin]; [rewrite Nat.eqb_refl in E; discriminate|].
    specialize (IH Hnd' Hin).
    destruct (currency_eqb (branch_currency (ba_currency b)) x); cbn [map fold_right]; rewrite IH; lra.
Qed.

Lemma find_active_account_some d id acc :
  find_active_account d id = Some acc -> In acc (bank_accounts d) /\ ba_id acc = id.
Proof.
  unfold find_active_account. intros H. apply find_some in H as [Hin H].
  apply andb_true_iff in H as [H _]. apply andb_true_iff in H as [H _].
  apply Nat.eqb_eq in H. auto.
Qed.

Ltac inv_stmts :=
  repeat match goal with
  | H : sret _ _ = SOk _ _ |- _ => apply sret_inv in H as [? ?]; subst
  | H : update_users _ _ _ _ = SOk _ _ |- _ => apply update_users_inv in H; subst
  | H : update_users_row _ _ _ = SOk _ _ |- _ => apply update_users_row_inv in H; subst
  | H : update_bank_balance _ _ _ = SOk _ _ |- _ => apply update_bank_balance_inv in H; subst
  | H : insert_bank_ledger _ _ _ = SOk _ _ |- _ => apply insert_bank_ledger_inv in H; subst
  | H : insert_transaction _ _ _ = SOk _ _ |- _ =>
      let E := fresh "Hfk" in apply insert_transaction_inv in H as [H E]; subst
  end.

Lemma currency_eqb_sym x y : currency_eqb x y = currency_eqb y x.
Proof. destruct x, y; reflexivity. Qed.

Lemma user_id_set_ba_balance v b : ba_currency (set_ba_balance v b) = ba_currency b.
Proof. reflexivity. Qed.

(** ** Properties of [sanitize_username] *)

Lemma remove_dangerous_clean s c : In c (remove_dangerous s) -> dangerous c = false.
Proof.
  unfold remove_dangerous. intros H. apply filter_In in H as [_ H].
  apply negb_true_iff. exact H.
Qed.

Lemma remove_dangerous_id s :
  (forall c, In c s -> dangerous c = false) -> remove_dangerous s = s.
Proof.
  unfold remove_dangerous. induction s as [|x r IH]; simpl; intros H; [reflexivity|].
  rewrite (H x (or_introl eq_refl)), IH; auto.
Qed.

Lemma unknown_user_clean c :
  In c (pystr_of_string "Unknown User") -> dangerous c = false.
Proof. simpl. intros H; repeat destruct H as [<-|H]; try reflexivity; contradiction. Qed.

Lemma sanitize_username_props o :
  (length (sanitize_username o) <= 50)%nat /\
  forall c, In c (sanitize_username o) -> dangerous c = false.
Proof.
  destruct o as [[|x r]|]; cbn [sanitize_username].
  - split; [simpl; lia|exact unknown_user_clean].
  - split; [rewrite length_firstn; lia|].
    intros c H. apply (remove_dangerous_clean (x :: r) c).
    rewrite <- (firstn_skipn 50 (remove_dangerous (x :: r))). apply in_or_app. left. exact H.
  - split; [simpl; lia|exact unknown_user_clean].
Qed.

(** [sanitize_username] always returns at most 50 code points, none of them
    one of the removed characters [<], [>], the double quote, the single
    quote, [;], [&] or the backslash, whatever the argument (including
    [None], a non-string or the empty string). *)
Theorem sanitize_username_safe (o : option pystr) :
  (length (sanitize_username o) <= 50)%nat /\
  forall c, In c (sanitize_username o) -> dangerous c = false.
Proof. exact (sanitize_username_props o). Qed.

(** Sanitising a sanitised name changes nothing, except when the first pass
    removed every character: the empty result is falsy, so the second pass
    answers ["Unknown User"]. *)
Theorem sanitize_username_twice (o : option pystr) :
  sanitize_username (Some (sanitize_username o)) =
  match sanitize_username o with
  | [] => pystr_of_string "Unknown User"
  | _ => sanitize_username o
  end.
Proof.
  destruct (sanitize_username_props o) as [Hl Hc].
  destruct (sanitize_username o) as [|x r] eqn:E; [reflexivity|].
  rewrite <- E. cbn [sanitize_username]. rewrite E.
  rewrite (remove_dangerous_id _ Hc). apply firstn_all2. exact Hl.
Qed.

(** ** Zakat and taxes: [calculate_zakat], [calculate_taxes] *)

Lemma Qle_bool_true_le x y : Qle_bool x y = true -> x <= y.
Proof. apply Qle_bool_iff. Qed.

(** A user owes zakat ([eligible]) exactly when the computed total is
    positive: at or above either nisab the 2.5% share is positive, below
    both nothing is due. *)
Theorem calculate_zakat_eligible_iff (gold_dinars silver_dirhams : Q) :
  eligible (calculate_zakat gold_dinars silver_dirhams) = true <->
  0 < total_zakat (calculate_zakat gold_dinars silver_dirhams).
Proof.
  unfold calculate_zakat; cbn [eligible total_zakat].
  destruct (Qle_bool 85 gold_dinars) eqn:G; destruct (Qle_bool 595 silver_dirhams) eqn:S;
    cbn [orb]; split; intros H; try reflexivity.
  - apply Qle_bool_true_le in G. apply Qle_bool_true_le in S. lra.
  - apply Qle_bool_true_le in G. lra.
  - apply Qle_bool_true_le in S. lra.
  - discriminate.
  - lra.
Qed.

(** For incomes [i <= j] in the same currency, the tax is non-negative,
    does not decrease, and never takes away more than the extra income:
    the income left after tax does not decrease either. *)
Theorem calculate_taxes_monotone (i j : Q) (cur : string) :
  i <= j ->
  0 <= calculate_taxes i cur /\ calculate_taxes i cur <= calculate_taxes j cur /\
  i - calculate_taxes i cur <= j - calculate_taxes j cur.
Proof.
  intros Hij. unfold calculate_taxes.
  set (t := if String.eqb cur "gold_dinars" then 100 else 150).
  destruct (Qltb t i) eqn:Ei; destruct (Qltb t j) eqn:Ej.
  - apply Qltb_true in Ei. lra.
  - apply Qltb_true in Ei. apply Qltb_false in Ej. lra.
  - apply Qltb_false in Ei. apply Qltb_true in Ej. lra.
  - lra.
Qed.

Lemma calculate_taxes_monotone_witness :
  (50 <= 300) /\ 0 <= calculate_taxes 50 "gold_dinars" /\
  calculate_taxes 50 "gold_dinars" <= calculate_taxes 300 "gold_dinars" /\
  50 - calculate_taxes 50 "gold_dinars" <= 300 - calculate_taxes 300 "gold_dinars".
Proof.
  split; [vm_compute; discriminate|]. apply (calculate_taxes_monotone 50 300). vm_compute; discriminate.
Defined.

(** ** Money moved by [fund_loan] and [repay_loan] *)

Lemma fund_loan_tx_users caller id ap ud d0 r d1 c :
  currency_column (app_currency ap) = Some c ->
  fund_loan_tx caller id ap ud d0 = SOk r d1 ->
  user_exists d0 (app_borrower_id ap) = true /\
  users d1 = map_if (fun v => String.eqb (user_id v) (app_borrower_id ap))
               (fun v => set_balance v c (balance_of v c + app_loan_amount ap))
               (map_if (fun v => String.eqb (user_id v) caller)
                  (fun v => set_balance v (branch_currency (app_currency ap))
                             (balance_of ud (branch_currency (app_currency ap)) - app_loan_amount ap))
                  (users d0)).
Proof.
  intros Hc. unfold fund_loan_tx, update_users_col. rewrite Hc.
  unfold sbind, update_users, insert_loan, update_loan_applications, insert_transaction, sret.
  cbv beta iota zeta.
  repeat match goal with |- context [if ?b then _ else _] => destruct b eqn:? end;
    try discriminate.
  intros H. injection H as <- <-. split; [|reflexivity].
  apply andb_true_iff in Heqb as [_ Hb]. unfold user_exists in *. cbn [borrower_id] in Hb.
  unfold set_users in Hb; cbn [users] in Hb.
  rewrite !existsb_user_ids in Hb by (intros v; destruct (String.eqb _ _); auto using user_id_set_balance). exact Hb.
Qed.

(** A funded loan application moves its amount out of the lender's wallet
    column chosen by [branch_currency] (gold only for the exact spelling
    [gold_dinars]) and into the borrower's column named by the stored
    currency, matched case-insensitively.  The lender is the caller, whose
    row is the one [get_user_account] returns (created with 100 gold and
    500 silver for a first-time caller); the borrower is someone else with a
    row; every other row is unchanged.  The totals change by the same
    amounts, plus the new account of a first-time lender. *)
Theorem fund_loan_moves_money (caller : string) (id : nat) (d d' : db) (ap : app_row) (c : currency) :
  NoDup (map user_id (users d)) -> validate_user_id (Some caller) = true ->
  find_pending_app (loan_applications d) id = Some ap ->
  currency_column (app_currency ap) = Some c ->
  fund_loan caller id d = (Say "Loan Successfully Funded!", d') ->
  app_borrower_id ap <> caller /\ user_exists d (app_borrower_id ap) = true /\
  (forall a x, balance d' a x =
     option_map (fun b => if (String.eqb a (app_borrower_id ap) && currency_eqb x c)%bool
                          then b + app_loan_amount ap else b)
       (if String.eqb a caller
        then Some (if currency_eqb x (branch_currency (app_currency ap))
                   then balance_of (fst (get_user_account caller d)) x - app_loan_amount ap
                   else balance_of (fst (get_user_account caller d)) x)
        else balance d a x)) /\
  (forall x, total d' x == total d x
     + (if user_exists d caller then 0 else balance_of (mk_user caller 100 500) x)
     - (if currency_eqb x (branch_currency (app_currency ap)) then app_loan_amount ap else 0)
     + (if currency_eqb x c then app_loan_amount ap else 0)).
Proof.
  intros Hnd Hv Hf Hc H.
  unfold fund_loan in H. rewrite Hf in H.
  destruct (String.eqb (app_borrower_id ap) caller) eqn:Hbc; [discriminate H|].
  destruct (get_user_account caller d) as [ud d1] eqn:G. cbn [fst].
  destruct (get_user_account_cases _ _ _ _ Hv Hnd G) as (Hnd1 & Hself & Hid & Hother & _).
  destruct (Qltb _ _); [discriminate H|].
  unfold run_tx in H.
  destruct (fund_loan_tx caller id ap ud d1) as [r d2|e] eqn:Ht; [|discriminate H].
  destruct (fund_loan_tx_ok _ _ _ _ _ _ _ Ht) as [-> _].
  injection H as <-.
  destruct (fund_loan_tx_users _ _ _ _ _ _ _ _ Hc Ht) as [Hb Hus].
  apply String.eqb_neq in Hbc.
  split; [exact Hbc|]. split.
  { destruct (user_exists_find _ _ Hb) as [v Hv'].
    rewrite (Hother _ Hbc) in Hv'. exact (user_exists_of_find _ _ _ Hv'). }
  split; [exact (balance_debit_credit d d1 d2 caller ud _ _ _ _ _ Hother Hself Hid Hus)|].
  intros x. rewrite (total_debit_credit d1 d2 caller ud _ _ _ _ _ x Hnd1 Hself Hb Hus).
  rewrite (get_user_account_total _ _ _ _ x Hv Hnd G). lra.
Qed.

Lemma fund_loan_moves_money_witness :
  balance (snd (fund_loan uC 1 db_app_mixed)) uC silver_dirhams = Some (500 - 50) /\
  balance (snd (fund_loan uC 1 db_app_mixed)) uA gold_dinars = Some (10 + 50) /\
  balance (snd (fund_loan uC 1 db_app_mixed)) uL gold_dinars = Some 100 /\
  total (snd (fund_loan uC 1 db_app_mixed)) silver_dirhams
    == total db_app_mixed silver_dirhams + 500 - 50.
Proof.
  destruct (fund_loan_moves_money uC 1 db_app_mixed (snd (fund_loan uC 1 db_app_mixed))
              (mk_app 1 uA 50 "Gold_Dinars" 30 "pending" None) gold_dinars
              ltac:(solve_nodup_ids) eq_refl eq_refl eq_refl
              ltac:(apply injective_projections; [vm_compute; reflexivity|reflexivity]))
    as (_ & _ & Hb & Ht).
  split; [rewrite (Hb uC silver_dirhams); vm_compute; reflexivity|].
  split; [rewrite (Hb uA gold_dinars); vm_compute; reflexivity|].
  split; [rewrite (Hb uL gold_dinars); vm_compute; reflexivity|].
  rewrite (Ht silver_dirhams). vm_compute. reflexivity.
Defined.

Lemma repay_loan_tx_users caller lid l amt ud d0 r d1 c :
  currency_column (loan_currency l) = Some c ->
  repay_loan_tx caller lid l amt ud d0 = SOk r d1 ->
  user_exists d0 (lender_id l) = true /\
  users d1 = map_if (fun v => String.eqb (user_id v) (lender_id l))
               (fun v => set_balance v c (balance_of v c + amt))
               (map_if (fun v => String.eqb (user_id v) caller)
                  (fun v => set_balance v (branch_currency (loan_currency l))
                             (balance_of ud (branch_currency (loan_currency l)) - amt))
                  (users d0)).
Proof.
  intros Hc. unfold repay_loan_tx, update_users_col. rewrite Hc.
  unfold sbind, update_users, update_loans, insert_transaction, sret.
  cbv beta iota zeta.
  repeat match goal with |- context [if ?b then _ else _] =>
    match b with Qle_bool _ _ => fail 1 | _ => destruct b eqn:? end end;
    try discriminate.
  intros H. injection H as <- <-. split; [|reflexivity].
  clear Heqb. cbn [andb] in Heqb0. apply negb_false_iff in Heqb0.
  unfold user_exists, set_transactions, set_loans, set_users in *. cbn [users tx_user_id] in Heqb0.
  rewrite !existsb_user_ids in Heqb0
    by (intros v; destruct (String.eqb _ _); auto using user_id_set_balance).
  exact Heqb0.
Qed.

(** A processed repayment moves [amt] out of the borrower's wallet column
    chosen by [branch_currency] of the loan currency and into the lender's
    column named by the loan currency, matched case-insensitively.  The
    borrower is the caller, whose row is the one [get_user_account] returns
    (created with 100 gold and 500 silver for a first-time caller); the
    credit goes to every row of the lender (after the debit when the lender
    is the caller); every other row is unchanged.  The totals change by the
    same amounts, plus the new account of a first-time caller. *)
Theorem repay_loan_moves_money (caller : string) (lid : nat) (amt : Q) (d d' : db)
  (l : loan_row) (c : currency) :
  NoDup (map user_id (users d)) -> validate_user_id (Some caller) = true ->
  find_loan_of (loans d) lid caller = Some l ->
  currency_column (loan_currency l) = Some c ->
  repay_loan caller lid amt d = (Say "Loan Repayment Processed!", d') ->
  (forall a x, balance d' a x =
     option_map (fun b => if (String.eqb a (lender_id l) && currency_eqb x c)%bool
                          then b + amt else b)
       (if String.eqb a caller
        then Some (if currency_eqb x (branch_currency (loan_currency l))
                   then balance_of (fst (get_user_account caller d)) x - amt
                   else balance_of (fst (get_user_account caller d)) x)
        else balance d a x)) /\
  (forall x, total d' x == total d x
     + (if user_exists d caller then 0 else balance_of (mk_user caller 100 500) x)
     - (if currency_eqb x (branch_currency (loan_currency l)) then amt else 0)
     + (if currency_eqb x c then amt else 0)).
Proof.
  intros Hnd Hv Hf Hc H.
  unfold repay_loan in H. rewrite Hf in H.
  destruct (negb _); [discriminate H|].
  destruct (Qltb _ _); [discriminate H|].
  destruct (Qle_bool _ _); [discriminate H|].
  destruct (get_user_account caller d) as [ud d1] eqn:G. cbn [fst].
  destruct (get_user_account_cases _ _ _ _ Hv Hnd G) as (Hnd1 & Hself & Hid & Hother & _).
  destruct (Qltb _ _); [discriminate H|].
  unfold run_tx in H.
  destruct (repay_loan_tx caller lid l amt ud d1) as [r d2|e] eqn:Ht; [|discriminate H].
  destruct (repay_loan_tx_ok _ _ _ _ _ _ _ _ Ht) as [-> _].
  injection H as <-.
  destruct (repay_loan_tx_users _ _ _ _ _ _ _ _ _ Hc Ht) as [Hb Hus].
  split; [exact (balance_debit_credit d d1 d2 caller ud _ _ _ _ _ Hother Hself Hid Hus)|].
  intros x. rewrite (total_debit_credit d1 d2 caller ud _ _ _ _ _ x Hnd1 Hself Hb Hus).
  rewrite (get_user_account_total _ _ _ _ x Hv Hnd G). lra.
Qed.

Lemma repay_loan_moves_money_witness :
  balance (snd (repay_loan uA 1 20 db_repay)) uA gold_dinars = Some (100 - 20) /\
  balance (snd (repay_loan uA 1 20 db_repay)) uL gold_dinars = Some (100 + 20) /\
  total (snd (repay_loan uA 1 20 db_repay)) gold_dinars == total db_repay gold_dinars.
Proof.
  destruct (repay_loan_moves_money uA 1 20 db_repay (snd (repay_loan uA 1 20 db_repay))
              (mk_loan 1 uL uA 50 "gold_dinars" 0 10 "active") gold_dinars
              ltac:(solve_nodup_ids) eq_refl eq_refl eq_refl
              ltac:(apply injective_projections; [vm_compute; reflexivity|reflexivity]))
    as (Hb & Ht).
  split; [rewrite (Hb uA gold_dinars); vm_compute; reflexivity|].
  split; [rewrite (Hb uL gold_dinars); vm_compute; reflexivity|].
  rewrite (Ht gold_dinars). vm_compute. reflexivity.
Defined.

(** ** Currency exchange *)

(** A successful currency exchange keeps the worth of all wallets, counted
    in silver at the rate 12, unchanged, apart from the new account (100
    gold and 500 silver) that [get_user_account] creates for a first-time
    caller. *)
Theorem currency_exchange_keeps_wealth (caller : string) (amount : Q) (f t : string) (d d' : db) :
  NoDup (map user_id (users d)) -> validate_user_id (Some caller) = true ->
  currency_exchange caller amount f t d = (Say "Currency Exchange Successful", d') ->
  wealth_in_silver d' ==
    wealth_in_silver d + (if user_exists d caller then 0 else get_exchange_rate * 100 + 500).
Proof.
  intros Hnd Hv H.
  unfold currency_exchange in H.
  destruct (negb _); [discriminate H|].
  destruct (String.eqb (lower f) (lower t)); [discriminate H|].
  destruct (Qle_bool amount 0); [discriminate H|].
  destruct (get_user_account caller d) as [u d1] eqn:G.
  destruct (get_user_account_cases _ _ _ _ Hv Hnd G) as (Hnd1 & Hu & Hid & _).
  assert (Hw : wealth_in_silver d1 ==
               wealth_in_silver d + (if user_exists d caller then 0 else get_exchange_rate * 100 + 500)).
  { unfold wealth_in_silver. rewrite !(get_user_account_total _ _ _ _ _ Hv Hnd G).
    destruct (user_exists d caller); simpl; lra. }
  enough (wealth_in_silver d' == wealth_in_silver d1) by lra.
  clear Hw.
  unfold run_tx, sbind, update_users_row, insert_transaction, sret in H.
  cbv beta iota zeta in H.
  rewrite <- Hid in Hu.
  unfold wealth_in_silver, total, get_exchange_rate.
  destruct (String.eqb (lower f) "gold"); destruct (Qltb _ _); try discriminate H;
    (destruct (_ && _)%bool; [discriminate H|]);
    injection H as <-; unfold set_transactions, set_users; cbn [users];
    rewrite !(sum_balances_map_if_id _ _ _ _ u Hnd1 Hu); cbn [balance_of gold silver].
  - unfold get_exchange_rate. lra.
  - unfold get_exchange_rate, Qdiv. change (Qinv 12) with (1 # 12). lra.
Qed.

Lemma currency_exchange_keeps_wealth_witness :
  wealth_in_silver (snd (currency_exchange uC 10 "gold" "silver" db_AB))
    == wealth_in_silver db_AB + (12 * 100 + 500).
Proof.
  rewrite (currency_exchange_keeps_wealth uC 10 "gold" "silver" db_AB
             (snd (currency_exchange uC 10 "gold" "silver" db_AB))
             ltac:(solve_nodup_ids) eq_refl
             ltac:(apply injective_projections; [vm_compute; reflexivity|reflexivity])).
  vm_compute. reflexivity.
Defined.

Lemma Qle_bool_false_of_lt x y : y < x -> Qle_bool x y = false.
Proof. intros H. destruct (Qle_bool x y) eqn:E; auto. apply Qle_bool_iff in E. lra. Qed.

Lemma Qltb_false_of_le x y : y <= x -> Qltb x y = false.
Proof. intros H. unfold Qltb. rewrite (proj2 (Qle_bool_iff y x) H). reflexivity. Qed.

Lemma exchange_gold_silver caller a d u :
  validate_user_id (Some caller) = true -> find_user (users d) caller = Some u ->
  0 < a -> a <= gold u ->
  currency_exchange caller a "gold" "silver" d =
  (Say "Currency Exchange Successful",
   set_transactions
     (set_users d (map_if (fun v => String.eqb (user_id v) (user_id u))
                    (fun v => mk_user (user_id v) (gold u - a) (silver u + a * get_exchange_rate))
                    (users d)))
     (transactions d ++ [mk_txn (user_id u) "currency_exchange" a "gold_to_silver" None])).
Proof.
  intros Hv Hf Ha Hg.
  unfold currency_exchange. rewrite (get_user_account_existing _ _ _ Hv Hf).
  rewrite (Qle_bool_false_of_lt _ _ Ha). 
  replace (lower "gold") with "gold"%string by reflexivity.
  replace (lower "silver") with "silver"%string by reflexivity.
  cbn [negb andb orb String.eqb Ascii.eqb Bool.eqb].
  rewrite (Qltb_false_of_le _ _ Hg).
  unfold run_tx, sbind, update_users_row, insert_transaction, sret.
  cbv beta iota zeta. cbn [tx_user_id].
  destruct (find_user_In _ _ _ Hf) as [_ Hid].
  rewrite user_exists_map_if by (intros; reflexivity).
  rewrite Hid, (user_exists_of_find _ _ _ Hf). reflexivity.
Qed.

Lemma exchange_silver_gold caller b d u :
  validate_user_id (Some caller) = true -> find_user (users d) caller = Some u ->
  0 < b -> b <= silver u ->
  currency_exchange caller b "silver" "gold" d =
  (Say "Currency Exchange Successful",
   set_transactions
     (set_users d (map_if (fun v => String.eqb (user_id v) (user_id u))
                    (fun v => mk_user (user_id v) (gold u + b / get_exchange_rate) (silver u - b))
                    (users d)))
     (transactions d ++ [mk_txn (user_id u) "currency_exchange" b "silver_to_gold" None])).
Proof.
  intros Hv Hf Ha Hg.
  unfold currency_exchange. rewrite (get_user_account_existing _ _ _ Hv Hf).
  rewrite (Qle_bool_false_of_lt _ _ Ha).
  replace (lower "gold") with "gold"%string by reflexivity.
  replace (lower "silver") with "silver"%string by reflexivity.
  cbn [negb andb orb String.eqb Ascii.eqb Bool.eqb].
  rewrite (Qltb_false_of_le _ _ Hg).
  unfold run_tx, sbind, update_users_row, insert_transaction, sret.
  cbv beta iota zeta. cbn [tx_user_id].
  destruct (find_user_In _ _ _ Hf) as [_ Hid].
  rewrite user_exists_map_if by (intros; reflexivity).
  rewrite Hid, (user_exists_of_find _ _ _ Hf). reflexivity.
Qed.

Lemma Forall2_map_self {A B} (R : A -> B -> Prop) (f : A -> B) l :
  (forall x, In x l -> R x (f x)) -> Forall2 R l (map f l).
Proof.
  induction l as [|x r IH]; simpl; intros H; constructor; auto.
Qed.

(** Exchanging [a] gold dinars for silver and then the [12 a] silver dirhams
    received back for gold restores every wallet: the caller's balances are
    the ones it started with and no other wallet changed.  The caller needs
    a row, at least [a] gold dinars and a non-negative silver balance. *)
Theorem currency_exchange_round_trip (caller : string) (a : Q) (d : db) (u : user_row) :
  NoDup (map user_id (users d)) -> validate_user_id (Some caller) = true ->
  find_user (users d) caller = Some u -> 0 < a -> a <= gold u -> 0 <= silver u ->
  let (r1, d1) := currency_exchange caller a "gold" "silver" d in
  let (r2, d2) := currency_exchange caller (a * get_exchange_rate) "silver" "gold" d1 in
  r1 = Say "Currency Exchange Successful" /\ r2 = Say "Currency Exchange Successful" /\
  same_wallets (users d) (users d2).
Proof.
  intros Hnd Hv Hf Ha Hg Hs.
  destruct (find_user_In _ _ _ Hf) as [_ Hid].
  rewrite (exchange_gold_silver _ _ _ _ Hv Hf Ha Hg).
  set (g1 := fun v : user_row => mk_user (user_id v) (gold u - a) (silver u + a * get_exchange_rate)).
  set (d1 := set_transactions _ _).
  assert (Hf1 : find_user (users d1) caller = Some (g1 u)).
  { unfold d1, set_transactions, set_users; cbn [users].
    rewrite find_user_map_if by reflexivity. rewrite Hf. cbn. rewrite String.eqb_refl. reflexivity. }
  rewrite (exchange_silver_gold _ _ _ _ Hv Hf1).
  - split; [reflexivity|]. split; [reflexivity|].
    unfold d1, set_transactions, set_users; cbn [users]. unfold map_if. rewrite map_map.
    apply Forall2_map_self. intros v Hin. cbn [g1 user_id].
    destruct (String.eqb (user_id v) (user_id u)) eqn:E.
    + apply String.eqb_eq in E.
      assert (v = u) as -> by (apply (nodup_same_id (users d)); auto;
                               apply (find_user_In _ _ _ Hf)).
      cbn. rewrite String.eqb_refl. cbn. unfold get_exchange_rate, Qdiv.
      change (Qinv 12) with (1 # 12). split; [reflexivity|]. split; lra.
    + rewrite E. split; [reflexivity|]. split; reflexivity.
  - unfold get_exchange_rate. lra.
  - cbn [g1 silver]. unfold get_exchange_rate. lra.
Qed.

Lemma currency_exchange_round_trip_witness :
  fst (currency_exchange uA 10 "gold" "silver" db_AB) = Say "Currency Exchange Successful" /\
  fst (currency_exchange uA (10 * get_exchange_rate) "silver" "gold"
         (snd (currency_exchange uA 10 "gold" "silver" db_AB)))
    = Say "Currency Exchange Successful" /\
  same_wallets (users db_AB)
    (users (snd (currency_exchange uA (10 * get_exchange_rate) "silver" "gold"
                   (snd (currency_exchange uA 10 "gold" "silver" db_AB))))).
Proof.
  apply (currency_exchange_round_trip uA 10 db_AB (mk_user uA 100 0)).
  - solve_nodup_ids.
  - reflexivity.
  - reflexivity.
  - lra.
  - simpl. lra.
  - simpl. lra.
Defined.

(** ** Bank deposits, withdrawals and transfers *)

(** A successful bank deposit moves money from the wallets into the bank
    accounts: for each currency column, wallets plus bank balances (each
    account counted in the column its handlers use) stay the same. *)
Theorem bank_deposit_conserves (account_id : nat) (uid : string) (amount : Q) (d d' : db) :
  NoDup (map user_id (users d)) -> NoDup (map ba_id (bank_accounts d)) ->
  validate_user_id (Some uid) = true -> user_exists d uid = true ->
  bank_deposit account_id uid amount d = (BankOk, d') ->
  forall x, total d' x + bank_total d' x == total d x + bank_total d x.
Proof.
  intros Hnd Hnb Hv He H x.
  destruct (user_exists_find _ _ He) as [u Hu].
  unfold bank_deposit in H.
  destruct (Qle_bool amount 0); [discriminate H|].
  destruct (find_active_account d account_id) as [acc|] eqn:Fa; [|discriminate H].
  destruct (find_active_account_some _ _ _ Fa) as [Hin Hid].
  destruct (_ && _)%bool; [discriminate H|].
  rewrite (get_user_account_existing _ _ _ Hv Hu) in H.
  destruct (Qltb _ _); [discriminate H|].
  unfold run_tx in H.
  match type of H with context [match ?b d with _ => _ end] =>
    destruct (b d) as [r d1|e] eqn:Hb; [|discriminate H] end.
  peel Hb. inv_stmts. cbv iota in H. injection H as <-.
  unfold total, bank_total, set_transactions, set_bank_ledger, set_bank_accounts, set_users;
    cbn [users bank_accounts].
  rewrite (bank_sum_map_if x _ _ _ acc Hnb Hin eq_refl) by reflexivity.
  rewrite (sum_balances_set_one x uid _ _ _ u Hnd Hu).
  cbn [set_ba_balance ba_balance].
  rewrite (currency_eqb_sym x).
  destruct (currency_eqb _ x); lra.
Qed.

Lemma bank_deposit_conserves_witness :
  total (snd (bank_deposit 1 uA 10 db_bank_acc)) gold_dinars + bank_total (snd (bank_deposit 1 uA 10 db_bank_acc)) gold_dinars
    == total db_bank_acc gold_dinars + bank_total db_bank_acc gold_dinars /\
  total (snd (bank_deposit 1 uA 10 db_bank_acc)) silver_dirhams + bank_total (snd (bank_deposit 1 uA 10 db_bank_acc)) silver_dirhams
    == total db_bank_acc silver_dirhams + bank_total db_bank_acc silver_dirhams.
Proof.
  pose proof (bank_deposit_conserves 1 uA 10 db_bank_acc (snd (bank_deposit 1 uA 10 db_bank_acc))
                ltac:(solve_nodup_ids) ltac:(vm_compute; repeat constructor; simpl; tauto) eq_refl eq_refl
                ltac:(apply injective_projections; [vm_compute; reflexivity|reflexivity])) as H.
  split; apply H.
Defined.

(** A successful bank withdrawal moves money from the bank accounts back into
    the wallets: wallets plus bank balances stay the same per currency. *)
Theorem bank_withdraw_conserves (account_id : nat) (uid : string) (amount : Q) (d d' : db) :
  NoDup (map user_id (users d)) -> NoDup (map ba_id (bank_accounts d)) ->
  validate_user_id (Some uid) = true -> user_exists d uid = true ->
  bank_withdraw account_id uid amount d = (BankOk, d') ->
  forall x, total d' x + bank_total d' x == total d x + bank_total d x.
Proof.
  intros Hnd Hnb Hv He H x.
  destruct (user_exists_find _ _ He) as [u Hu].
  unfold bank_withdraw in H.
  destruct (Qle_bool amount 0); [discriminate H|].
  destruct (find_active_account d account_id) as [acc|] eqn:Fa; [|discriminate H].
  destruct (find_active_account_some _ _ _ Fa) as [Hin Hid].
  destruct (_ && _)%bool; [discriminate H|].
  destruct (Qltb _ _); [discriminate H|].
  rewrite (get_user_account_existing _ _ _ Hv Hu) in H.
  unfold run_tx in H.
  match type of H with context [match ?b d with _ => _ end] =>
    destruct (b d) as [r d1|e] eqn:Hb; [|discriminate H] end.
  peel Hb. inv_stmts. cbv iota in H. injection H as <-.
  unfold total, bank_total, set_transactions, set_bank_ledger, set_bank_accounts, set_users;
    cbn [users bank_accounts].
  rewrite (bank_sum_map_if x _ _ _ acc Hnb Hin eq_refl) by reflexivity.
  rewrite (sum_balances_set_one x uid _ _ _ u Hnd Hu).
  cbn [set_ba_balance ba_balance].
  rewrite (currency_eqb_sym x).
  destruct (currency_eqb _ x); lra.
Qed.

Lemma bank_withdraw_conserves_witness :
  total (snd (bank_withdraw 1 uA 4 db_bank_two)) gold_dinars + bank_total (snd (bank_withdraw 1 uA 4 db_bank_two)) gold_dinars
    == total db_bank_two gold_dinars + bank_total db_bank_two gold_dinars /\
  total (snd (bank_withdraw 1 uA 4 db_bank_two)) silver_dirhams + bank_total (snd (bank_withdraw 1 uA 4 db_bank_two)) silver_dirhams
    == total db_bank_two silver_dirhams + bank_total db_bank_two silver_dirhams.
Proof.
  pose proof (bank_withdraw_conserves 1 uA 4 db_bank_two (snd (bank_withdraw 1 uA 4 db_bank_two))
                ltac:(solve_nodup_ids) ltac:(vm_compute; repeat constructor; simpl; intuition discriminate) eq_refl eq_refl
                ltac:(apply injective_projections; [vm_compute; reflexivity|reflexivity])) as H.
  split; apply H.
Defined.

Lemma In_map_if_keep {A} (w : A -> bool) g l x : In x l -> w x = false -> In x (map_if w g l).
Proof.
  intros Hin Hw. unfold map_if. apply in_map_iff. exists x. rewrite Hw. auto.
Qed.

Lemma ba_ids_map_if w v accs :
  map ba_id (map_if w (set_ba_balance v) accs) = map ba_id accs.
Proof. unfold map_if. rewrite map_map. apply map_ext. intros b. destruct (w b); reflexivity. Qed.

(** A successful transfer between bank accounts leaves the users table as
    it was and the bank balances of each currency unchanged in sum. *)
Theorem bank_transfer_conserves (from_account_id to_account_id : nat) (uid : string) (amount : Q)
  (d d' : db) :
  NoDup (map ba_id (bank_accounts d)) ->
  bank_transfer from_account_id to_account_id uid amount d = (BankOk, d') ->
  users d' = users d /\ forall x, bank_total d' x == bank_total d x.
Proof.
  intros Hnb H.
  unfold bank_transfer in H.
  destruct (Qle_bool amount 0); [discriminate H|].
  destruct (Nat.eqb from_account_id to_account_id) eqn:Eft; [discriminate H|].
  destruct (negb _); [discriminate H|].
  match type of H with context [find ?p ?l] =>
    match p with context [to_account_id] => destruct (find p l) as [ta|] eqn:Ft end end.
  2:{ match type of H with context [find ?p ?l] => destruct (find p l) end; discriminate H. }
  match type of H with context [find ?p ?l] =>
    destruct (find p l) as [fa|] eqn:Ff; [|discriminate H] end.
  apply find_some in Ff as [Hfa Ef]. apply find_some in Ft as [Hta Et].
  apply filter_In in Hfa as [Hfa _]. apply filter_In in Hta as [Hta _].
  apply Nat.eqb_eq in Ef. apply Nat.eqb_eq in Et.
  destruct (negb (String.eqb (ba_currency fa) (ba_currency ta))) eqn:Ec; [discriminate H|].
  apply negb_false_iff, String.eqb_eq in Ec.
  destruct (_ && _)%bool; [discriminate H|].
  destruct (Qltb _ _); [discriminate H|].
  unfold run_tx in H.
  match type of H with context [match ?b d with _ => _ end] =>
    destruct (b d) as [r d1|e] eqn:Hb; [|discriminate H] end.
  peel Hb. inv_stmts. cbv iota in H. injection H as <-.
  unfold bank_total, set_transactions, set_bank_ledger, set_bank_accounts;
    cbn [users bank_accounts]. split; [reflexivity|]. intros x.
  assert (Hta' : In ta (map_if (fun b => Nat.eqb (ba_id b) (ba_id fa))
                          (set_ba_balance (ba_balance fa - amount)) (bank_accounts d))).
  { apply In_map_if_keep; auto. rewrite Nat.eqb_sym. exact Eft. }
  rewrite (bank_sum_map_if x _ _ _ ta (eq_ind_r (@NoDup nat) Hnb (ba_ids_map_if _ _ _)) Hta' eq_refl)
    by reflexivity.
  rewrite (bank_sum_map_if x _ _ _ fa Hnb Hfa eq_refl) by reflexivity.
  cbn [set_ba_balance ba_balance]. rewrite Ec.
  destruct (currency_eqb _ x); lra.
Qed.

Lemma bank_transfer_conserves_witness :
  users (snd (bank_transfer 1 2 uA 5 db_bank_two)) = users db_bank_two /\
  bank_total (snd (bank_transfer 1 2 uA 5 db_bank_two)) gold_dinars == bank_total db_bank_two gold_dinars /\
  bank_total (snd (bank_transfer 1 2 uA 5 db_bank_two)) silver_dirhams
    == bank_total db_bank_two silver_dirhams.
Proof.
  destruct (bank_transfer_conserves 1 2 uA 5 db_bank_two (snd (bank_transfer 1 2 uA 5 db_bank_two))
              ltac:(vm_compute; repeat constructor; simpl; intuition discriminate)
              ltac:(apply injective_projections; [vm_compute; reflexivity|reflexivity])) as [Hu H].
  split; [exact Hu|split; apply H].
Defined.

(** ** Zakat payment and the server-owner commands *)

Lemma money_pay_zakat caller d : money_inv d -> money_inv (snd (pay_zakat caller d)).
Proof.
  intros Hd. unfold pay_zakat.
  destruct (get_user_account caller d) as [ud d1] eqn:G.
  destruct (money_get_user_account _ _ _ _ Hd G) as [Hd1 [Hg Hs]].
  destruct (negb _); [exact Hd1|].
  apply run_tx_preserves; [|exact Hd1]. chain_stmts money_stmt.
  apply money_update_users_row. intros u _ _. unfold calculate_zakat; cbn.
  split; cbn; destruct (Qle_bool _ _); lra.
Qed.

Lemma money_set_balance_command owner caller target g s d :
  money_inv d -> money_inv (snd (set_balance_command owner caller target g s d)).
Proof.
  intros Hd. unfold set_balance_command.
  destruct (negb _); [exact Hd|].
  destruct g as [g|], s as [s|]; cbv beta iota; try exact Hd;
  repeat match goal with
         | |- money_inv (snd (if Qltb ?x 0 then _ else _)) =>
             let E := fresh "E" in destruct (Qltb x 0) eqn:E; [exact Hd|apply Qltb_false in E]
         end;
  destruct (get_user_account target d) as [ud d1] eqn:G;
  destruct (money_get_user_account _ _ _ _ Hd G) as [Hd1 [Hg Hs]];
  (apply run_tx_preserves; [|exact Hd1]); chain_stmts money_stmt;
  try (apply money_update_users_row; intros u _ _; split; cbn; lra);
  apply money_insert_transaction.
Qed.

Lemma money_give_money owner caller target amount cur d :
  money_inv d -> money_inv (snd (give_money owner caller target amount cur d)).
Proof.
  intros Hd. unfold give_money.
  destruct (negb _); [exact Hd|].
  destruct (negb _); [exact Hd|].
  destruct (Qle_bool amount 0) eqn:Hpos; [exact Hd|].
  apply Qle_bool_false in Hpos.
  destruct (get_user_account target d) as [ud d1] eqn:G.
  destruct (money_get_user_account _ _ _ _ Hd G) as [Hd1 Hn].
  apply run_tx_preserves; [|exact Hd1]. chain_stmts money_stmt.
  apply money_update_users. intros u _ _.
  pose proof (balance_of_nonneg _ (if String.eqb (lower cur) "gold" then gold_dinars else silver_dirhams) Hn).
  lra.
Qed.

(** A successful [give_money] was called by the server owner with a positive
    amount, and it raises the total of the chosen currency by exactly that
    amount: money created, not moved.  A target without a row first gets the
    new account of [get_user_account] (100 gold and 500 silver), which the
    totals also gain. *)
Theorem give_money_creates_amount (owner : option string) (caller target : string) (amount : Q)
  (cur : string) (d d' : db) :
  NoDup (map user_id (users d)) -> validate_user_id (Some target) = true ->
  give_money owner caller target amount cur d = (Say "Money Gift from Server Owner", d') ->
  is_server_owner owner caller = true /\ 0 < amount /\
  forall x, total d' x == total d x
    + (if user_exists d target then 0 else balance_of (mk_user target 100 500) x)
    + (if currency_eqb x (gift_currency cur) then amount else 0).
Proof.
  intros Hnd Hv H.
  unfold give_money in H.
  destruct (is_server_owner owner caller) eqn:Hown; cbn [negb] in H; [|discriminate H].
  destruct (negb _); [discriminate H|].
  destruct (Qle_bool amount 0) eqn:Hpos; [discriminate H|].
  apply Qle_bool_false in Hpos.
  destruct (get_user_account target d) as [u d1] eqn:G.
  destruct (get_user_account_cases _ _ _ _ Hv Hnd G) as (Hnd1 & Hu & _).
  unfold run_tx in H.
  match type of H with context [match ?b d1 with _ => _ end] =>
    destruct (b d1) as [r d2|e] eqn:Hb; [|discriminate H] end.
  peel Hb. inv_stmts. cbv iota in H. injection H as <-.
  split; [reflexivity|]. split; [exact Hpos|]. intros x.
  rewrite <- (get_user_account_total _ _ _ _ x Hv Hnd G).
  unfold total, set_transactions, set_users; cbn [users].
  rewrite (sum_balances_set_one x target _ _ _ u Hnd1 Hu).
  unfold gift_currency.
  destruct (currency_eqb x _); lra.
Qed.

Lemma give_money_creates_amount_witness :
  total (snd (give_money (Some uA) uA uC 5 "gold" db_AB)) gold_dinars
    == total db_AB gold_dinars + 100 + 5 /\
  total (snd (give_money (Some uA) uA uC 5 "gold" db_AB)) silver_dirhams
    == total db_AB silver_dirhams + 500.
Proof.
  destruct (give_money_creates_amount (Some uA) uA uC 5 "gold" db_AB
              (snd (give_money (Some uA) uA uC 5 "gold" db_AB))
              ltac:(solve_nodup_ids) eq_refl
              ltac:(apply injective_projections; [vm_compute; reflexivity|reflexivity]))
    as (_ & _ & H).
  split; [rewrite (H gold_dinars)|rewrite (H silver_dirhams)]; vm_compute; reflexivity.
Defined.

(** A successful zakat payment lowers the gold and silver totals by exactly
    the gold and silver zakat computed from the payer's balances, the row
    [get_user_account] returns; a first-time payer is first given the new
    account's 100 gold and 500 silver, which the totals also gain. *)
Theorem pay_zakat_debits_zakat (caller : string) (d d' : db) :
  NoDup (map user_id (users d)) -> validate_user_id (Some caller) = true ->
  pay_zakat caller d = (Say "Zakat Paid Successfully", d') ->
  total d' gold_dinars == total d gold_dinars + (if user_exists d caller then 0 else 100)
    - gold_zakat (calculate_zakat (gold (fst (get_user_account caller d)))
                                  (silver (fst (get_user_account caller d)))) /\
  total d' silver_dirhams == total d silver_dirhams + (if user_exists d caller then 0 else 500)
    - silver_zakat (calculate_zakat (gold (fst (get_user_account caller d)))
                                    (silver (fst (get_user_account caller d)))).
Proof.
  intros Hnd Hv H.
  unfold pay_zakat in H.
  destruct (get_user_account caller d) as [u d1] eqn:G. cbn [fst].
  destruct (get_user_account_cases _ _ _ _ Hv Hnd G) as (Hnd1 & Hu & Hid & _).
  pose proof (get_user_account_total _ _ _ _ gold_dinars Hv Hnd G) as Tg.
  pose proof (get_user_account_total _ _ _ _ silver_dirhams Hv Hnd G) as Ts.
  destruct (negb _); [discriminate H|].
  unfold run_tx in H.
  match type of H with context [match ?b d1 with _ => _ end] =>
    destruct (b d1) as [r d2|e] eqn:Hb; [|discriminate H] end.
  peel Hb. inv_stmts. cbv iota in H. injection H as <-.
  unfold total in Tg, Ts |- *. unfold set_transactions, set_users; cbn [users].
  rewrite !(sum_balances_map_if_id _ _ _ _ u Hnd1 Hu). cbn [balance_of gold silver].
  unfold calculate_zakat; cbn [gold_zakat silver_zakat].
  destruct (user_exists d _); cbn [balance_of gold silver] in Tg, Ts; split; lra.
Qed.

Lemma pay_zakat_debits_zakat_witness :
  total (snd (pay_zakat uC db_AB)) gold_dinars
    == total db_AB gold_dinars + 100 - gold_zakat (calculate_zakat 100 500) /\
  total (snd (pay_zakat uC db_AB)) silver_dirhams
    == total db_AB silver_dirhams + 500 - silver_zakat (calculate_zakat 100 500).
Proof.
  destruct (pay_zakat_debits_zakat uC db_AB (snd (pay_zakat uC db_AB))
              ltac:(solve_nodup_ids) eq_refl
              ltac:(apply injective_projections; [vm_compute; reflexivity|reflexivity]))
    as [Hg Hs].
  split; [rewrite Hg|rewrite Hs]; vm_compute; reflexivity.
Defined.

(** ** Invariants of all handlers: wallets and pending applications *)



Lemma pend_insert_transaction fk t : preserves pending_bounded (insert_transaction fk t).
Proof. unfold insert_transaction. frame_stmt. Qed.
Lemma pend_insert_loan a : preserves pending_bounded (insert_loan a).
Proof. unfold insert_loan. frame_stmt. Qed.
Lemma pend_update_loans w g : preserves pending_bounded (update_loans w g).
Proof. unfold update_loans. frame_stmt. Qed.
Lemma pend_update_businesses w g : preserves pending_bounded (update_businesses w g).
Proof. unfold update_businesses. frame_stmt. Qed.
Lemma pend_update_investments w g : preserves pending_bounded (update_investments w g).
Proof. unfold update_investments. frame_stmt. Qed.
Lemma pend_delete_marketplace w : preserves pending_bounded (delete_marketplace w).
Proof. unfold delete_marketplace. frame_stmt. Qed.
Lemma pend_insert_permission p : preserves pending_bounded (insert_permission p).
Proof. unfold insert_permission. frame_stmt. Qed.
Lemma pend_insert_bank_ledger fk e : preserves pending_bounded (insert_bank_ledger fk e).
Proof. unfold insert_bank_ledger. frame_stmt. Qed.
Lemma pend_update_users c f w : preserves pending_bounded (update_users c f w).
Proof. unfold update_users. frame_stmt. Qed.
Lemma pend_update_users_col col f w : preserves pending_bounded (update_users_col col f w).
Proof. unfold update_users_col, update_users, sraise. frame_stmt. Qed.
Lemma pend_update_users_cols cols g w : preserves pending_bounded (update_users_cols cols g w).
Proof. unfold update_users_cols. frame_stmt. Qed.
Lemma pend_update_users_row g w : preserves pending_bounded (update_users_row g w).
Proof. unfold update_users_row. frame_stmt. Qed.
Lemma pend_update_bank_balance id v : preserves pending_bounded (update_bank_balance id v).
Proof. unfold update_bank_balance. frame_stmt. Qed.
Lemma pend_insert_bank_account a : preserves pending_bounded (insert_bank_account a).
Proof. unfold insert_bank_account. frame_stmt. Qed.

Lemma filter_map_if_le (p w : app_row -> bool) g (l : list app_row) :
  (forall a, w a = true -> p (g a) = true -> p a = true) ->
  (length (filter p (map_if w g l)) <= length (filter p l))%nat.
Proof.
  intros Hg. induction l as [|a r IH]; [reflexivity|].
  unfold map_if in *; simpl.
  destruct (w a) eqn:Ew.
  - destruct (p (g a)) eqn:Ep.
    + rewrite (Hg a Ew Ep). simpl. lia.
    + destruct (p a); simpl; lia.
  - destruct (p a); simpl; lia.
Qed.

Lemma pend_update_loan_applications w g :
  (forall a u, w a = true ->
     (String.eqb (app_borrower_id (g a)) u && String.eqb (app_status (g a)) "pending")%bool = true ->
     (String.eqb (app_borrower_id a) u && String.eqb (app_status a) "pending")%bool = true) ->
  preserves pending_bounded (update_loan_applications w g).
Proof.
  intros Hg d x d' Hp H. unfold update_loan_applications in H. injection H as _ <-.
  intros u. unfold count_pending_apps; cbn [loan_applications set_loan_applications].
  eapply Nat.le_trans; [|apply (Hp u)].
  apply filter_map_if_le. intros a Hw. apply Hg. exact Hw.
Qed.

Create HintDb pend_stmt.
#[export] Hint Resolve pend_insert_transaction pend_insert_loan pend_update_loans
  pend_update_businesses pend_update_investments pend_delete_marketplace
  pend_insert_permission pend_insert_bank_ledger pend_update_users pend_update_users_col
  pend_update_users_cols pend_update_users_row pend_update_bank_balance
  pend_insert_bank_account preserves_ret preserves_raise : pend_stmt.

Lemma pend_get_user_account uid d ud d1 :
  pending_bounded d -> get_user_account uid d = (ud, d1) -> pending_bounded d1.
Proof.
  intros Hd G. apply get_user_account_only_users in G. rewrite G. exact Hd.
Qed.

Lemma pend_transfer_money r d : pending_bounded d -> pending_bounded (snd (transfer_money r d)).
Proof.
  intros Hd. destruct (pay_request_valid r) eqn:V.
  - rewrite (transfer_money_valid r d V). apply run_tx_preserves; [|exact Hd].
    unfold transfer_money_tx. chain_stmts pend_stmt.
  - destruct (transfer_money_invalid r d V) as (code & m & ->). exact Hd.
Qed.

Lemma count_pending_app_snoc d a u :
  count_pending_apps (set_loan_applications d (loan_applications d ++ [a])) u =
  (count_pending_apps d u +
   if (String.eqb (app_borrower_id a) u && String.eqb (app_status a) "pending")%bool then 1 else 0)%nat.
Proof.
  unfold count_pending_apps; cbn [loan_applications set_loan_applications].
  rewrite filter_app, length_app. simpl.
  destruct (_ && _)%bool; reflexivity.
Qed.

Lemma pend_apply_for_loan caller amt cur days purpose now d :
  pending_bounded d -> pending_bounded (snd (apply_for_loan caller amt cur days purpose now d)).
Proof.
  intros Hd. unfold apply_for_loan.
  destruct (negb _); [exact Hd|]. destruct (_ || _)%bool; [exact Hd|].
  destruct (Z.ltb 365 days); [exact Hd|]. destruct (Nat.ltb _ 10); [exact Hd|].
  destruct (Nat.leb 3 (count_pending_apps d caller)) eqn:E3; [exact Hd|].
  apply Nat.leb_gt in E3.
  unfold run_tx, sbind, insert_loan_application, sret.
  destruct (user_exists _ _); [|exact Hd]. simpl.
  intros u. rewrite count_pending_app_snoc. simpl.
  destruct (String.eqb caller u) eqn:Eu; simpl.
  - apply String.eqb_eq in Eu. subst u. lia.
  - specialize (Hd u). lia.
Qed.

Lemma pend_fund_loan caller id d : pending_bounded d -> pending_bounded (snd (fund_loan caller id d)).
Proof.
  intros Hd. unfold fund_loan.
  destruct (find_pending_app (loan_applications d) id) as [ap|]; [|exact Hd].
  destruct (String.eqb _ caller); [exact Hd|].
  destruct (get_user_account caller d) as [ud d1] eqn:G.
  pose proof (pend_get_user_account _ _ _ _ Hd G) as Hd1.
  destruct (Qltb _ _); [exact Hd1|].
  apply run_tx_preserves; [|exact Hd1].
  unfold fund_loan_tx. cbv zeta. chain_stmts pend_stmt.
  apply pend_update_loan_applications. intros ? ? _. cbn [app_status app_borrower_id].
  rewrite andb_false_r. discriminate.
Qed.

Lemma pend_repay_loan caller lid amt d : pending_bounded d -> pending_bounded (snd (repay_loan caller lid amt d)).
Proof.
  intros Hd. unfold repay_loan.
  destruct (find_loan_of (loans d) lid caller) as [l|]; [|exact Hd].
  destruct (negb _); [exact Hd|]. destruct (Qltb _ amt); [exact Hd|].
  destruct (Qle_bool amt 0); [exact Hd|].
  destruct (get_user_account caller d) as [ud d1] eqn:G.
  pose proof (pend_get_user_account _ _ _ _ Hd G) as Hd1.
  destruct (Qltb _ _); [exact Hd1|].
  apply run_tx_preserves; [|exact Hd1].
  unfold repay_loan_tx. cbv zeta. chain_stmts pend_stmt.
Qed.

Lemma pend_currency_exchange caller amount f t d :
  pending_bounded d -> pending_bounded (snd (currency_exchange caller amount f t d)).
Proof.
  intros Hd. unfold currency_exchange.
  destruct (negb _); [exact Hd|]. destruct (String.eqb (lower f) (lower t)); [exact Hd|].
  destruct (Qle_bool amount 0); [exact Hd|].
  destruct (get_user_account caller d) as [ud d1] eqn:G.
  pose proof (pend_get_user_account _ _ _ _ Hd G) as Hd1.
  cbv zeta. destruct (String.eqb (lower f) "gold").
  - destruct (Qltb (gold ud) amount); [exact Hd1|].
    apply run_tx_preserves; [|exact Hd1]. chain_stmts pend_stmt.
  - destruct (Qltb (silver ud) amount); [exact Hd1|].
    apply run_tx_preserves; [|exact Hd1]. chain_stmts pend_stmt.
Qed.

Lemma pend_create_bank_account owner inst t cur ratio cb gen d :
  pending_bounded d -> pending_bounded (snd (create_bank_account owner inst t cur ratio cb gen d)).
Proof.
  intros Hd. unfold create_bank_account.
  destruct (negb _); [exact Hd|]. destruct (negb _); [exact Hd|].
  destruct (ratio_check t ratio) eqn:Hr; [exact Hd|].
  destruct (Nat.leb 5 _); [exact Hd|].
  destruct (find_institution d inst); [|exact Hd].
  destruct gen as [number|]; [|exact Hd].
  apply run_tx_preserves; [|exact Hd].
  unfold create_bank_account_tx. chain_stmts pend_stmt.
Qed.

Lemma pend_bank_deposit id uid amt d : pending_bounded d -> pending_bounded (snd (bank_deposit id uid amt d)).
Proof.
  intros Hd. unfold bank_deposit.
  destruct (Qle_bool amt 0); [exact Hd|].
  destruct (find_active_account d id) as [acc|]; [|exact Hd].
  destruct (_ && _)%bool; [exact Hd|].
  destruct (get_user_account uid d) as [ud d1] eqn:G.
  pose proof (pend_get_user_account _ _ _ _ Hd G) as Hd1.
  cbv zeta. destruct (Qltb _ amt); [exact Hd1|].
  apply run_tx_preserves; [|exact Hd1]. chain_stmts pend_stmt.
Qed.

Lemma pend_bank_withdraw id uid amt d : pending_bounded d -> pending_bounded (snd (bank_withdraw id uid amt d)).
Proof.
  intros Hd. unfold bank_withdraw.
  destruct (Qle_bool amt 0); [exact Hd|].
  destruct (find_active_account d id) as [acc|]; [|exact Hd].
  destruct (_ && _)%bool; [exact Hd|]. destruct (Qltb _ amt); [exact Hd|].
  destruct (get_user_account uid d) as [ud d1] eqn:G.
  pose proof (pend_get_user_account _ _ _ _ Hd G) as Hd1.
  cbv zeta. apply run_tx_preserves; [|exact Hd1]. chain_stmts pend_stmt.
Qed.

Lemma pend_bank_transfer from_id to_id uid amt d :
  pending_bounded d -> pending_bounded (snd (bank_transfer from_id to_id uid amt d)).
Proof.
  intros Hd. unfold bank_transfer.
  destruct (Qle_bool amt 0); [exact Hd|]. destruct (Nat.eqb from_id to_id); [exact Hd|].
  cbv zeta. destruct (negb _); [exact Hd|].
  destruct (find _ _) as [fa|]; [|exact Hd]. destruct (find _ _) as [ta|]; [|exact Hd].
  destruct (negb _); [exact Hd|]. destruct (_ && _)%bool; [exact Hd|].
  destruct (Qltb _ amt); [exact Hd|].
  apply run_tx_preserves; [|exact Hd]. chain_stmts pend_stmt.
Qed.

Lemma pend_process_overdue_rows now rows processed d :
  pending_bounded d -> pending_bounded (snd (process_overdue_rows now rows processed d)).
Proof.
  revert processed d.
  induction rows as [|l rest IH]; intros processed d Hd; simpl; [exact Hd|].
  destruct (existsb _ processed); [apply IH; exact Hd|].
  destruct (Z.leb 14 _).
  - destruct (reset_user_data (borrower_id l) d) as [ok d1] eqn:R.
    assert (Hd1 : pending_bounded d1).
    { assert (H : pending_bounded (snd (reset_user_data (borrower_id l) d))).
      { unfold reset_user_data. apply run_tx_preserves; [|exact Hd].
        unfold reset_user_data_tx. chain_stmts pend_stmt.
        apply pend_update_loan_applications. intros ? ? _. cbn [app_status app_borrower_id].
        rewrite andb_false_r. discriminate. }
      rewrite R in H. exact H. }
    destruct (process_overdue_rows now rest (borrower_id l :: processed) d1) as [ns d2] eqn:E.
    simpl. specialize (IH (borrower_id l :: processed) d1 Hd1). rewrite E in IH. exact IH.
  - destruct (Z.leb 7 _); [|apply IH; exact Hd].
    destruct (process_overdue_rows now rest (borrower_id l :: processed) d) as [ns d2] eqn:E.
    simpl. specialize (IH (borrower_id l :: processed) d Hd). rewrite E in IH. exact IH.
Qed.

Lemma pend_pay_zakat caller d : pending_bounded d -> pending_bounded (snd (pay_zakat caller d)).
Proof.
  intros Hd. unfold pay_zakat.
  destruct (get_user_account caller d) as [ud d1] eqn:G.
  pose proof (pend_get_user_account _ _ _ _ Hd G) as Hd1.
  destruct (negb _); [exact Hd1|].
  apply run_tx_preserves; [|exact Hd1]. chain_stmts pend_stmt.
Qed.

Lemma pend_set_balance_command owner caller target g s d :
  pending_bounded d -> pending_bounded (snd (set_balance_command owner caller target g s d)).
Proof.
  intros Hd. unfold set_balance_command.
  destruct (negb _); [exact Hd|].
  destruct g as [g|], s as [s|]; cbv beta iota; try exact Hd;
  repeat match goal with
         | |- pending_bounded (snd (if ?b then _ else _)) => destruct b; [exact Hd|]
         end;
  destruct (get_user_account target d) as [ud d1] eqn:G;
  pose proof (pend_get_user_account _ _ _ _ Hd G) as Hd1;
  (apply run_tx_preserves; [|exact Hd1]); chain_stmts pend_stmt.
  all: apply pend_insert_transaction.
Qed.

Lemma pend_give_money owner caller target amount cur d :
  pending_bounded d -> pending_bounded (snd (give_money owner caller target amount cur d)).
Proof.
  intros Hd. unfold give_money.
  destruct (negb _); [exact Hd|]. destruct (negb _); [exact Hd|].
  destruct (Qle_bool amount 0); [exact Hd|].
  destruct (get_user_account target d) as [ud d1] eqn:G.
  pose proof (pend_get_user_account _ _ _ _ Hd G) as Hd1.
  apply run_tx_preserves; [|exact Hd1]. chain_stmts pend_stmt.
Qed.

Lemma pend_collect_profit_api tok uid rows d :
  pending_bounded d -> pending_bounded (snd (collect_profit_api tok uid rows d)).
Proof.
  intros Hd. unfold collect_profit_api.
  destruct (negb _); [exact Hd|]. destruct (negb _); [exact Hd|].
  destruct rows as [|r rest]; [exact Hd|].
  destruct (collect_loop _ 0 []) as [t ids].
  destruct (Qltb t _); [exact Hd|].
  apply run_tx_preserves; [|exact Hd]. chain_stmts pend_stmt.
Qed.

Lemma money_collect_profit_api tok uid rows d :
  money_inv d -> money_inv (snd (collect_profit_api tok uid rows d)).
Proof.
  intros Hd. unfold collect_profit_api.
  destruct (negb _); [exact Hd|]. destruct (negb _); [exact Hd|].
  destruct rows as [|r rest]; [exact Hd|].
  destruct (collect_loop _ 0 []) as [t ids].
  destruct (Qltb t _) eqn:Et; [exact Hd|]. apply Qltb_false in Et.
  apply run_tx_preserves; [|exact Hd]. chain_stmts money_stmt.
  apply money_update_users. intros u _ Hn. pose proof (balance_of_nonneg u gold_dinars Hn). lra.
Qed.

Lemma money_step_all d d' : money_inv d -> step_all d d' -> money_inv d'.
Proof.
  intros Hd Hs. destruct Hs.
  - exact (money_step d d' Hd H).
  - apply money_pay_zakat; exact Hd.
  - apply money_set_balance_command; exact Hd.
  - apply money_give_money; exact Hd.
  - apply money_collect_profit_api; exact Hd.
Qed.

Lemma pend_step d d' : pending_bounded d -> step d d' -> pending_bounded d'.
Proof.
  intros Hd Hs. destruct Hs.
  - apply pend_transfer_money; exact Hd.
  - apply pend_apply_for_loan; exact Hd.
  - apply pend_fund_loan; exact Hd.
  - apply pend_repay_loan; exact Hd.
  - apply pend_currency_exchange; exact Hd.
  - apply pend_create_bank_account; exact Hd.
  - apply pend_bank_deposit; exact Hd.
  - apply pend_bank_withdraw; exact Hd.
  - apply pend_bank_transfer; exact Hd.
  - apply pend_process_overdue_rows; exact Hd.
Qed.

(** No wallet becomes negative under any sequence of calls of the handlers
    of [step], of [pay_zakat], [set_balance], [give_money] and of the
    profit-collection endpoint, from a database with non-negative wallets and
    positive loan applications. *)
Theorem wallets_never_negative_all (d d' : db) :
  wallets_nonneg d -> apps_positive d -> steps_all d d' -> wallets_nonneg d'.
Proof.
  intros Hw Ha Hs.
  assert (Hinv : money_inv d) by (split; assumption). clear Hw Ha.
  induction Hs as [d|d1 d2 d3 H12 H23 IH].
  - exact (proj1 Hinv).
  - apply IH. exact (money_step_all d1 d2 Hinv H12).
Qed.

Lemma wallets_never_negative_all_witness :
  wallets_nonneg (snd (give_money (Some uB) uB uA 5 "silver" (snd (pay_zakat uA db_AB)))).
Proof.
  apply (wallets_never_negative_all db_AB).
  - repeat constructor; vm_compute; discriminate.
  - constructor.
  - apply (steps_all_cons _ _ _ (all_pay_zakat uA db_AB)).
    apply (steps_all_cons _ _ _ (all_give_money (Some uB) uB uA 5 "silver" _)).
    apply steps_all_refl.
Defined.

(** No user ever has more than three pending loan applications, under any
    sequence of handler calls, from a database where this holds. *)
Theorem pending_apps_at_most_three (d d' : db) :
  pending_bounded d -> steps_all d d' -> pending_bounded d'.
Proof.
  intros Hd Hs. induction Hs as [d|d1 d2 d3 H12 H23 IH]; [exact Hd|].
  apply IH. destruct H12.
  - exact (pend_step d d' Hd H).
  - apply pend_pay_zakat; exact Hd.
  - apply pend_set_balance_command; exact Hd.
  - apply pend_give_money; exact Hd.
  - apply pend_collect_profit_api; exact Hd.
Qed.

Lemma pending_apps_at_most_three_witness :
  pending_bounded (snd (apply_for_loan uA 50 "gold_dinars" 30 "expand the shop" 0 db_AB)).
Proof.
  apply (pending_apps_at_most_three db_AB).
  - intros uid. vm_compute. lia.
  - apply (steps_all_cons _ _ _ (all_handler _ _ (step_apply_for_loan uA 50 "gold_dinars" 30 "expand the shop" 0 db_AB))).
    apply steps_all_refl.
Defined.

(** ** Business profit collection *)


Lemma collect_loop_eq rows t0 ids0 :
  snd (collect_loop rows t0 ids0) = ids0 ++ map row_biz_id (filter row_offers rows) /\
  fst (collect_loop rows t0 ids0) == t0 + fold_right Qplus 0 (map row_profit (filter row_offers rows)).
Proof.
  revert t0 ids0. induction rows as [|[[b dp] h] rest IH]; intros t0 ids0; simpl.
  - rewrite app_nil_r. split; [reflexivity|lra].
  - destruct (Qltb (1 # 20) (available_profit dp h)); simpl.
    + destruct (IH (t0 + available_profit dp h) (ids0 ++ [b])) as [E1 E2].
      rewrite E1, <- app_assoc. split; [reflexivity|]. rewrite E2. lra.
    + exact (IH t0 ids0).
Qed.

Lemma offered_sum_bound l :
  (forall r, In r l -> row_offers r = true) ->
  (1 # 20) * inject_Z (Z.of_nat (length l)) <= fold_right Qplus 0 (map row_profit l) /\
  (l <> [] -> (1 # 20) * inject_Z (Z.of_nat (length l)) < fold_right Qplus 0 (map row_profit l)).
Proof.
  induction l as [|r rest IH]; intros H.
  - change (inject_Z (Z.of_nat (length []))) with 0. simpl. split; [lra|]. intros C; contradiction.
  - assert (Hr : 1 # 20 < row_profit r).
    { pose proof (H r (or_introl eq_refl)) as Hr. destruct r as [[b dp] h].
      apply Qltb_true in Hr. exact Hr. }
    destruct IH as [IH1 _]; [intros x Hx; apply H; right; exact Hx|].
    cbn [length map fold_right]. rewrite Nat2Z.inj_succ, <- Z.add_1_r, inject_Z_plus.
    change (inject_Z 1) with 1. split; [|intros _]; lra.
Qed.

(** The profit loop collects exactly the businesses that offer more than
    0.05, in row order, and sums their profits; the sum is 0 when none is
    collected and otherwise exceeds 0.05 per collected business. *)
Theorem collect_loop_collects rows :
  let (total_profit, businesses_to_update) := collect_loop rows 0 [] in
  businesses_to_update = map row_biz_id (filter row_offers rows) /\
  total_profit == fold_right Qplus 0 (map row_profit (filter row_offers rows)) /\
  (businesses_to_update = [] -> total_profit == 0) /\
  (businesses_to_update <> [] ->
     (1 # 20) * inject_Z (Z.of_nat (length businesses_to_update)) < total_profit).
Proof.
  destruct (collect_loop_eq rows 0 []) as [E1 E2].
  destruct (collect_loop rows 0 []) as [t ids]. simpl in E1, E2.
  destruct (offered_sum_bound (filter row_offers rows)) as [_ B].
  { intros r Hr. apply filter_In in Hr. apply Hr. }
  subst ids. rewrite length_map.
  split; [reflexivity|]. split; [rewrite E2; lra|]. split.
  - intros Hn. destruct (filter row_offers rows); [simpl in E2; lra|discriminate Hn].
  - intros Hn. rewrite E2.
    assert (filter row_offers rows <> []) by (intros C; rewrite C in Hn; apply Hn; reflexivity).
    specialize (B H). lra.
Qed.

Lemma collect_profit_api_run uid rows d :
  validate_user_id (Some uid) = true -> rows <> [] ->
  collect_profit_api true uid rows d =
  (let t := fst (collect_loop rows 0 []) in
   if Qltb t (1 # 20) then (ProfitErr 400 "No profits available to collect", d)
   else (ProfitOk t,
         set_transactions
           (set_users d (map_if (fun u => String.eqb (user_id u) uid)
                           (fun u => set_balance u gold_dinars (balance_of u gold_dinars + t))
                           (users d)))
           (transactions d ++ [mk_txn uid "business_profit" t "gold_dinars" None]))).
Proof.
  intros Hv Hr. unfold collect_profit_api. rewrite Hv. cbn [negb].
  destruct rows as [|r rest]; [contradiction Hr; reflexivity|].
  destruct (collect_loop (r :: rest) 0 []) as [t ids]. cbn [fst].
  destruct (Qltb t (1 # 20)); reflexivity.
Qed.

Lemma filter_none_offered rows :
  existsb row_offers rows = false -> filter row_offers rows = [].
Proof.
  induction rows as [|r rest IH]; simpl; [reflexivity|].
  intros He. apply orb_false_iff in He as [E1 E3]. rewrite E1. exact (IH E3).
Qed.

Lemma collect_total_offered rows :
  (existsb row_offers rows = false -> fst (collect_loop rows 0 []) == 0) /\
  (existsb row_offers rows = true -> 1 # 20 < fst (collect_loop rows 0 [])).
Proof.
  destruct (collect_loop_eq rows 0 []) as [_ E2].
  destruct (offered_sum_bound (filter row_offers rows)) as [_ B].
  { intros r Hr. apply filter_In in Hr. apply Hr. }
  split; intros He.
  - rewrite E2, (filter_none_offered rows He). simpl. lra.
  - assert (Hn : filter row_offers rows <> []).
    { apply existsb_exists in He as [r [Hin Hr]]. intros C.
      assert (In r (filter row_offers rows)) by (apply filter_In; auto).
      rewrite C in H. exact H. }
    specialize (B Hn). rewrite E2.
    destruct (filter row_offers rows) as [|r l]; [contradiction Hn; reflexivity|].
    cbn [length] in B. rewrite Nat2Z.inj_succ, <- Z.add_1_r, inject_Z_plus in B.
    change (inject_Z 1) with 1 in B.
    assert (0 <= inject_Z (Z.of_nat (length l))).
    { change 0 with (inject_Z 0). rewrite <- Zle_Qle. lia. }
    lra.
Qed.

(** With a valid token and user id and at least one active business, the
    endpoint answers 400 No profits available to collect, changing nothing,
    exactly when no business offers more than 0.05. *)
Theorem collect_profit_api_nothing_to_collect uid rows d :
  validate_user_id (Some uid) = true -> rows <> [] ->
  (collect_profit_api true uid rows d = (ProfitErr 400 "No profits available to collect", d) <->
   existsb row_offers rows = false).
Proof.
  intros Hv Hr. rewrite (collect_profit_api_run uid rows d Hv Hr). cbv zeta.
  destruct (collect_total_offered rows) as [T0 T1].
  destruct (existsb row_offers rows) eqn:He.
  - specialize (T1 eq_refl).
    rewrite (Qltb_false_of_le _ _) by lra.
    split; [intros H; discriminate H|discriminate].
  - specialize (T0 eq_refl).
    rewrite Qltb_of_lt by lra. split; reflexivity.
Qed.

Lemma collect_profit_api_nothing_to_collect_witness :
  collect_profit_api true uA [(1%nat, 6, 2)] db_AB =
    (ProfitErr 400 "No profits available to collect", db_AB).
Proof.
  apply (collect_profit_api_nothing_to_collect uA [(1%nat, 6, 2)] db_AB).
  - reflexivity.
  - discriminate.
  - vm_compute. reflexivity.
Defined.

(** A successful profit collection reports the sum of the collected
    profits, at least 0.05, logs one business_profit transaction and credits
    that sum to the gold of the rows of [user_id], leaving every other
    balance as it was.  An unknown user still gets the success answer, but
    no wallet changes.  The gold total grows by the sum exactly when the
    user has a row; the silver total does not change. *)
Theorem collect_profit_api_credits tok uid rows d t d' :
  NoDup (map user_id (users d)) ->
  collect_profit_api tok uid rows d = (ProfitOk t, d') ->
  t == fold_right Qplus 0 (map row_profit (filter row_offers rows)) /\ 1 # 20 <= t /\
  (forall a x, balance d' a x =
     if String.eqb a uid
     then option_map (fun b => if currency_eqb x gold_dinars then b + t else b) (balance d a x)
     else balance d a x) /\
  (user_exists d uid = false -> users d' = users d) /\
  total d' gold_dinars == total d gold_dinars + (if user_exists d uid then t else 0) /\
  total d' silver_dirhams == total d silver_dirhams /\
  transactions d' = transactions d ++ [mk_txn uid "business_profit" t "gold_dinars" None].
Proof.
  intros Hnd H.
  destruct tok; [|discriminate H].
  destruct (validate_user_id (Some uid)) eqn:Hv;
    [|unfold collect_profit_api in H; rewrite Hv in H; discriminate H].
  destruct rows as [|r rest]; [unfold collect_profit_api in H; rewrite Hv in H; discriminate H|].
  assert (Hr : r :: rest <> []) by discriminate.
  rewrite (collect_profit_api_run uid _ d Hv Hr) in H. cbv zeta in H.
  destruct (collect_loop_eq (r :: rest) 0 []) as [_ E2].
  destruct (Qltb _ (1 # 20)) eqn:Et; [discriminate H|].
  apply Qltb_false in Et. injection H as <- <-.
  split; [rewrite E2; lra|]. split; [exact Et|].
  assert (Habs : user_exists d uid = false ->
                 map_if (fun u => String.eqb (user_id u) uid)
                   (fun u => set_balance u gold_dinars
                               (balance_of u gold_dinars + fst (collect_loop (r :: rest) 0 [])))
                   (users d) = users d).
  { intros He. apply map_if_absent.
    intros x Hx. destruct (String.eqb (user_id x) uid) eqn:Ex; [|reflexivity].
    exfalso. apply String.eqb_eq in Ex. unfold user_exists in He.
    assert (existsb (fun v => String.eqb (user_id v) uid) (users d) = true).
    { apply existsb_exists. exists x. split; [exact Hx|]. apply String.eqb_eq. exact Ex. }
    congruence. }
  split.
  { intros a x. unfold balance; cbn [users transactions set_transactions set_users].
    rewrite find_user_map_if by (intros; reflexivity).
    destruct (find_user (users d) a) as [v|] eqn:Fa;
      [|destruct (String.eqb a uid); reflexivity].
    destruct (find_user_In _ _ _ Fa) as [_ Hid]. cbn [option_map]. rewrite Hid.
    destruct (String.eqb a uid); [|reflexivity].
    destruct x; reflexivity. }
  split; [intros He; exact (Habs He)|].
  unfold total; cbn [users transactions set_transactions set_users].
  split; [|split; [|reflexivity]].
  - destruct (user_exists d uid) eqn:He.
    + destruct (user_exists_find _ _ He) as [u Hu].
      rewrite (sum_balances_set_one gold_dinars uid gold_dinars (fun v => balance_of v gold_dinars + fst (collect_loop (r :: rest) 0 [])) _ u Hnd Hu). simpl. lra.
    + rewrite map_if_absent; [lra|].
      intros x Hx. destruct (String.eqb (user_id x) uid) eqn:Ex; [|reflexivity].
      exfalso. apply String.eqb_eq in Ex. unfold user_exists in He.
      assert (existsb (fun v => String.eqb (user_id v) uid) (users d) = true).
      { apply existsb_exists. exists x. split; [exact Hx|]. apply String.eqb_eq. exact Ex. }
      congruence.
  - destruct (user_exists d uid) eqn:He.
    + destruct (user_exists_find _ _ He) as [u Hu].
      rewrite (sum_balances_set_one silver_dirhams uid gold_dinars (fun v => balance_of v gold_dinars + fst (collect_loop (r :: rest) 0 [])) _ u Hnd Hu). simpl. lra.
    + rewrite map_if_absent; [lra|].
      intros x Hx. destruct (String.eqb (user_id x) uid) eqn:Ex; [|reflexivity].
      exfalso. apply String.eqb_eq in Ex. unfold user_exists in He.
      assert (existsb (fun v => String.eqb (user_id v) uid) (users d) = true).
      { apply existsb_exists. exists x. split; [exact Hx|]. apply String.eqb_eq. exact Ex. }
      congruence.
Qed.

Lemma collect_profit_api_credits_witness :
  users (snd (collect_profit_api true uC [(1%nat, 60, 24)] db_AB)) = users db_AB /\
  balance (snd (collect_profit_api true uC [(1%nat, 60, 24)] db_AB)) uA gold_dinars
    = balance db_AB uA gold_dinars /\
  transactions (snd (collect_profit_api true uC [(1%nat, 60, 24)] db_AB))
    = transactions db_AB ++
      [mk_txn uC "business_profit" (fst (collect_loop [(1%nat, 60, 24)] 0 [])) "gold_dinars" None].
Proof.
  destruct (collect_profit_api_credits true uC [(1%nat, 60, 24)] db_AB
              (fst (collect_loop [(1%nat, 60, 24)] 0 []))
              (snd (collect_profit_api true uC [(1%nat, 60, 24)] db_AB))
              ltac:(solve_nodup_ids)
              ltac:(apply injective_projections; [vm_compute; reflexivity|reflexivity]))
    as (_ & _ & Hb & Hu & _ & _ & Ht).
  split; [exact (Hu eq_refl)|].
  split; [rewrite (Hb uA gold_dinars); reflexivity|exact Ht].
Defined.

(** ** Get-or-create of user accounts: [get_user_account] *)

(** [get_user_account] keeps user ids unique, adds at most one row (at the
    end), returns the row of the id asked for, and a second call with the same
    id returns the same row and changes nothing. *)
Theorem get_user_account_idempotent uid d u d1 :
  NoDup (map user_id (users d)) -> get_user_account uid d = (u, d1) ->
  NoDup (map user_id (users d1)) /\ get_user_account uid d1 = (u, d1) /\
  user_id u = uid /\
  exists added, users d1 = users d ++ added /\ (length added <= 1)%nat.
Proof.
  intros Hnd H. unfold get_user_account in H |- *.
  destruct (validate_user_id (Some uid)) eqn:Hv; cbn [negb] in H |- *.
  - destruct (find_user (users d) uid) as [v|] eqn:Hf.
    + injection H as <- <-. rewrite Hf.
      destruct (find_user_In _ _ _ Hf) as [_ Hid].
      split; [exact Hnd|]. split; [reflexivity|]. split; [exact Hid|].
      exists []. rewrite app_nil_r. split; [reflexivity|simpl; lia].
    + injection H as <- <-. cbn [users set_users].
      rewrite (find_user_app_none _ _ _ Hf). cbn [user_id]. rewrite String.eqb_refl.
      split.
      * rewrite map_app. apply NoDup_app; [exact Hnd|repeat constructor; simpl; tauto|].
        intros x Hx Hx'. destruct Hx' as [<-|[]]. exact (find_user_none_notin _ _ Hf Hx).
      * split; [reflexivity|]. split; [reflexivity|].
        exists [mk_user uid 100 500]. split; [reflexivity|simpl; lia].
  - injection H as <- <-. split; [exact Hnd|]. split; [reflexivity|]. split; [reflexivity|].
    exists []. rewrite app_nil_r. split; [reflexivity|simpl; lia].
Qed.

Lemma get_user_account_idempotent_witness :
  NoDup (map user_id (users (snd (get_user_account uC db_AB)))) /\
  get_user_account uC (snd (get_user_account uC db_AB)) = get_user_account uC db_AB /\
  user_id (fst (get_user_account uC db_AB)) = uC /\
  exists added, users (snd (get_user_account uC db_AB)) = users db_AB ++ added /\
                (length added <= 1)%nat.
Proof.
  apply (get_user_account_idempotent uC db_AB).
  - solve_nodup_ids.
  - apply injective_projections; reflexivity.
Defined.
